(** * VLC Remote: a shallow embedding of the two revisions of [VlcServer]

    The repository holds two revisions of one Home Assistant media-player
    platform:

    - [src/__init__.py], the older synchronous revision (module [Init]);
    - [src/custom_components/vlc-remote/media_player.py], the newer
      revision whose [fetch_data] and [update] are coroutines (module
      [MediaPlayer]).

    Both poll VLC's XML status endpoint, normalise the decoded document
    into a handful of attributes and send commands back through the same
    endpoint.  The Python code is dynamically typed and relies on
    exceptions, so the embedding starts with a small model of the Python
    values and operations the two files use, then a state-and-exception
    monad in which an assignment made before an exception is raised stays
    visible afterwards, and finally the two classes, method by method. *)

From Stdlib Require Import ZArith QArith Qabs Qround List String Ascii Bool Lia.
From Stdlib Require Import DecimalString DecimalPos.
Import ListNotations.

Set Implicit Arguments.
Set Warnings "-register-all".

Local Open Scope string_scope.
Local Open Scope Z_scope.

(** ** Exceptions and results *)

(** The exception classes that the modelled operations can raise.  All of
    them derive from Python's [Exception], so [except Exception] and a bare
    [except] catch every one of them.  [RequestException] stands for
    whatever [requests.get] raises on a network failure and [ExpatError]
    for what [xmltodict.parse] raises on a malformed document. *)
Inductive exn : Type :=
| TypeError
| ValueError
| KeyError
| AttributeError
| UnboundLocalError
| IndexError
| OverflowError
| RequestException
| ExpatError.

Inductive res (A : Type) : Type :=
| Ok (a : A)
| Raise (e : exn).

Arguments Ok {A} a.
Arguments Raise {A} e.

Definition res_bind {A B : Type} (r : res A) (k : A -> res B) : res B :=
  match r with
  | Ok a => k a
  | Raise e => Raise e
  end.

Definition is_ok {A : Type} (r : res A) : bool :=
  match r with
  | Ok _ => true
  | Raise _ => false
  end.

Definition exn_eqb (a b : exn) : bool :=
  match a, b with
  | TypeError, TypeError
  | ValueError, ValueError
  | KeyError, KeyError
  | AttributeError, AttributeError
  | UnboundLocalError, UnboundLocalError
  | IndexError, IndexError
  | OverflowError, OverflowError
  | RequestException, RequestException
  | ExpatError, ExpatError => true
  | _, _ => false
  end.

(** ** The state-and-exception monad

    A computation of type [Py S A] runs on a store [S] (the object's
    attributes and the outside world, or the local variables of a property)
    and either returns a value or raises.  The store is returned in both
    cases: Python does not roll back the assignments made before a
    [raise]. *)
Definition Py (S A : Type) : Type := S -> res A * S.

Definition ret {S A : Type} (a : A) : Py S A := fun s => (Ok a, s).

Definition raise {S A : Type} (e : exn) : Py S A := fun s => (Raise e, s).

Definition bind {S A B : Type} (m : Py S A) (k : A -> Py S B) : Py S B :=
  fun s =>
    match m s with
    | (Ok a, s') => k a s'
    | (Raise e, s') => (Raise e, s')
    end.

(** A pure operation that may raise, run inside a computation. *)
Definition lift {S A : Type} (r : res A) : Py S A := fun s => (r, s).

Definition gets {S A : Type} (f : S -> A) : Py S A := fun s => (Ok (f s), s).

Definition modify {S : Type} (f : S -> S) : Py S unit := fun s => (Ok tt, f s).

(** [try: m  except <classes accepted by catches>: h]. *)
Definition try_except {S A : Type} (catches : exn -> bool)
    (m : Py S A) (h : exn -> Py S A) : Py S A :=
  fun s =>
    match m s with
    | (Ok a, s') => (Ok a, s')
    | (Raise e, s') => if catches e then h e s' else (Raise e, s')
    end.

(** [except Exception] and the bare [except] of the sources. *)
Definition any_exception (e : exn) : bool := true.

(** [for x in xs: body]. *)
Fixpoint for_each {S A : Type} (xs : list A) (body : A -> Py S unit) : Py S unit :=
  match xs with
  | [] => ret tt
  | x :: xs' => bind (body x) (fun _ => for_each xs' body)
  end.

Declare Scope py_scope.
Delimit Scope py_scope with py.

Notation "x <- m ;; k" := (bind m (fun x => k))
  (at level 100, m at next level, right associativity) : py_scope.
Notation "m ;;; k" := (bind m (fun _ => k))
  (at level 100, right associativity) : py_scope.
Notation "x <~ r ;; k" := (res_bind r (fun x => k))
  (at level 100, r at next level, right associativity) : py_scope.

Local Open Scope py_scope.

(** ** Python values

    What [xmltodict.parse] produces: text ([str]), [None] for an empty
    element, a list for a repeated element and an ordered dictionary for an
    element with children or attributes.  Dictionaries are association
    lists because [xmltodict] returns ordered dictionaries and iterating
    over one yields its keys in document order. *)
Inductive pyval : Type :=
| VNone
| VStr (s : string)
| VList (l : list pyval)
| VDict (d : list (string * pyval)).

Fixpoint assoc (k : string) (d : list (string * pyval)) : option pyval :=
  match d with
  | [] => None
  | (k', v) :: d' => if String.eqb k k' then Some v else assoc k d'
  end.

(** [v == s] for a string literal [s]. *)
Definition eq_str (v : pyval) (s : string) : bool :=
  match v with
  | VStr t => String.eqb t s
  | _ => false
  end.

(** [v != {}]: only an empty dictionary equals [{}]. *)
Definition ne_empty_dict (v : pyval) : bool :=
  match v with
  | VDict [] => false
  | _ => true
  end.

(** [v.get(k)]: only dictionaries have a [get] method. *)
Definition dict_get (v : pyval) (k : string) : res pyval :=
  match v with
  | VDict d =>
      match assoc k d with
      | Some x => Ok x
      | None => Ok VNone
      end
  | _ => Raise AttributeError
  end.

(** [v[k]] for a string key [k]. *)
Definition getitem (v : pyval) (k : string) : res pyval :=
  match v with
  | VDict d =>
      match assoc k d with
      | Some x => Ok x
      | None => Raise KeyError
      end
  | _ => Raise TypeError
  end.

Fixpoint is_prefix (p s : string) : bool :=
  match p, s with
  | EmptyString, _ => true
  | String a p', String b s' => Ascii.eqb a b && is_prefix p' s'
  | String _ _, EmptyString => false
  end.

Fixpoint is_substring (p s : string) : bool :=
  is_prefix p s ||
  match s with
  | EmptyString => false
  | String _ s' => is_substring p s'
  end.

(** [k in v] for a string [k]: key membership in a dictionary, element
    membership in a list, substring test in a string, [TypeError] on
    [None]. *)
Definition contains (k : string) (v : pyval) : res bool :=
  match v with
  | VDict d =>
      match assoc k d with
      | Some _ => Ok true
      | None => Ok false
      end
  | VList l => Ok (existsb (fun x => eq_str x k) l)
  | VStr s => Ok (is_substring k s)
  | VNone => Raise TypeError
  end.

Fixpoint chars (s : string) : list pyval :=
  match s with
  | EmptyString => []
  | String c s' => VStr (String c EmptyString) :: chars s'
  end.

(** The items a [for] loop over [v] visits: the elements of a list, the
    keys of a dictionary, the characters of a string. *)
Definition iter (v : pyval) : res (list pyval) :=
  match v with
  | VList l => Ok l
  | VDict d => Ok (map (fun kv => VStr (fst kv)) d)
  | VStr s => Ok (chars s)
  | VNone => Raise TypeError
  end.

(** ** [int], [str], [/] and [str.format] *)

(** ASCII white space as [int] strips it: tab to carriage return, the four
    separators 28 to 31, and the space.  Strings are byte strings here, so
    the white space and the digits outside ASCII that Python also accepts
    are not modelled. *)
Definition is_space (c : ascii) : bool :=
  let n := Z.of_N (N_of_ascii c) in
  ((9 <=? n) && (n <=? 13)) || ((28 <=? n) && (n <=? 32)).

Definition digit_val (c : ascii) : option Z :=
  let n := Z.of_N (N_of_ascii c) in
  if (48 <=? n) && (n <=? 57) then Some (n - 48) else None.

Fixpoint lstrip (s : string) : string :=
  match s with
  | EmptyString => EmptyString
  | String c s' => if is_space c then lstrip s' else s
  end.

Fixpoint rstrip (s : string) : string :=
  match s with
  | EmptyString => EmptyString
  | String c s' =>
      match rstrip s' with
      | EmptyString => if is_space c then EmptyString else String c EmptyString
      | t => String c t
      end
  end.

(** The digits of a decimal literal: at least one digit, and single
    underscores allowed between digits only. *)
Fixpoint int_digits (s : string) (acc : Z) (after_digit : bool) : option Z :=
  match s with
  | EmptyString => if after_digit then Some acc else None
  | String c s' =>
      match digit_val c with
      | Some d => int_digits s' (10 * acc + d) true
      | None =>
          if Ascii.eqb c "_" && after_digit then int_digits s' acc false else None
      end
  end.

(** [int(s)] for a string [s], base ten. *)
Definition int_of_str (s : string) : res Z :=
  let t := rstrip (lstrip s) in
  let parsed :=
    match t with
    | String c t' =>
        if Ascii.eqb c "-" then option_map Z.opp (int_digits t' 0 false)
        else if Ascii.eqb c "+" then int_digits t' 0 false
        else int_digits t 0 false
    | EmptyString => None
    end in
  match parsed with
  | Some z => Ok z
  | None => Raise ValueError
  end.

(** [int(v)]: [None], lists and dictionaries are a [TypeError]. *)
Definition py_int (v : pyval) : res Z :=
  match v with
  | VStr s => int_of_str s
  | _ => Raise TypeError
  end.

(** [str(z)] for an integer. *)
Definition str_of_int (z : Z) : string :=
  NilZero.string_of_int (Z.to_int z).

(** Python floats are modelled by the rationals they denote.

    [float_of_int n] is the double nearest to the integer [n] (ties to
    even), as an integer again; integers of at most 53 bits are their own
    double. *)
Definition float_of_int (n : Z) : Z :=
  let a := Z.abs n in
  let bits := Z.log2 a + 1 in
  if bits <=? 53 then n
  else
    let sh := bits - 53 in
    let q := Z.shiftr a sh in
    let r := Z.land a (Z.ones sh) in
    let half := Z.shiftl 1 (sh - 1) in
    let q' := if (half <? r) || ((r =? half) && Z.odd q) then q + 1 else q in
    Z.sgn n * Z.shiftl q' sh.

(** [n / 256] on integers, Python 3's true division.  The divisor is a
    power of two, so the correctly rounded quotient is the rounded numerator
    over 256; it is an [OverflowError] when that is no double. *)
Definition truediv_256 (n : Z) : res Q :=
  let m := float_of_int n in
  if 2 ^ 1032 <=? Z.abs m then Raise OverflowError else Ok (m # 256).

(** [int(x * 256)] for a float [x]: the product by a power of two is exact
    unless it overflows to infinity (which [int] rejects with an
    [OverflowError]), and [int] truncates toward zero.  Not-a-number and
    the infinities themselves are not rationals and are left out. *)
Definition int_times_256 (x : Q) : res Z :=
  if Qle_bool (2 ^ 1016 # 1) (Qabs x) then Raise OverflowError
  else Ok (Z.quot (Qnum x * 256) (Zpos (Qden x))).

(** [template.format(a1, ..., an)] for templates whose replacement fields are all
    the automatic [{}]; the arguments are already converted with [str].
    Doubled braces are literal braces, surplus arguments are ignored. *)
Fixpoint format (template : string) (args : list string) : res string :=
  match template with
  | EmptyString => Ok EmptyString
  | String c rest =>
      if Ascii.eqb c "{" then
        match rest with
        | String c' rest' =>
            if Ascii.eqb c' "}" then
              match args with
              | a :: args' => (r <~ format rest' args' ;; Ok (a ++ r))
              | [] => Raise IndexError
              end
            else if Ascii.eqb c' "{" then
              (r <~ format rest' args ;; Ok (String "{" r))
            else Raise ValueError
        | EmptyString => Raise ValueError
        end
      else if Ascii.eqb c "}" then
        match rest with
        | String c' rest' =>
            if Ascii.eqb c' "}" then
              (r <~ format rest' args ;; Ok (String "}" r))
            else Raise ValueError
        | EmptyString => Raise ValueError
        end
      else (r <~ format rest args ;; Ok (String c r))
  end.

(** ** Home Assistant constants and configuration values *)

(** The [STATE_*] constants both files import from [homeassistant.const].
    They are plain strings there; only their being distinct, and their
    being strings rather than mappings, matters below. *)
Inductive ha_state : Type :=
| STATE_OFF
| STATE_PLAYING
| STATE_PAUSED
| STATE_UNKNOWN
| STATE_IDLE.

(** What the [_state] attribute can hold: [None] (its initial value in
    [src/__init__.py]), the empty dictionary (its initial value in
    [media_player.py]) or one of the constants. *)
Inductive state_attr : Type :=
| StateNone
| StateEmptyDict
| StateConst (c : ha_state).

(** [state.get(key, None)]: the empty dictionary answers [None], a string
    constant and [None] have no [get] method. *)
Definition state_get (s : state_attr) (key : string) : res pyval :=
  match s with
  | StateEmptyDict => Ok VNone
  | StateNone | StateConst _ => Raise AttributeError
  end.

(** A validated configuration value: a string ([cv.string]), a port
    number ([cv.port]) or [None] for an optional key left out. *)
Inductive confval : Type :=
| CStr (s : string)
| CInt (z : Z)
| CNone.

(** [str(c)], as [str.format] applies it to its arguments. *)
Definition py_str (c : confval) : string :=
  match c with
  | CStr s => s
  | CInt z => str_of_int z
  | CNone => "None"
  end.

(** *** Platform set-up: configuration, host data, feature flags *)

(** A dictionary with string keys and values of any kind, in insertion
    order: [d.get(k)]/[k in d] and [d[k] = v], which replaces the value of
    a key already present, in place, and appends a new key at the end. *)
Fixpoint lookup {V : Type} (k : string) (d : list (string * V)) : option V :=
  match d with
  | [] => None
  | (k', v) :: d' => if String.eqb k k' then Some v else lookup k d'
  end.

Fixpoint store {V : Type} (k : string) (v : V) (d : list (string * V))
    : list (string * V) :=
  match d with
  | [] => [(k, v)]
  | (k', v') :: d' =>
      if String.eqb k k' then (k, v) :: d' else (k', v') :: store k v d'
  end.

(** The validated configuration of one platform entry. *)
Definition Config : Type := list (string * confval).

(** [config.get(key, default)]; [config.get(key)] is the same with the
    default [None]. *)
Definition config_get (config : Config) (key : string) (default : confval) : confval :=
  match lookup key config with
  | Some v => v
  | None => default
  end.

(** Modelled from the spec: the configuration keys [CONF_NAME], [CONF_HOST],
    [CONF_PORT], [CONF_USERNAME] and [CONF_PASSWORD], which both files
    import from [homeassistant.const]; the specification lists the keys as
    name, host, port, username and password. *)
Definition CONF_NAME : string := "name".
Definition CONF_HOST : string := "host".
Definition CONF_PORT : string := "port".
Definition CONF_USERNAME : string := "username".
Definition CONF_PASSWORD : string := "password".

(** The feature flags both files import from Home Assistant's media player
    component.  Their values are Home Assistant's, so they are taken as
    given; the host tests a flag [f] with [supported_features & f]. *)
Record Features : Type := {
  SUPPORT_PAUSE : Z;
  SUPPORT_SEEK : Z;
  SUPPORT_VOLUME_SET : Z;
  SUPPORT_VOLUME_MUTE : Z;
  SUPPORT_PREVIOUS_TRACK : Z;
  SUPPORT_NEXT_TRACK : Z;
  SUPPORT_VOLUME_STEP : Z;
  SUPPORT_STOP : Z;
  SUPPORT_CLEAR_PLAYLIST : Z;
  SUPPORT_PLAY : Z
}.

(** ** The outside world *)

Record HttpRequest : Type := {
  url : string;
  auth : confval * confval
}.

Record HttpResponse : Type := {
  status_code : Z;
  text : string
}.

Inductive LogRecord : Type :=
| LogDebug (msg : string)
| LogError (msg : string).

(** The requests sent and the log records written so far, newest first. *)
Record World : Type := {
  sent : list HttpRequest;
  logged : list LogRecord
}.

(** The two library calls whose results the code depends on.
    [requests_get history r] is the server's answer to request [r] after
    the requests of [history] (newest first), or the exception raised when
    no answer arrives; [xmltodict_parse body] is the decoded document or
    the exception the parser raises. *)
Record Env : Type := {
  requests_get : list HttpRequest -> HttpRequest -> res HttpResponse;
  xmltodict_parse : string -> res pyval
}.

(** [req.status]: a [requests] response has [status_code] but no
    attribute [status]. *)
Definition response_status (req : HttpResponse) : res Z := Raise AttributeError.

(** How a block that contains a [return] statement ends: by returning
    from the function, or by reaching its end with a value bound. *)
Inductive completion (A B : Type) : Type :=
| Returned (v : A)
| Fell (b : B).

Arguments Returned {A B} v.
Arguments Fell {A B} b.

Section Store.

(** The store of a method: the object and the world. *)
Variable E : Type.

Definition Store : Type := (E * World)%type.

Definition self_get {A : Type} (f : E -> A) : Py Store A :=
  gets (fun st => f (fst st)).

Definition self_set (upd : E -> E) : Py Store unit :=
  modify (fun st => (upd (fst st), snd st)).

Definition log (r : LogRecord) : Py Store unit :=
  modify (fun st =>
    (fst st, {| sent := sent (snd st); logged := r :: logged (snd st) |})).

(** [requests.get(url, auth=auth)]. *)
Definition http_get (env : Env) (u : string) (a : confval * confval)
    : Py Store HttpResponse :=
  fun st =>
    let r := {| url := u; auth := a |} in
    (requests_get env (sent (snd st)) r,
     (fst st, {| sent := r :: sent (snd st); logged := logged (snd st) |})).

End Store.

Arguments self_get {E A} f.
Arguments self_set {E} upd.
Arguments log {E} r.
Arguments http_get {E} env u a.

(** ** [src/__init__.py]: the synchronous revision *)

Module Init.

Record VlcServer : Type := {
  _status : pyval;
  _name : confval;
  _port : confval;
  _host : confval;
  _username : confval;
  _password : confval;
  _volume : option Q;
  _muted : option bool;
  _state : state_attr;
  _media_position : option Z;
  _media_duration : option Z;
  _media_metadata : pyval
}.

(** [VlcServer.__init__]. *)
Definition init (name host port username password : confval) : VlcServer :=
  {| _status := VDict [];
     _name := name;
     _port := port;
     _host := host;
     _username := username;
     _password := password;
     _volume := None;
     _muted := None;
     _state := StateNone;
     _media_position := None;
     _media_duration := None;
     _media_metadata := VDict [] |}.

(** Attribute assignments [self._x = v]. *)
Definition set_status (v : pyval) (o : VlcServer) : VlcServer :=
  {| _status := v; _name := _name o; _port := _port o; _host := _host o;
     _username := _username o; _password := _password o;
     _volume := _volume o; _muted := _muted o; _state := _state o;
     _media_position := _media_position o;
     _media_duration := _media_duration o;
     _media_metadata := _media_metadata o |}.

Definition set_volume (v : option Q) (o : VlcServer) : VlcServer :=
  {| _status := _status o; _name := _name o; _port := _port o; _host := _host o;
     _username := _username o; _password := _password o;
     _volume := v; _muted := _muted o; _state := _state o;
     _media_position := _media_position o;
     _media_duration := _media_duration o;
     _media_metadata := _media_metadata o |}.

Definition set_muted (v : option bool) (o : VlcServer) : VlcServer :=
  {| _status := _status o; _name := _name o; _port := _port o; _host := _host o;
     _username := _username o; _password := _password o;
     _volume := _volume o; _muted := v; _state := _state o;
     _media_position := _media_position o;
     _media_duration := _media_duration o;
     _media_metadata := _media_metadata o |}.

Definition set_state (v : state_attr) (o : VlcServer) : VlcServer :=
  {| _status := _status o; _name := _name o; _port := _port o; _host := _host o;
     _username := _username o; _password := _password o;
     _volume := _volume o; _muted := _muted o; _state := v;
     _media_position := _media_position o;
     _media_duration := _media_duration o;
     _media_metadata := _media_metadata o |}.

Definition set_media_position (v : option Z) (o : VlcServer) : VlcServer :=
  {| _status := _status o; _name := _name o; _port := _port o; _host := _host o;
     _username := _username o; _password := _password o;
     _volume := _volume o; _muted := _muted o; _state := _state o;
     _media_position := v;
     _media_duration := _media_duration o;
     _media_metadata := _media_metadata o |}.

Definition set_media_duration (v : option Z) (o : VlcServer) : VlcServer :=
  {| _status := _status o; _name := _name o; _port := _port o; _host := _host o;
     _username := _username o; _password := _password o;
     _volume := _volume o; _muted := _muted o; _state := _state o;
     _media_position := _media_position o;
     _media_duration := v;
     _media_metadata := _media_metadata o |}.

Definition set_media_metadata (v : pyval) (o : VlcServer) : VlcServer :=
  {| _status := _status o; _name := _name o; _port := _port o; _host := _host o;
     _username := _username o; _password := _password o;
     _volume := _volume o; _muted := _muted o; _state := _state o;
     _media_position := _media_position o;
     _media_duration := _media_duration o;
     _media_metadata := v |}.

(** [self._media]: no method of the class assigns an attribute of that
    name, and the base class [MediaPlayerDevice] has none either. *)
Definition self_media (o : VlcServer) : res pyval := Raise AttributeError.

(** [v.metadata]: none of the modelled values has such an attribute. *)
Definition getattr_metadata (v : pyval) : res pyval := Raise AttributeError.

(** The first statements of [fetch_data]: the target of the request.
    Note the stem: a dot where VLC's path has a slash. *)
Definition build_url (self : VlcServer) (command : option string) : res string :=
  let url_stem := "http://{}:{}/requests.status.xml" in
  match command with
  | None => format url_stem [py_str (_host self); py_str (_port self)]
  | Some c =>
      let url_stem := url_stem ++ "?command={}" in
      format url_stem [py_str (_host self); py_str (_port self); c]
  end.

Section Methods.

Variable env : Env.

(** [VlcServer.fetch_data(command)].  The parameter [value] of the source
    is never read and is left out. *)
Definition fetch_data (command : option string) : Py (Store VlcServer) pyval :=
  self <- gets fst ;;
  url <- lift (build_url self command) ;;
  log (LogDebug "URL: %s") ;;;
  username <- self_get _username ;;
  password <- self_get _password ;;
  r <- try_except any_exception
         (req <- http_get env url (username, password) ;;
          if negb (status_code req =? 200) then
            (status <- lift (response_status req) ;;
             log (LogError "Query failed, response code: %s Full message: %s") ;;;
             ret (Returned (VDict [])))
          else
            (doc <- lift (xmltodict_parse env (text req)) ;;
             data <- lift (dict_get doc "root") ;;
             ret (Fell data)))
         (fun error =>
            log (LogError "Failed communicating with VLC Server: %s") ;;;
            ret (Returned (VDict []))) ;;
  match r with
  | Returned v => ret v
  | Fell data =>
      try_except (exn_eqb AttributeError)
        (ret data)
        (fun _ =>
           log (LogError "Received invalid response: %s") ;;;
           ret (VDict []))
  end.

(** [update], the body of the loop over the categories. *)
Definition update_information_step (info : pyval) : Py (Store VlcServer) unit :=
  name <- lift (dict_get info "@name") ;;
  if eq_str name "meta" then
    (i <- lift (getitem info "info") ;;
     self_set (set_media_metadata i))
  else ret tt.

(** [update], the block guarded by the test for the key [information]:
    the [info] entry of every category named [meta] becomes the stored
    metadata; whatever goes wrong inside the [try] is swallowed. *)
Definition update_information : Py (Store VlcServer) unit :=
  self_status <- self_get _status ;;
  has_information <- lift (contains "information" self_status) ;;
  (if has_information : bool then
     try_except any_exception
       (self_status <- self_get _status ;;
        information <- lift (getitem self_status "information") ;;
        category <- lift (getitem information "category") ;;
        infos <- lift (iter category) ;;
        for_each infos update_information_step)
       (fun _ => ret tt)
   else ret tt).

(** [update], the chain of comparisons on the raw state string. *)
Definition update_state (status : pyval) : Py (Store VlcServer) unit :=
  state <- lift (dict_get status "state") ;;
  (if eq_str state "playing" then self_set (set_state (StateConst STATE_PLAYING))
   else
     (state <- lift (dict_get status "state") ;;
      if eq_str state "paused" then self_set (set_state (StateConst STATE_PAUSED))
      else self_set (set_state (StateConst STATE_IDLE)))).

(** [update], the four conversions: position, duration, volume level and
    mute flag. *)
Definition update_levels (status : pyval) : Py (Store VlcServer) unit :=
  time <- lift (dict_get status "time") ;;
  position <- lift (py_int time) ;;
  self_set (set_media_position (Some position)) ;;;
  length <- lift (dict_get status "length") ;;
  duration <- lift (py_int length) ;;
  self_set (set_media_duration (Some duration)) ;;;
  volume <- lift (dict_get status "volume") ;;
  raw <- lift (py_int volume) ;;
  level <- lift (truediv_256 raw) ;;
  self_set (set_volume (Some level)) ;;;
  volume <- lift (dict_get status "volume") ;;
  raw <- lift (py_int volume) ;;
  self_set (set_muted (Some (raw =? 0))) ;;;
  ret tt.

(** [VlcServer.update()]. *)
Definition update : Py (Store VlcServer) bool :=
  status <- fetch_data None ;;
  self_set (set_status status) ;;;
  update_information ;;;
  update_state status ;;;
  update_levels status ;;;
  ret true.

(** [VlcServer.mute_volume(mute)]. *)
Definition mute_volume (mute : bool) : Py (Store VlcServer) unit :=
  let mute_numeric := if mute then "0" else "256" in
  command <- lift (format "volume&val={}" [mute_numeric]) ;;
  fetch_data (Some command) ;;;
  self_set (set_muted (Some mute)).

(** [VlcServer.set_volume_level(volume)]. *)
Definition set_volume_level (volume : Q) : Py (Store VlcServer) unit :=
  scaled <- lift (int_times_256 volume) ;;
  let new_volume := str_of_int scaled in
  command <- lift (format "volume&val={}" [new_volume]) ;;
  fetch_data (Some command) ;;;
  self_set (set_volume (Some volume)).

(** [VlcServer.media_play()]: the command sent is [pl_pause], VLC's
    toggle. *)
Definition media_play : Py (Store VlcServer) unit :=
  fetch_data (Some "pl_pause") ;;;
  self_set (set_state (StateConst STATE_PLAYING)).

(** [VlcServer.media_pause()]. *)
Definition media_pause : Py (Store VlcServer) unit :=
  fetch_data (Some "pl_pause") ;;;
  self_set (set_state (StateConst STATE_PAUSED)).

(** [VlcServer.media_stop()]. *)
Definition media_stop : Py (Store VlcServer) unit :=
  fetch_data (Some "pl_stop") ;;;
  self_set (set_state (StateConst STATE_IDLE)).

End Methods.

(** *** Properties

    The properties only read the object.  The two metadata properties run
    on a store of their own, their local variables, because their handlers
    return what the interrupted body had assigned. *)

Definition name (self : VlcServer) : confval := _name self.

Definition state (self : VlcServer) : state_attr := _state self.

Definition volume_level (self : VlcServer) : option Q := _volume self.

Definition is_volume_muted (self : VlcServer) : option bool := _muted self.

Definition media_duration (self : VlcServer) : option Z := _media_duration self.

Definition media_position (self : VlcServer) : option Z := _media_position self.

(** Reading a local variable that may not have been assigned yet. *)
Definition read_local {L : Type} (f : L -> option pyval) : Py L pyval :=
  fun l =>
    match f l with
    | Some v => (Ok v, l)
    | None => (Raise UnboundLocalError, l)
    end.

(** The locals of [media_title]: [title], unbound at first, and
    [filename], which the first statement sets to the string [None]. *)
Record title_locals : Type := {
  title : option pyval;
  filename : pyval
}.

(** [media_title], the body of its loop. *)
Definition media_title_step (item : pyval) : Py title_locals unit :=
  n <- lift (getitem item "@name") ;;
  (if eq_str n "title" then
     (t <- lift (getitem item "#text") ;;
      modify (fun l => {| title := Some t; filename := filename l |}))
   else ret tt) ;;;
  n <- lift (getitem item "@name") ;;
  (if eq_str n "filename" then
     (t <- lift (getitem item "#text") ;;
      modify (fun l => {| title := title l; filename := t |}))
   else ret tt).

(** [VlcServer.media_title].  The condition reads [self._media.metadata],
    not [self._media_metadata]. *)
Definition media_title (self : VlcServer) : res pyval :=
  let body : Py title_locals pyval :=
    try_except any_exception
      (media <- lift (self_media self) ;;
       metadata <- lift (getattr_metadata media) ;;
       (if ne_empty_dict metadata then
          (items <- lift (iter (_media_metadata self)) ;;
           for_each items media_title_step)
        else ret tt) ;;;
       read_local title)
      (fun _ => gets filename) in
  fst (body {| title := None; filename := VStr "None" |}).

(** [media_artist], the body of its loop; the only local is [artist]. *)
Definition media_artist_step (item : pyval) : Py (option pyval) unit :=
  n <- lift (getitem item "@name") ;;
  if eq_str n "showName" then
    (t <- lift (getitem item "#text") ;;
     modify (fun _ => Some t))
  else ret tt.

(** [VlcServer.media_artist]. *)
Definition media_artist (self : VlcServer) : res pyval :=
  let body : Py (option pyval) pyval :=
    try_except any_exception
      ((if ne_empty_dict (_media_metadata self) then
          (items <- lift (iter (_media_metadata self)) ;;
           for_each items media_artist_step)
        else ret tt) ;;;
       read_local (fun artist => artist))
      (fun _ => ret (VStr "None")) in
  fst (body None).

(** *** Module constants and platform set-up *)

Definition DEFAULT_NAME : string := "VLC Remote".
Definition DEFAULT_USERNAME : string := "".
Definition DEFAULT_PASSWORD : string := "".

(** [SUPPORT_VLCREMOTE], a bitwise or of five flags. *)
Definition SUPPORT_VLCREMOTE (F : Features) : Z :=
  Z.lor (Z.lor (Z.lor (Z.lor (SUPPORT_PAUSE F) (SUPPORT_VOLUME_MUTE F))
                      (SUPPORT_PLAY F))
               (SUPPORT_VOLUME_SET F))
        (SUPPORT_STOP F).

(** [VlcServer.supported_features]. *)
Definition supported_features (F : Features) (self : VlcServer) : Z :=
  SUPPORT_VLCREMOTE F.

(** [setup_platform(hass, config, async_add_devices)]: one call of the
    host's callback, on a list of one new object.  [H] is whatever the
    callback acts on; [hass] and [discovery_info] are not used. *)
Definition setup_platform {H : Type} (config : Config)
    (async_add_devices : list VlcServer -> H -> H) : H -> H :=
  async_add_devices
    [init (config_get config CONF_NAME (CStr DEFAULT_NAME))
          (config_get config CONF_HOST CNone)
          (config_get config CONF_PORT CNone)
          (config_get config CONF_USERNAME (CStr DEFAULT_USERNAME))
          (config_get config CONF_PASSWORD (CStr DEFAULT_PASSWORD))].

End Init.

(** ** [media_player.py]: the revision with coroutines *)

(** Calling a function declared with [async def] only creates a coroutine
    object; its body runs when the object is awaited. *)
Definition call_async {S A : Type} (body : Py S A) : Py S (Py S A) := ret body.

Definition await {S A : Type} (coroutine : Py S A) : Py S A := coroutine.

Module MediaPlayer.

(** [_status] is not assigned by the constructor: the attribute exists
    only once [update] has run. *)
Record VlcServer : Type := {
  _status : option pyval;
  _name : confval;
  _port : confval;
  _host : confval;
  _username : confval;
  _password : confval;
  _volume : option Q;
  _muted : option bool;
  _state : state_attr;
  _media_position : option Z;
  _media_duration : option Z;
  _media_metadata : pyval;
  _currentplaylist : pyval
}.

(** [VlcServer.__init__]; the argument [hass] is not stored. *)
Definition init (name host port username password : confval) : VlcServer :=
  {| _status := None;
     _name := name;
     _port := port;
     _host := host;
     _username := username;
     _password := password;
     _volume := None;
     _muted := None;
     _state := StateEmptyDict;
     _media_position := None;
     _media_duration := None;
     _media_metadata := VDict [];
     _currentplaylist := VNone |}.

Definition set_status (v : pyval) (o : VlcServer) : VlcServer :=
  {| _status := Some v; _name := _name o; _port := _port o; _host := _host o;
     _username := _username o; _password := _password o;
     _volume := _volume o; _muted := _muted o; _state := _state o;
     _media_position := _media_position o;
     _media_duration := _media_duration o;
     _media_metadata := _media_metadata o;
     _currentplaylist := _currentplaylist o |}.

Definition set_volume (v : option Q) (o : VlcServer) : VlcServer :=
  {| _status := _status o; _name := _name o; _port := _port o; _host := _host o;
     _username := _username o; _password := _password o;
     _volume := v; _muted := _muted o; _state := _state o;
     _media_position := _media_position o;
     _media_duration := _media_duration o;
     _media_metadata := _media_metadata o;
     _currentplaylist := _currentplaylist o |}.

Definition set_muted (v : option bool) (o : VlcServer) : VlcServer :=
  {| _status := _status o; _name := _name o; _port := _port o; _host := _host o;
     _username := _username o; _password := _password o;
     _volume := _volume o; _muted := v; _state := _state o;
     _media_position := _media_position o;
     _media_duration := _media_duration o;
     _media_metadata := _media_metadata o;
     _currentplaylist := _currentplaylist o |}.

Definition set_state (v : state_attr) (o : VlcServer) : VlcServer :=
  {| _status := _status o; _name := _name o; _port := _port o; _host := _host o;
     _username := _username o; _password := _password o;
     _volume := _volume o; _muted := _muted o; _state := v;
     _media_position := _media_position o;
     _media_duration := _media_duration o;
     _media_metadata := _media_metadata o;
     _currentplaylist := _currentplaylist o |}.

Definition set_media_position (v : option Z) (o : VlcServer) : VlcServer :=
  {| _status := _status o; _name := _name o; _port := _port o; _host := _host o;
     _username := _username o; _password := _password o;
     _volume := _volume o; _muted := _muted o; _state := _state o;
     _media_position := v;
     _media_duration := _media_duration o;
     _media_metadata := _media_metadata o;
     _currentplaylist := _currentplaylist o |}.

Definition set_media_duration (v : option Z) (o : VlcServer) : VlcServer :=
  {| _status := _status o; _name := _name o; _port := _port o; _host := _host o;
     _username := _username o; _password := _password o;
     _volume := _volume o; _muted := _muted o; _state := _state o;
     _media_position := _media_position o;
     _media_duration := v;
     _media_metadata := _media_metadata o;
     _currentplaylist := _currentplaylist o |}.

Definition set_media_metadata (v : pyval) (o : VlcServer) : VlcServer :=
  {| _status := _status o; _name := _name o; _port := _port o; _host := _host o;
     _username := _username o; _password := _password o;
     _volume := _volume o; _muted := _muted o; _state := _state o;
     _media_position := _media_position o;
     _media_duration := _media_duration o;
     _media_metadata := v;
     _currentplaylist := _currentplaylist o |}.

(** Reading [self._status]. *)
Definition self_status : Py (Store VlcServer) pyval :=
  fun st =>
    match _status (fst st) with
    | Some v => (Ok v, st)
    | None => (Raise AttributeError, st)
    end.

(** The first statements of [fetch_data]: the target of the request. *)
Definition build_url (self : VlcServer) (command : option string) : res string :=
  let url_stem := "http://{}:{}/requests/status.xml" in
  match command with
  | None => format url_stem [py_str (_host self); py_str (_port self)]
  | Some c =>
      let url_stem := url_stem ++ "?command={}" in
      format url_stem [py_str (_host self); py_str (_port self); c]
  end.

Section Methods.

Variable env : Env.

(** The body of the coroutine [VlcServer.fetch_data(command)]; the
    parameter [value] of the source is never read and is left out. *)
Definition fetch_data (command : option string) : Py (Store VlcServer) pyval :=
  self <- gets fst ;;
  url <- lift (build_url self command) ;;
  log (LogDebug "URL: %s") ;;;
  username <- self_get _username ;;
  password <- self_get _password ;;
  r <- try_except any_exception
         (req <- http_get env url (username, password) ;;
          if negb (status_code req =? 200) then
            (status <- lift (response_status req) ;;
             log (LogError "Query failed, response code: %s Full message: %s") ;;;
             ret (Returned (VDict [])))
          else
            (doc <- lift (xmltodict_parse env (text req)) ;;
             data <- lift (dict_get doc "root") ;;
             ret (Fell data)))
         (fun error =>
            log (LogError "Failed communicating with VLC Server: %s") ;;;
            ret (Returned (VDict []))) ;;
  match r with
  | Returned v => ret v
  | Fell data =>
      try_except (exn_eqb AttributeError)
        (ret data)
        (fun _ =>
           log (LogError "Received invalid response: %s") ;;;
           ret (VDict []))
  end.

(** [update], the body of the loop over the categories. *)
Definition update_information_step (info : pyval) : Py (Store VlcServer) unit :=
  name <- lift (dict_get info "@name") ;;
  if eq_str name "meta" then
    (i <- lift (getitem info "info") ;;
     self_set (set_media_metadata i))
  else ret tt.

(** [update], the block guarded by the test for the key [information]. *)
Definition update_information : Py (Store VlcServer) unit :=
  current <- self_status ;;
  has_information <- lift (contains "information" current) ;;
  (if has_information : bool then
     try_except any_exception
       (current <- self_status ;;
        information <- lift (getitem current "information") ;;
        category <- lift (getitem information "category") ;;
        infos <- lift (iter category) ;;
        for_each infos update_information_step)
       (fun _ => ret tt)
   else ret tt).

(** [update], the chain of comparisons on the raw state string.  It has
    no final [else]: an unmatched string leaves [_state] as it was. *)
Definition update_state (status : pyval) : Py (Store VlcServer) unit :=
  state <- lift (dict_get status "state") ;;
  (if eq_str state "playing" then self_set (set_state (StateConst STATE_PLAYING))
   else
     (state <- lift (dict_get status "state") ;;
      if eq_str state "paused" then self_set (set_state (StateConst STATE_PAUSED))
      else
        (state <- lift (dict_get status "state") ;;
         if eq_str state "stopped" then self_set (set_state (StateConst STATE_IDLE))
         else ret tt))).

(** [update], the four conversions; the position is read from the key
    [position]. *)
Definition update_levels (status : pyval) : Py (Store VlcServer) unit :=
  position <- lift (dict_get status "position") ;;
  position <- lift (py_int position) ;;
  self_set (set_media_position (Some position)) ;;;
  length <- lift (dict_get status "length") ;;
  duration <- lift (py_int length) ;;
  self_set (set_media_duration (Some duration)) ;;;
  volume <- lift (dict_get status "volume") ;;
  raw <- lift (py_int volume) ;;
  level <- lift (truediv_256 raw) ;;
  self_set (set_volume (Some level)) ;;;
  volume <- lift (dict_get status "volume") ;;
  raw <- lift (py_int volume) ;;
  self_set (set_muted (Some (raw =? 0))) ;;;
  ret tt.

(** The body of the coroutine [VlcServer.update()]. *)
Definition update : Py (Store VlcServer) bool :=
  coroutine <- call_async (fetch_data None) ;;
  status <- await coroutine ;;
  self_set (set_status status) ;;;
  update_information ;;;
  update_state status ;;;
  update_levels status ;;;
  ret true.

(** [VlcServer.media_play()], an ordinary method: it calls the coroutine
    function without awaiting the result, so no request is sent. *)
Definition media_play : Py (Store VlcServer) unit :=
  call_async (fetch_data (Some "pl_play")) ;;;
  self_set (set_state (StateConst STATE_PLAYING)).

(** [VlcServer.media_pause()]. *)
Definition media_pause : Py (Store VlcServer) unit :=
  call_async (fetch_data (Some "pl_pause")) ;;;
  self_set (set_state (StateConst STATE_PAUSED)).

(** [VlcServer.media_stop()]. *)
Definition media_stop : Py (Store VlcServer) unit :=
  call_async (fetch_data (Some "pl_stop")) ;;;
  self_set (set_state (StateConst STATE_IDLE)).

End Methods.

(** *** Properties *)

Definition name (self : VlcServer) : confval := _name self.

Definition state (self : VlcServer) : state_attr := _state self.

(** [VlcServer.media_title]: read from [_state], not from the metadata. *)
Definition media_title (self : VlcServer) : res pyval :=
  state_get (_state self) "title".

(** [VlcServer.media_artist]. *)
Definition media_artist (self : VlcServer) : res pyval :=
  state_get (_state self) "artist".

(** [VlcServer.media_type]. *)
Definition media_type (self : VlcServer) : res pyval :=
  state_get (_state self) "Type".

Definition volume_level (self : VlcServer) : option Q := _volume self.

Definition is_volume_muted (self : VlcServer) : option bool := _muted self.

Definition media_duration (self : VlcServer) : option Z := _media_duration self.

Definition media_position (self : VlcServer) : option Z := _media_position self.

(** *** Module constants and platform set-up *)

Definition DEFAULT_NAME : string := "VLC Remote".
Definition DEFAULT_HOST : string := "localhost".
Definition DEFAULT_PORT : string := "8080".
Definition DEFAULT_USERNAME : string := "".
Definition DEFAULT_PASSWORD : string := "".

Definition DATA_VLCREMOTE : string := "vlc remote".

(** [SUPPORT_VLCREMOTE], a bitwise or of ten flags. *)
Definition SUPPORT_VLCREMOTE (F : Features) : Z :=
  Z.lor (Z.lor (Z.lor (Z.lor (Z.lor (Z.lor (Z.lor (Z.lor (Z.lor
    (SUPPORT_PAUSE F) (SUPPORT_VOLUME_MUTE F))
    (SUPPORT_PLAY F))
    (SUPPORT_VOLUME_SET F))
    (SUPPORT_STOP F))
    (SUPPORT_VOLUME_STEP F))
    (SUPPORT_PREVIOUS_TRACK F))
    (SUPPORT_NEXT_TRACK F))
    (SUPPORT_SEEK F))
    (SUPPORT_CLEAR_PLAYLIST F).

(** [VlcServer.supported_features]. *)
Definition supported_features (F : Features) (self : VlcServer) : Z :=
  SUPPORT_VLCREMOTE F.

(** What [hass.data] can hold under a key: the empty dictionary this file
    puts there first, an object of this class, or the data of another
    integration. *)
Inductive hass_datum : Type :=
| EmptyDict
| Entity (e : VlcServer)
| Foreign (tag : string).

(** The body of the coroutine
    [async_setup_platform(hass, config, async_add_entities)], on
    [hass.data] and on whatever the host's callback acts on.  The
    configuration is read without defaults. *)
Definition async_setup_platform {H : Type} (config : Config)
    (async_add_entities : list VlcServer -> H -> H)
    (st : list (string * hass_datum) * H) : list (string * hass_datum) * H :=
  let data := fst st in
  let data :=
    match lookup DATA_VLCREMOTE data with
    | None => store DATA_VLCREMOTE EmptyDict data
    | Some _ => data
    end in
  let name := config_get config CONF_NAME CNone in
  let host := config_get config CONF_HOST CNone in
  let port := config_get config CONF_PORT CNone in
  let username := config_get config CONF_USERNAME CNone in
  let password := config_get config CONF_PASSWORD CNone in
  let entity := init name host port username password in
  let data := store DATA_VLCREMOTE (Entity entity) data in
  (data, async_add_entities [entity] (snd st)).

End MediaPlayer.

(** ** The specification's wording, for comparison *)

(** The target the specification gives for a request. *)
Definition spec_status_url (host port : string) (command : option string) : string :=
  "http://" ++ host ++ ":" ++ port ++ "/requests/status.xml" ++
  match command with
  | None => ""
  | Some c => "?command=" ++ c
  end.

(** Python's [round] on a float: to the nearest integer, a tie going to
    the even neighbour. *)
Definition py_round (x : Q) : Z :=
  let d := Zpos (Qden x) in
  let f := Qnum x / d in
  let r := Qnum x mod d in
  if 2 * r <? d then f
  else if d <? 2 * r then f + 1
  else if Z.even f then f else f + 1.

(** The command the specification gives for [set_volume(level)]. *)
Definition spec_set_volume_command (level : Q) : string :=
  "volume&val=" ++ str_of_int (py_round (level * (256 # 1))).

(** ** Sample servers and objects *)

(** A server that answers every request with the same status code and
    body, and a parser with a fixed result. *)
Definition answering (code : Z) (body : string) (parsed : res pyval) : Env :=
  {| requests_get := fun _ _ => Ok {| status_code := code; text := body |};
     xmltodict_parse := fun _ => parsed |}.

(** A server that cannot be reached. *)
Definition unreachable : Env :=
  {| requests_get := fun _ _ => Raise RequestException;
     xmltodict_parse := fun _ => Raise ExpatError |}.

(** A server whose status document has the given content under [root]. *)
Definition serving (status : pyval) : Env :=
  answering 200 "<root>...</root>" (Ok (VDict [("root", status)])).

Definition quiet : World := {| sent := []; logged := [] |}.

Definition sample_init : Init.VlcServer :=
  Init.init (CStr "VLC Remote") (CStr "localhost") (CStr "8080")
    (CStr "") (CStr "secret").

Definition sample_player : MediaPlayer.VlcServer :=
  MediaPlayer.init (CStr "VLC Remote") (CStr "localhost") (CInt 8080)
    CNone (CStr "secret").

(** A status with the metadata of the specification's example. *)
Definition status_song : pyval :=
  VDict
    [("state", VStr "playing"); ("time", VStr "12"); ("position", VStr "12");
     ("length", VStr "240"); ("volume", VStr "128");
     ("information",
      VDict
        [("category",
          VList
            [VDict
               [("@name", VStr "meta");
                ("info",
                 VList
                   [VDict [("@name", VStr "title"); ("#text", VStr "Song A")];
                    VDict [("@name", VStr "artist"); ("#text", VStr "Artist B")]])];
             VDict [("@name", VStr "Stream 0")]])])].

(** The same with the artist under the name [showName]. *)
Definition status_show : pyval :=
  VDict
    [("state", VStr "playing"); ("time", VStr "12"); ("position", VStr "12");
     ("length", VStr "240"); ("volume", VStr "128");
     ("information",
      VDict
        [("category",
          VList
            [VDict
               [("@name", VStr "meta");
                ("info",
                 VList
                   [VDict [("@name", VStr "title"); ("#text", VStr "Song A")];
                    VDict [("@name", VStr "showName"); ("#text", VStr "Artist B")]])];
             VDict [("@name", VStr "Stream 0")]])])].

(** A status with a raw state VLC reports while it opens a stream, and
    nothing to convert missing. *)
Definition status_opening : pyval :=
  VDict
    [("state", VStr "opening"); ("time", VStr "0"); ("position", VStr "0");
     ("length", VStr "0"); ("volume", VStr "128")].

(** ** Shapes of a status document *)

(** A category other than the metadata: a mapping whose [@name] is not
    [meta]. *)
Definition other_category (e : pyval) : Prop :=
  exists d, e = VDict d /\ assoc "@name" d <> Some (VStr "meta").

(** A metadata entry other than the show name: a mapping with an [@name]
    that is not [showName]. *)
Definition other_entry (e : pyval) : Prop :=
  exists d n, e = VDict d /\ assoc "@name" d = Some n /\ n <> VStr "showName".

(** A metadata entry the loop of [media_artist] passes without raising: a
    mapping with an [@name], and with a [#text] when that name is
    [showName]. *)
Definition readable_entry (e : pyval) : Prop :=
  exists d n,
    e = VDict d /\ assoc "@name" d = Some n /\
    (n = VStr "showName" -> exists t, assoc "#text" d = Some t).


(** The exchange with the server succeeds: an answer arrives, its status
    code is 200 and its body decodes to a mapping. *)
Definition exchange_succeeds (env : Env) (history : list HttpRequest)
    (r : HttpRequest) : bool :=
  match requests_get env history r with
  | Ok resp =>
      (status_code resp =? 200) &&
      match xmltodict_parse env (text resp) with
      | Ok doc => is_ok (dict_get doc "root")
      | Raise _ => false
      end
  | Raise _ => false
  end.

(** The request [fetch_data] sends for a command, in each file. *)
Definition Init_request (self : Init.VlcServer) (command : option string)
    : HttpRequest :=
  {| url := "http://" ++ py_str (Init._host self) ++ ":" ++
            py_str (Init._port self) ++ "/requests.status.xml" ++
            match command with None => "" | Some c => "?command=" ++ c end;
     auth := (Init._username self, Init._password self) |}.

Definition MediaPlayer_request (self : MediaPlayer.VlcServer)
    (command : option string) : HttpRequest :=
  {| url := "http://" ++ py_str (MediaPlayer._host self) ++ ":" ++
            py_str (MediaPlayer._port self) ++ "/requests/status.xml" ++
            match command with None => "" | Some c => "?command=" ++ c end;
     auth := (MediaPlayer._username self, MediaPlayer._password self) |}.

(** The five constructor arguments an object keeps: name, host, port,
    user name and password. *)
Definition Init_settings (o : Init.VlcServer)
    : confval * confval * confval * confval * confval :=
  (Init._name o, Init._host o, Init._port o, Init._username o, Init._password o).

Definition MediaPlayer_settings (o : MediaPlayer.VlcServer)
    : confval * confval * confval * confval * confval :=
  (MediaPlayer._name o, MediaPlayer._host o, MediaPlayer._port o,
   MediaPlayer._username o, MediaPlayer._password o).

(** * Properties *)

Unset Implicit Arguments.

(** ** The Python layer *)

Example int_of_str_ex1 : int_of_str "128" = Ok 128. Proof. reflexivity. Qed.
Example int_of_str_ex2 : int_of_str " -1_000 " = Ok (-1000). Proof. reflexivity. Qed.
Example int_of_str_ex3 : int_of_str "0.5" = Raise ValueError. Proof. reflexivity. Qed.
Example int_of_str_ex4 : int_of_str "1__0" = Raise ValueError. Proof. reflexivity. Qed.
Example str_of_int_ex : str_of_int 0 = "0" /\ str_of_int 128 = "128" /\ str_of_int (-7) = "-7".
Proof. repeat split; reflexivity. Qed.
Example format_ex : format "a{}b{}" ["x"; "yy"] = Ok "axbyy". Proof. reflexivity. Qed.
(** ** Strings *)

Lemma append_empty (s : string) : s ++ "" = s.
Proof. induction s as [|c s IH]; simpl; [reflexivity | now rewrite IH]. Qed.

Lemma append_cancel (p a b : string) : p ++ a = p ++ b -> a = b.
Proof.
  induction p as [|c p IH]; simpl; intro H; [exact H|].
  injection H as H. now apply IH.
Qed.

(** ** The request and its answer *)

Ltac run_py :=
  unfold bind, ret, raise, lift, gets, modify, self_get, self_set, log,
    http_get, try_except, any_exception, call_async, await; cbn.

Lemma Init_build_url_eq (self : Init.VlcServer) (command : option string) :
  Init.build_url self command =
  Ok ("http://" ++ py_str (Init._host self) ++ ":" ++ py_str (Init._port self) ++
      "/requests.status.xml" ++
      match command with None => "" | Some c => "?command=" ++ c end).
Proof.
  destruct command as [c|]; unfold Init.build_url; cbn.
  - now rewrite append_empty.
  - reflexivity.
Qed.

Lemma MediaPlayer_build_url_eq (self : MediaPlayer.VlcServer) (command : option string) :
  MediaPlayer.build_url self command =
  Ok (spec_status_url (py_str (MediaPlayer._host self))
        (py_str (MediaPlayer._port self)) command).
Proof.
  destruct command as [c|]; unfold MediaPlayer.build_url, spec_status_url; cbn.
  - now rewrite append_empty.
  - reflexivity.
Qed.

(** One run of [fetch_data]: it never raises, it leaves the object alone,
    it sends exactly one request, and its value is read off the answer. *)
Lemma Init_fetch_data_run (env : Env) (command : option string)
    (self : Init.VlcServer) (w : World) (u : string) :
  Init.build_url self command = Ok u ->
  let r := {| url := u; auth := (Init._username self, Init._password self) |} in
  exists lg,
    Init.fetch_data env command (self, w) =
    (Ok match requests_get env (sent w) r with
        | Raise _ => VDict []
        | Ok resp =>
            if status_code resp =? 200 then
              match xmltodict_parse env (text resp) with
              | Raise _ => VDict []
              | Ok doc =>
                  match dict_get doc "root" with
                  | Ok data => data
                  | Raise _ => VDict []
                  end
              end
            else VDict []
        end,
     (self, {| sent := r :: sent w; logged := lg |})).
Proof.
  intros Hu r. unfold Init.fetch_data. run_py. rewrite Hu. cbn.
  fold r. destruct (requests_get env (sent w) r) as [resp|e]; cbn.
  - destruct (status_code resp =? 200); cbn.
    + destruct (xmltodict_parse env (text resp)) as [doc|e]; cbn.
      * destruct (dict_get doc "root") as [data|e]; cbn; eexists; reflexivity.
      * eexists; reflexivity.
    + eexists; reflexivity.
  - eexists; reflexivity.
Qed.

Lemma MediaPlayer_fetch_data_run (env : Env) (command : option string)
    (self : MediaPlayer.VlcServer) (w : World) (u : string) :
  MediaPlayer.build_url self command = Ok u ->
  let r := {| url := u;
              auth := (MediaPlayer._username self, MediaPlayer._password self) |} in
  exists lg,
    MediaPlayer.fetch_data env command (self, w) =
    (Ok match requests_get env (sent w) r with
        | Raise _ => VDict []
        | Ok resp =>
            if status_code resp =? 200 then
              match xmltodict_parse env (text resp) with
              | Raise _ => VDict []
              | Ok doc =>
                  match dict_get doc "root" with
                  | Ok data => data
                  | Raise _ => VDict []
                  end
              end
            else VDict []
        end,
     (self, {| sent := r :: sent w; logged := lg |})).
Proof.
  intros Hu r. unfold MediaPlayer.fetch_data. run_py. rewrite Hu. cbn.
  fold r. destruct (requests_get env (sent w) r) as [resp|e]; cbn.
  - destruct (status_code resp =? 200); cbn.
    + destruct (xmltodict_parse env (text resp)) as [doc|e]; cbn.
      * destruct (dict_get doc "root") as [data|e]; cbn; eexists; reflexivity.
      * eexists; reflexivity.
    + eexists; reflexivity.
  - eexists; reflexivity.
Qed.

(** [fetch_data] always returns, and changes nothing in the object. *)
Lemma Init_fetch_data_returns (env : Env) (command : option string)
    (self : Init.VlcServer) (w : World) :
  exists v w', Init.fetch_data env command (self, w) = (Ok v, (self, w')).
Proof.
  destruct (Init_fetch_data_run env command self w _ (Init_build_url_eq self command))
    as [lg H].
  rewrite H. eauto.
Qed.

Lemma MediaPlayer_fetch_data_returns (env : Env) (command : option string)
    (self : MediaPlayer.VlcServer) (w : World) :
  exists v w', MediaPlayer.fetch_data env command (self, w) = (Ok v, (self, w')).
Proof.
  destruct (MediaPlayer_fetch_data_run env command self w _
              (MediaPlayer_build_url_eq self command)) as [lg H].
  rewrite H. eauto.
Qed.

(** C3. Whenever the exchange fails, by an exception of the HTTP client, by
    a status code other than 200 or by an exception of the XML parser,
    [fetch_data] returns the empty mapping and raises nothing, in both
    revisions. *)
Theorem fetch_data_failure_gives_empty_mapping :
  (forall env command (self : Init.VlcServer) w u,
     Init.build_url self command = Ok u ->
     let r := {| url := u; auth := (Init._username self, Init._password self) |} in
     (exists e, requests_get env (sent w) r = Raise e) \/
     (exists resp, requests_get env (sent w) r = Ok resp /\
        (status_code resp <> 200 \/
         exists e, xmltodict_parse env (text resp) = Raise e)) ->
     fst (Init.fetch_data env command (self, w)) = Ok (VDict [])) /\
  (forall env command (self : MediaPlayer.VlcServer) w u,
     MediaPlayer.build_url self command = Ok u ->
     let r := {| url := u;
                 auth := (MediaPlayer._username self, MediaPlayer._password self) |} in
     (exists e, requests_get env (sent w) r = Raise e) \/
     (exists resp, requests_get env (sent w) r = Ok resp /\
        (status_code resp <> 200 \/
         exists e, xmltodict_parse env (text resp) = Raise e)) ->
     fst (MediaPlayer.fetch_data env command (self, w)) = Ok (VDict [])).
Proof.
  split; intros env command self w u Hu r Hfail.
  - destruct (Init_fetch_data_run env command self w u Hu) as [lg ->]. cbn. fold r.
    destruct Hfail as [[e ->] | [resp [-> [Hcode | [e He]]]]]; [reflexivity | |].
    + apply Z.eqb_neq in Hcode. now rewrite Hcode.
    + rewrite He. now destruct (status_code resp =? 200).
  - destruct (MediaPlayer_fetch_data_run env command self w u Hu) as [lg ->]. cbn. fold r.
    destruct Hfail as [[e ->] | [resp [-> [Hcode | [e He]]]]]; [reflexivity | |].
    + apply Z.eqb_neq in Hcode. now rewrite Hcode.
    + rewrite He. now destruct (status_code resp =? 200).
Qed.

Lemma fetch_data_failure_gives_empty_mapping_witness :
  (Init.build_url sample_init None = Ok "http://localhost:8080/requests.status.xml" /\
   fst (Init.fetch_data (answering 404 "" (Raise ExpatError)) None (sample_init, quiet))
   = Ok (VDict [])) /\
  (MediaPlayer.build_url sample_player (Some "pl_pause")
   = Ok "http://localhost:8080/requests/status.xml?command=pl_pause" /\
   fst (MediaPlayer.fetch_data unreachable (Some "pl_pause") (sample_player, quiet))
   = Ok (VDict [])).
Proof.
  split; (split; [reflexivity|]).
  - apply (proj1 fetch_data_failure_gives_empty_mapping
             (answering 404 "" (Raise ExpatError)) None sample_init quiet
             "http://localhost:8080/requests.status.xml" eq_refl).
    right. eexists. split; [reflexivity|]. left. discriminate.
  - apply (proj2 fetch_data_failure_gives_empty_mapping
             unreachable (Some "pl_pause") sample_player quiet
             "http://localhost:8080/requests/status.xml?command=pl_pause" eq_refl).
    left. eexists. reflexivity.
Defined.

(** C4. On an answer with status 200 whose body decodes to a mapping,
    [fetch_data] returns what [get] finds under the key [root]: the value
    stored there, and [None], not the empty mapping, when the document has
    no such key.  Both revisions. *)
Theorem fetch_data_success_returns_root_or_None :
  (forall env command (self : Init.VlcServer) w u resp d,
     Init.build_url self command = Ok u ->
     requests_get env (sent w)
       {| url := u; auth := (Init._username self, Init._password self) |} = Ok resp ->
     status_code resp = 200 ->
     xmltodict_parse env (text resp) = Ok (VDict d) ->
     fst (Init.fetch_data env command (self, w)) =
     Ok match assoc "root" d with Some v => v | None => VNone end) /\
  (forall env command (self : MediaPlayer.VlcServer) w u resp d,
     MediaPlayer.build_url self command = Ok u ->
     requests_get env (sent w)
       {| url := u;
          auth := (MediaPlayer._username self, MediaPlayer._password self) |} = Ok resp ->
     status_code resp = 200 ->
     xmltodict_parse env (text resp) = Ok (VDict d) ->
     fst (MediaPlayer.fetch_data env command (self, w)) =
     Ok match assoc "root" d with Some v => v | None => VNone end).
Proof.
  split; intros env command self w u resp d Hu Hget Hcode Hparse.
  - destruct (Init_fetch_data_run env command self w u Hu) as [lg ->]. cbn.
    rewrite Hget, Hcode, Hparse. cbn. now destruct (assoc "root" d).
  - destruct (MediaPlayer_fetch_data_run env command self w u Hu) as [lg ->]. cbn.
    rewrite Hget, Hcode, Hparse. cbn. now destruct (assoc "root" d).
Qed.

Lemma fetch_data_success_returns_root_or_None_witness :
  fst (Init.fetch_data (answering 200 "<foo/>" (Ok (VDict [("foo", VNone)])))
         None (sample_init, quiet)) = Ok VNone /\
  fst (MediaPlayer.fetch_data (answering 200 "<foo/>" (Ok (VDict [("foo", VNone)])))
         None (sample_player, quiet)) = Ok VNone.
Proof.
  split.
  - exact (proj1 fetch_data_success_returns_root_or_None
             (answering 200 "<foo/>" (Ok (VDict [("foo", VNone)]))) None
             sample_init quiet "http://localhost:8080/requests.status.xml"
             {| status_code := 200; text := "<foo/>" |} [("foo", VNone)]
             eq_refl eq_refl eq_refl eq_refl).
  - exact (proj2 fetch_data_success_returns_root_or_None
             (answering 200 "<foo/>" (Ok (VDict [("foo", VNone)]))) None
             sample_player quiet "http://localhost:8080/requests/status.xml"
             {| status_code := 200; text := "<foo/>" |} [("foo", VNone)]
             eq_refl eq_refl eq_refl eq_refl).
Defined.

(** What follows from [None]: the next [update] stops at its first test,
    [in] applied to [None]. *)
Lemma Init_update_on_rootless_document :
  fst (Init.update (answering 200 "<foo/>" (Ok (VDict [("foo", VNone)])))
         (sample_init, quiet)) = Raise TypeError.
Proof. reflexivity. Qed.

(** [media_player.py] requests the address of the specification. *)
Lemma MediaPlayer_fetch_data_requests_spec_url (env : Env) (command : option string)
    (self : MediaPlayer.VlcServer) (w : World) :
  exists v r lg,
    MediaPlayer.fetch_data env command (self, w) =
    (Ok v, (self, {| sent := r :: sent w; logged := lg |})) /\
    url r = spec_status_url (py_str (MediaPlayer._host self))
              (py_str (MediaPlayer._port self)) command.
Proof.
  destruct (MediaPlayer_fetch_data_run env command self w _
              (MediaPlayer_build_url_eq self command)) as [lg H].
  rewrite H. do 3 eexists. split; reflexivity.
Qed.

(** C6. [src/__init__.py] requests the path [/requests.status.xml], with a
    dot, for every host, port and command; that is never the address
    [/requests/status.xml] of the specification. *)
Theorem Init_fetch_data_requests_dotted_path :
  forall env command (self : Init.VlcServer) w,
  exists v r lg,
    Init.fetch_data env command (self, w) =
    (Ok v, (self, {| sent := r :: sent w; logged := lg |})) /\
    url r = "http://" ++ py_str (Init._host self) ++ ":" ++
            py_str (Init._port self) ++ "/requests.status.xml" ++
            match command with None => "" | Some c => "?command=" ++ c end /\
    url r <> spec_status_url (py_str (Init._host self))
               (py_str (Init._port self)) command.
Proof.
  intros env command self w.
  destruct (Init_fetch_data_run env command self w _ (Init_build_url_eq self command))
    as [lg H].
  rewrite H. do 3 eexists. split; [reflexivity|]. split; [reflexivity|].
  cbn [url]. unfold spec_status_url. intro E.
  apply (append_cancel "http://") in E.
  apply append_cancel in E.
  apply (append_cancel ":") in E.
  apply append_cancel in E.
  cbn in E. discriminate E.
Qed.

(** ** The update cycle *)

Lemma Init_set_media_metadata_same (o : Init.VlcServer) :
  Init.set_media_metadata (Init._media_metadata o) o = o.
Proof. now destruct o. Qed.

Lemma MediaPlayer_set_media_metadata_same (o : MediaPlayer.VlcServer) :
  MediaPlayer.set_media_metadata (MediaPlayer._media_metadata o) o = o.
Proof. now destruct o. Qed.

(** The loop over the categories touches the stored metadata only. *)
Lemma Init_update_information_loop (infos : list pyval) :
  forall (o : Init.VlcServer) (w : World),
  exists r md,
    for_each infos Init.update_information_step (o, w) =
    (r, (Init.set_media_metadata md o, w)).
Proof.
  induction infos as [|info infos IH]; intros o w; cbn.
  - exists (Ok tt), (Init._media_metadata o).
    now rewrite Init_set_media_metadata_same.
  - unfold Init.update_information_step at 1. run_py.
    destruct (dict_get info "@name") as [n|e]; cbn.
    + destruct (eq_str n "meta"); cbn.
      * destruct (getitem info "info") as [i|e]; cbn.
        -- destruct (IH (Init.set_media_metadata i o) w) as [r [md H]].
           unfold bind in H. rewrite H. now exists r, md.
        -- exists (Raise e), (Init._media_metadata o).
           now rewrite Init_set_media_metadata_same.
      * apply IH.
    + exists (Raise e), (Init._media_metadata o).
      now rewrite Init_set_media_metadata_same.
Qed.

Lemma MediaPlayer_update_information_loop (infos : list pyval) :
  forall (o : MediaPlayer.VlcServer) (w : World),
  exists r md,
    for_each infos MediaPlayer.update_information_step (o, w) =
    (r, (MediaPlayer.set_media_metadata md o, w)).
Proof.
  induction infos as [|info infos IH]; intros o w; cbn.
  - exists (Ok tt), (MediaPlayer._media_metadata o).
    now rewrite MediaPlayer_set_media_metadata_same.
  - unfold MediaPlayer.update_information_step at 1. run_py.
    destruct (dict_get info "@name") as [n|e]; cbn.
    + destruct (eq_str n "meta"); cbn.
      * destruct (getitem info "info") as [i|e]; cbn.
        -- destruct (IH (MediaPlayer.set_media_metadata i o) w) as [r [md H]].
           unfold bind in H. rewrite H. now exists r, md.
        -- exists (Raise e), (MediaPlayer._media_metadata o).
           now rewrite MediaPlayer_set_media_metadata_same.
      * apply IH.
    + exists (Raise e), (MediaPlayer._media_metadata o).
      now rewrite MediaPlayer_set_media_metadata_same.
Qed.

(** On a status that is a mapping the metadata block never raises, and
    the stored metadata is all it can change. *)
Lemma Init_update_information_run (o : Init.VlcServer) (w : World) (d : list (string * pyval)) :
  Init._status o = VDict d ->
  exists md,
    Init.update_information (o, w) = (Ok tt, (Init.set_media_metadata md o, w)).
Proof.
  intro Hs. unfold Init.update_information. run_py. rewrite Hs. cbn.
  destruct (assoc "information" d) as [information|] eqn:Hi; cbn.
  - rewrite Hs. cbn. rewrite Hi.
    destruct (getitem information "category") as [category|e]; cbn.
    + destruct (iter category) as [infos|e]; cbn.
      * destruct (Init_update_information_loop infos o w) as [r [md H]].
        rewrite H. exists md. now destruct r as [[]|e].
      * exists (Init._media_metadata o). now rewrite Init_set_media_metadata_same.
    + exists (Init._media_metadata o). now rewrite Init_set_media_metadata_same.
  - exists (Init._media_metadata o). now rewrite Init_set_media_metadata_same.
Qed.

Lemma MediaPlayer_update_information_run (o : MediaPlayer.VlcServer) (w : World)
    (d : list (string * pyval)) :
  MediaPlayer._status o = Some (VDict d) ->
  exists md,
    MediaPlayer.update_information (o, w) =
    (Ok tt, (MediaPlayer.set_media_metadata md o, w)).
Proof.
  intro Hs. unfold MediaPlayer.update_information, MediaPlayer.self_status.
  run_py. rewrite Hs. cbn.
  destruct (assoc "information" d) as [information|] eqn:Hi; cbn.
  - rewrite Hs. cbn. rewrite Hi.
    destruct (getitem information "category") as [category|e]; cbn.
    + destruct (iter category) as [infos|e]; cbn.
      * destruct (MediaPlayer_update_information_loop infos o w) as [r [md H]].
        rewrite H. exists md. now destruct r as [[]|e].
      * exists (MediaPlayer._media_metadata o).
        now rewrite MediaPlayer_set_media_metadata_same.
    + exists (MediaPlayer._media_metadata o).
      now rewrite MediaPlayer_set_media_metadata_same.
  - exists (MediaPlayer._media_metadata o).
    now rewrite MediaPlayer_set_media_metadata_same.
Qed.

(** The raw state string of a status mapping, as [get] returns it. *)
Lemma dict_get_VDict (d : list (string * pyval)) (k : string) :
  dict_get (VDict d) k =
  Ok match assoc k d with Some v => v | None => VNone end.
Proof. cbn. now destruct (assoc k d). Qed.

Lemma Init_update_state_run (o : Init.VlcServer) (w : World) (d : list (string * pyval)) :
  let raw := match assoc "state" d with Some v => v | None => VNone end in
  Init.update_state (VDict d) (o, w) =
  (Ok tt,
   (Init.set_state
      (StateConst (if eq_str raw "playing" then STATE_PLAYING
                   else if eq_str raw "paused" then STATE_PAUSED
                   else STATE_IDLE)) o, w)).
Proof.
  intro raw. unfold Init.update_state. rewrite dict_get_VDict. fold raw. run_py.
  destruct (eq_str raw "playing"); cbn; [reflexivity|].
  now destruct (eq_str raw "paused").
Qed.

Lemma MediaPlayer_update_state_run (o : MediaPlayer.VlcServer) (w : World)
    (d : list (string * pyval)) :
  let raw := match assoc "state" d with Some v => v | None => VNone end in
  MediaPlayer.update_state (VDict d) (o, w) =
  (Ok tt,
   (if eq_str raw "playing" then MediaPlayer.set_state (StateConst STATE_PLAYING) o
    else if eq_str raw "paused" then MediaPlayer.set_state (StateConst STATE_PAUSED) o
    else if eq_str raw "stopped" then MediaPlayer.set_state (StateConst STATE_IDLE) o
    else o, w)).
Proof.
  intro raw. unfold MediaPlayer.update_state. rewrite dict_get_VDict. fold raw. run_py.
  destruct (eq_str raw "playing"); cbn; [reflexivity|].
  destruct (eq_str raw "paused"); cbn; [reflexivity|].
  now destruct (eq_str raw "stopped").
Qed.

(** The conversions leave the state, the metadata and the world alone,
    whether they complete or raise. *)
Lemma Init_update_levels_frame (status : pyval) (o : Init.VlcServer) (w : World) :
  exists r o',
    Init.update_levels status (o, w) = (r, (o', w)) /\
    Init._state o' = Init._state o /\
    Init._media_metadata o' = Init._media_metadata o /\
    Init._status o' = Init._status o.
Proof.
  unfold Init.update_levels. run_py.
  repeat match goal with
         | |- context [match ?x with Ok _ => _ | Raise _ => _ end] =>
             destruct x; cbn
         end;
  do 2 eexists; (split; [reflexivity|]); cbn; auto.
Qed.

Lemma MediaPlayer_update_levels_frame (status : pyval) (o : MediaPlayer.VlcServer)
    (w : World) :
  exists r o',
    MediaPlayer.update_levels status (o, w) = (r, (o', w)) /\
    MediaPlayer._state o' = MediaPlayer._state o /\
    MediaPlayer._media_metadata o' = MediaPlayer._media_metadata o /\
    MediaPlayer._status o' = MediaPlayer._status o.
Proof.
  unfold MediaPlayer.update_levels. run_py.
  repeat match goal with
         | |- context [match ?x with Ok _ => _ | Raise _ => _ end] =>
             destruct x; cbn
         end;
  do 2 eexists; (split; [reflexivity|]); cbn; auto.
Qed.

(** [update] is the fetch followed by the three blocks, run on the object
    with the new status stored. *)
Lemma Init_update_unfold (env : Env) (self : Init.VlcServer) (w w' : World)
    (status : pyval) :
  Init.fetch_data env None (self, w) = (Ok status, (self, w')) ->
  Init.update env (self, w) =
  (Init.update_information ;;;
   Init.update_state status ;;;
   Init.update_levels status ;;;
   ret true) (Init.set_status status self, w').
Proof. intro H. unfold Init.update. unfold bind at 1. now rewrite H. Qed.

Lemma MediaPlayer_update_unfold (env : Env) (self : MediaPlayer.VlcServer)
    (w w' : World) (status : pyval) :
  MediaPlayer.fetch_data env None (self, w) = (Ok status, (self, w')) ->
  MediaPlayer.update env (self, w) =
  (MediaPlayer.update_information ;;;
   MediaPlayer.update_state status ;;;
   MediaPlayer.update_levels status ;;;
   ret true) (MediaPlayer.set_status status self, w').
Proof.
  intro H. unfold MediaPlayer.update, call_async, await.
  unfold bind at 1. cbn. unfold bind at 1. now rewrite H.
Qed.

Lemma Init_fetched_status (env : Env) (self : Init.VlcServer) (w : World)
    (status : pyval) :
  fst (Init.fetch_data env None (self, w)) = Ok status ->
  exists w', Init.fetch_data env None (self, w) = (Ok status, (self, w')).
Proof.
  destruct (Init_fetch_data_returns env None self w) as [v [w' H]].
  rewrite H. cbn. intro E. injection E as ->. now exists w'.
Qed.

Lemma MediaPlayer_fetched_status (env : Env) (self : MediaPlayer.VlcServer)
    (w : World) (status : pyval) :
  fst (MediaPlayer.fetch_data env None (self, w)) = Ok status ->
  exists w', MediaPlayer.fetch_data env None (self, w) = (Ok status, (self, w')).
Proof.
  destruct (MediaPlayer_fetch_data_returns env None self w) as [v [w' H]].
  rewrite H. cbn. intro E. injection E as ->. now exists w'.
Qed.

(** With one of the three keys missing the conversions raise. *)
Lemma Init_update_levels_missing (d : list (string * pyval))
    (o : Init.VlcServer) (w : World) :
  assoc "time" d = None \/ assoc "length" d = None \/ assoc "volume" d = None ->
  is_ok (fst (Init.update_levels (VDict d) (o, w))) = false.
Proof.
  intro H. unfold Init.update_levels. rewrite !dict_get_VDict. run_py.
  destruct H as [H | [H | H]]; rewrite H; cbn; [reflexivity | |].
  - now destruct (py_int _).
  - destruct (py_int _); [|reflexivity]. cbn. now destruct (py_int _).
Qed.

Lemma MediaPlayer_update_levels_missing (d : list (string * pyval))
    (o : MediaPlayer.VlcServer) (w : World) :
  assoc "position" d = None \/ assoc "length" d = None \/ assoc "volume" d = None ->
  is_ok (fst (MediaPlayer.update_levels (VDict d) (o, w))) = false.
Proof.
  intro H. unfold MediaPlayer.update_levels. rewrite !dict_get_VDict. run_py.
  destruct H as [H | [H | H]]; rewrite H; cbn; [reflexivity | |].
  - now destruct (py_int _).
  - destruct (py_int _); [|reflexivity]. cbn. now destruct (py_int _).
Qed.

(** C1. When the fetched status mapping lacks the position key ([time] in
    [src/__init__.py], [position] in [media_player.py]), [length] or
    [volume], [update] does not complete: the conversion of the missing
    value raises.  No default is substituted. *)
Theorem update_raises_on_missing_key :
  (forall env (self : Init.VlcServer) w d,
     fst (Init.fetch_data env None (self, w)) = Ok (VDict d) ->
     assoc "time" d = None \/ assoc "length" d = None \/ assoc "volume" d = None ->
     is_ok (fst (Init.update env (self, w))) = false) /\
  (forall env (self : MediaPlayer.VlcServer) w d,
     fst (MediaPlayer.fetch_data env None (self, w)) = Ok (VDict d) ->
     assoc "position" d = None \/ assoc "length" d = None \/ assoc "volume" d = None ->
     is_ok (fst (MediaPlayer.update env (self, w))) = false).
Proof.
  split; intros env self w d Hf Hmiss.
  - destruct (Init_fetched_status env self w _ Hf) as [w' H].
    rewrite (Init_update_unfold env self w w' _ H).
    destruct (Init_update_information_run (Init.set_status (VDict d) self) w' d eq_refl)
      as [md Hi].
    unfold bind at 1. rewrite Hi.
    unfold bind at 1. rewrite Init_update_state_run.
    unfold bind at 1.
    pose proof (Init_update_levels_missing d
      (Init.set_state
         (StateConst
            (if eq_str match assoc "state" d with Some v => v | None => VNone end "playing"
             then STATE_PLAYING
             else if eq_str match assoc "state" d with Some v => v | None => VNone end "paused"
                  then STATE_PAUSED else STATE_IDLE))
         (Init.set_media_metadata md (Init.set_status (VDict d) self))) w' Hmiss) as Hl.
    destruct (Init.update_levels _ _) as [[[]|e] st]; [discriminate Hl | reflexivity].
  - destruct (MediaPlayer_fetched_status env self w _ Hf) as [w' H].
    rewrite (MediaPlayer_update_unfold env self w w' _ H).
    destruct (MediaPlayer_update_information_run
                (MediaPlayer.set_status (VDict d) self) w' d eq_refl) as [md Hi].
    unfold bind at 1. rewrite Hi.
    unfold bind at 1. rewrite MediaPlayer_update_state_run.
    unfold bind at 1.
    match goal with
    | |- context [MediaPlayer.update_levels (VDict d) (?o, ?w0)] =>
        pose proof (MediaPlayer_update_levels_missing d o w0 Hmiss) as Hl;
        destruct (MediaPlayer.update_levels (VDict d) (o, w0)) as [[[]|e] st]
    end; [discriminate Hl | reflexivity].
Qed.

Lemma update_raises_on_missing_key_witness :
  (fst (Init.fetch_data (answering 404 "" (Raise ExpatError)) None (sample_init, quiet))
   = Ok (VDict []) /\
   is_ok (fst (Init.update (answering 404 "" (Raise ExpatError)) (sample_init, quiet)))
   = false) /\
  (fst (MediaPlayer.fetch_data unreachable None (sample_player, quiet)) = Ok (VDict []) /\
   is_ok (fst (MediaPlayer.update unreachable (sample_player, quiet))) = false).
Proof.
  split; (split; [reflexivity|]).
  - apply (proj1 update_raises_on_missing_key
             (answering 404 "" (Raise ExpatError)) sample_init quiet [] eq_refl).
    now left.
  - apply (proj2 update_raises_on_missing_key unreachable sample_player quiet []
             eq_refl).
    now left.
Defined.

(** The same on the mapping every failed exchange produces: the exception
    is a [TypeError], and the four attributes keep their earlier values. *)
Lemma Init_update_after_failed_fetch :
  let after := Init.update (answering 404 "" (Raise ExpatError)) (sample_init, quiet) in
  fst after = Raise TypeError /\
  Init.media_position (fst (snd after)) = None /\
  Init.media_duration (fst (snd after)) = None /\
  Init.volume_level (fst (snd after)) = None /\
  Init.is_volume_muted (fst (snd after)) = None.
Proof. cbn. repeat split. Qed.

Lemma eq_str_true (v : pyval) (s : string) : eq_str v s = true <-> v = VStr s.
Proof.
  destruct v; cbn; try (split; [discriminate | discriminate]).
  rewrite String.eqb_eq. split; [now intros -> | now intros [= ->]].
Qed.

Lemma eq_str_false (v : pyval) (s : string) : eq_str v s = false <-> v <> VStr s.
Proof.
  rewrite <- eq_str_true. destruct (eq_str v s); split; congruence.
Qed.

(** One run of [update] on a fetched status mapping, block by block. *)
Lemma Init_update_run (env : Env) (self : Init.VlcServer) (w : World)
    (d : list (string * pyval)) :
  fst (Init.fetch_data env None (self, w)) = Ok (VDict d) ->
  let raw := match assoc "state" d with Some v => v | None => VNone end in
  exists w' md r o',
    Init.update_information (Init.set_status (VDict d) self, w') =
      (Ok tt, (Init.set_media_metadata md (Init.set_status (VDict d) self), w')) /\
    Init.update_levels (VDict d)
      (Init.set_state
         (StateConst (if eq_str raw "playing" then STATE_PLAYING
                      else if eq_str raw "paused" then STATE_PAUSED
                      else STATE_IDLE))
         (Init.set_media_metadata md (Init.set_status (VDict d) self)), w') =
      (r, (o', w')) /\
    Init.update env (self, w) =
      (match r with Ok _ => Ok true | Raise e => Raise e end, (o', w')).
Proof.
  intros Hf raw.
  destruct (Init_fetched_status env self w _ Hf) as [w' H].
  destruct (Init_update_information_run (Init.set_status (VDict d) self) w' d eq_refl)
    as [md Hi].
  exists w', md.
  match goal with
  | |- exists r o', _ /\ Init.update_levels ?s (?o, ?w0) = _ /\ _ =>
      destruct (Init_update_levels_frame s o w0) as [r [o' [Hl _]]]
  end.
  exists r, o'. split; [exact Hi|]. split; [exact Hl|].
  rewrite (Init_update_unfold env self w w' _ H).
  unfold bind at 1. rewrite Hi.
  unfold bind at 1. rewrite Init_update_state_run. fold raw.
  unfold bind at 1. rewrite Hl. now destruct r.
Qed.

Lemma MediaPlayer_update_run (env : Env) (self : MediaPlayer.VlcServer) (w : World)
    (d : list (string * pyval)) :
  fst (MediaPlayer.fetch_data env None (self, w)) = Ok (VDict d) ->
  let raw := match assoc "state" d with Some v => v | None => VNone end in
  exists w' md r o',
    MediaPlayer.update_information (MediaPlayer.set_status (VDict d) self, w') =
      (Ok tt,
       (MediaPlayer.set_media_metadata md (MediaPlayer.set_status (VDict d) self), w')) /\
    MediaPlayer.update_levels (VDict d)
      (let o := MediaPlayer.set_media_metadata md
                  (MediaPlayer.set_status (VDict d) self) in
       if eq_str raw "playing" then MediaPlayer.set_state (StateConst STATE_PLAYING) o
       else if eq_str raw "paused" then MediaPlayer.set_state (StateConst STATE_PAUSED) o
       else if eq_str raw "stopped" then MediaPlayer.set_state (StateConst STATE_IDLE) o
       else o, w') =
      (r, (o', w')) /\
    MediaPlayer.update env (self, w) =
      (match r with Ok _ => Ok true | Raise e => Raise e end, (o', w')).
Proof.
  intros Hf raw.
  destruct (MediaPlayer_fetched_status env self w _ Hf) as [w' H].
  destruct (MediaPlayer_update_information_run
              (MediaPlayer.set_status (VDict d) self) w' d eq_refl) as [md Hi].
  exists w', md.
  match goal with
  | |- exists r o', _ /\ MediaPlayer.update_levels ?s (?o, ?w0) = _ /\ _ =>
      destruct (MediaPlayer_update_levels_frame s o w0) as [r [o' [Hl _]]]
  end.
  exists r, o'. split; [exact Hi|]. split; [exact Hl|].
  rewrite (MediaPlayer_update_unfold env self w w' _ H).
  unfold bind at 1. rewrite Hi.
  unfold bind at 1. rewrite MediaPlayer_update_state_run. fold raw.
  unfold bind at 1. cbv zeta in Hl. rewrite Hl. now destruct r.
Qed.

(** The state [update] leaves behind, whether or not the conversions that
    follow complete. *)
Lemma Init_update_state_after (env : Env) (self : Init.VlcServer) (w : World)
    (d : list (string * pyval)) :
  fst (Init.fetch_data env None (self, w)) = Ok (VDict d) ->
  let raw := match assoc "state" d with Some v => v | None => VNone end in
  Init.state (fst (snd (Init.update env (self, w)))) =
  StateConst (if eq_str raw "playing" then STATE_PLAYING
              else if eq_str raw "paused" then STATE_PAUSED
              else STATE_IDLE).
Proof.
  intros Hf raw.
  destruct (Init_update_run env self w d Hf) as [w' [md [r [o' [_ [Hl ->]]]]]].
  fold raw in Hl. cbn [fst snd]. unfold Init.state.
  match type of Hl with
  | Init.update_levels ?s (?o, ?w0) = _ =>
      destruct (Init_update_levels_frame s o w0) as [r2 [o2 [Hl2 [Hs _]]]];
      rewrite Hl in Hl2; injection Hl2 as _ ->
  end.
  exact Hs.
Qed.

Lemma MediaPlayer_update_state_after (env : Env) (self : MediaPlayer.VlcServer)
    (w : World) (d : list (string * pyval)) :
  fst (MediaPlayer.fetch_data env None (self, w)) = Ok (VDict d) ->
  let raw := match assoc "state" d with Some v => v | None => VNone end in
  MediaPlayer.state (fst (snd (MediaPlayer.update env (self, w)))) =
  if eq_str raw "playing" then StateConst STATE_PLAYING
  else if eq_str raw "paused" then StateConst STATE_PAUSED
  else if eq_str raw "stopped" then StateConst STATE_IDLE
  else MediaPlayer.state self.
Proof.
  intros Hf raw.
  destruct (MediaPlayer_update_run env self w d Hf) as [w' [md [r [o' [_ [Hl ->]]]]]].
  fold raw in Hl. cbn [fst snd]. unfold MediaPlayer.state.
  match type of Hl with
  | MediaPlayer.update_levels ?s (?o, ?w0) = _ =>
      destruct (MediaPlayer_update_levels_frame s o w0) as [r2 [o2 [Hl2 [Hs _]]]];
      rewrite Hl in Hl2; injection Hl2 as _ ->
  end.
  rewrite Hs. cbv zeta.
  destruct (eq_str raw "playing"); [reflexivity|].
  destruct (eq_str raw "paused"); [reflexivity|].
  now destruct (eq_str raw "stopped").
Qed.

(** C2, as the code has it.  On a fetched status mapping [src/__init__.py]
    sets the state to Playing for the raw string [playing], to Paused for
    [paused] and to Idle for anything else, an absent key included,
    whatever the state was before.  [media_player.py] does the same for
    [playing] and [paused], sets Idle for [stopped] only, and keeps the
    earlier state for every other value and for an absent key. *)
Theorem update_state_mapping :
  (forall env (self : Init.VlcServer) w d,
     fst (Init.fetch_data env None (self, w)) = Ok (VDict d) ->
     let after := Init.state (fst (snd (Init.update env (self, w)))) in
     (assoc "state" d = Some (VStr "playing") -> after = StateConst STATE_PLAYING) /\
     (assoc "state" d = Some (VStr "paused") -> after = StateConst STATE_PAUSED) /\
     (assoc "state" d <> Some (VStr "playing") ->
      assoc "state" d <> Some (VStr "paused") -> after = StateConst STATE_IDLE)) /\
  (forall env (self : MediaPlayer.VlcServer) w d,
     fst (MediaPlayer.fetch_data env None (self, w)) = Ok (VDict d) ->
     let after := MediaPlayer.state (fst (snd (MediaPlayer.update env (self, w)))) in
     (assoc "state" d = Some (VStr "playing") -> after = StateConst STATE_PLAYING) /\
     (assoc "state" d = Some (VStr "paused") -> after = StateConst STATE_PAUSED) /\
     (assoc "state" d = Some (VStr "stopped") -> after = StateConst STATE_IDLE) /\
     (assoc "state" d <> Some (VStr "playing") ->
      assoc "state" d <> Some (VStr "paused") ->
      assoc "state" d <> Some (VStr "stopped") -> after = MediaPlayer.state self)).
Proof.
  split; intros env self w d Hf after; subst after.
  - rewrite (Init_update_state_after env self w d Hf).
    repeat split.
    + now intros ->.
    + now intros ->.
    + intros H1 H2.
      destruct (assoc "state" d) as [v|]; [|reflexivity].
      assert (E1 : eq_str v "playing" = false) by (apply eq_str_false; congruence).
      assert (E2 : eq_str v "paused" = false) by (apply eq_str_false; congruence).
      now rewrite E1, E2.
  - rewrite (MediaPlayer_update_state_after env self w d Hf).
    repeat split.
    + now intros ->.
    + now intros ->.
    + now intros ->.
    + intros H1 H2 H3.
      destruct (assoc "state" d) as [v|]; [|reflexivity].
      assert (E1 : eq_str v "playing" = false) by (apply eq_str_false; congruence).
      assert (E2 : eq_str v "paused" = false) by (apply eq_str_false; congruence).
      assert (E3 : eq_str v "stopped" = false) by (apply eq_str_false; congruence).
      now rewrite E1, E2, E3.
Qed.

Lemma update_state_mapping_witness :
  (fst (Init.fetch_data (serving status_opening) None (sample_init, quiet))
   = Ok status_opening /\
   Init.state (fst (snd (Init.update (serving status_opening) (sample_init, quiet))))
   = StateConst STATE_IDLE) /\
  (fst (MediaPlayer.fetch_data (serving status_song) None (sample_player, quiet))
   = Ok status_song /\
   MediaPlayer.state
     (fst (snd (MediaPlayer.update (serving status_song) (sample_player, quiet))))
   = StateConst STATE_PLAYING).
Proof.
  split; (split; [reflexivity|]).
  - apply (proj1 update_state_mapping (serving status_opening) sample_init quiet
             _ eq_refl); discriminate.
  - apply (proj2 update_state_mapping (serving status_song) sample_player quiet
             _ eq_refl). reflexivity.
Defined.

(** The mapping is not total in [media_player.py], as the specification
    has it: the raw state [opening] leaves a new object with its initial
    empty mapping, which is none of Playing, Paused and Idle, and leaves an
    object that was playing in the state Playing.  The outcome depends on
    the state before. *)
Lemma MediaPlayer_unmatched_state_keeps_prior_state :
  MediaPlayer.state
    (fst (snd (MediaPlayer.update (serving status_opening) (sample_player, quiet))))
  = StateEmptyDict /\
  MediaPlayer.state
    (fst (snd (MediaPlayer.update (serving status_opening)
                 (MediaPlayer.set_state (StateConst STATE_PLAYING) sample_player, quiet))))
  = StateConst STATE_PLAYING.
Proof. split; reflexivity. Qed.

(** ** Metadata *)

Lemma Init_update_information_skip (l : list pyval) :
  Forall other_category l ->
  forall (o : Init.VlcServer) (w : World),
    for_each l Init.update_information_step (o, w) = (Ok tt, (o, w)).
Proof.
  induction 1 as [|e l [d [-> Hn]] _ IH]; intros o w; cbn; [reflexivity|].
  unfold Init.update_information_step at 1. rewrite dict_get_VDict. run_py.
  assert (E : eq_str match assoc "@name" d with Some v => v | None => VNone end "meta"
              = false).
  { apply eq_str_false. destruct (assoc "@name" d); congruence. }
  rewrite E. cbn. apply IH.
Qed.

(** With one category named [meta] among mappings that are not, the loop
    stores that category's [info]. *)
Lemma Init_update_information_loop_meta (pre post : list pyval)
    (m : list (string * pyval)) (x : pyval) (o : Init.VlcServer) (w : World) :
  Forall other_category pre ->
  Forall other_category post ->
  assoc "@name" m = Some (VStr "meta") ->
  assoc "info" m = Some x ->
  for_each (pre ++ VDict m :: post) Init.update_information_step (o, w) =
  (Ok tt, (Init.set_media_metadata x o, w)).
Proof.
  intros Hpre Hpost Hname Hinfo. revert o w.
  induction Hpre as [|e l [d [-> Hn]] _ IH]; intros o w; cbn.
  - unfold Init.update_information_step at 1. rewrite dict_get_VDict, Hname. run_py.
    rewrite Hinfo. cbn. apply Init_update_information_skip, Hpost.
  - unfold Init.update_information_step at 1. rewrite dict_get_VDict. run_py.
    assert (E : eq_str match assoc "@name" d with Some v => v | None => VNone end "meta"
                = false).
    { apply eq_str_false. destruct (assoc "@name" d); congruence. }
    rewrite E. cbn. apply IH.
Qed.

Lemma Init_update_information_meta (o : Init.VlcServer) (w : World)
    (d : list (string * pyval)) (information : pyval) (pre post : list pyval)
    (m : list (string * pyval)) (x : pyval) :
  Init._status o = VDict d ->
  assoc "information" d = Some information ->
  getitem information "category" = Ok (VList (pre ++ VDict m :: post)) ->
  Forall other_category pre ->
  Forall other_category post ->
  assoc "@name" m = Some (VStr "meta") ->
  assoc "info" m = Some x ->
  Init.update_information (o, w) = (Ok tt, (Init.set_media_metadata x o, w)).
Proof.
  intros Hs Hi Hc Hpre Hpost Hname Hinfo.
  unfold Init.update_information. run_py. rewrite Hs. cbn. rewrite Hi. cbn.
  rewrite Hs. cbn. rewrite Hi, Hc. cbn.
  now rewrite (Init_update_information_loop_meta pre post m x o w Hpre Hpost Hname Hinfo).
Qed.

Lemma Init_update_information_absent (o : Init.VlcServer) (w : World)
    (d : list (string * pyval)) :
  Init._status o = VDict d ->
  assoc "information" d = None ->
  Init.update_information (o, w) = (Ok tt, (o, w)).
Proof.
  intros Hs Hi. unfold Init.update_information. run_py. rewrite Hs. cbn.
  now rewrite Hi.
Qed.

(** The metadata [update] leaves behind is what its metadata block
    stored. *)
Lemma Init_update_metadata_after (env : Env) (self : Init.VlcServer) (w : World)
    (d : list (string * pyval)) (o1 : Init.VlcServer) :
  fst (Init.fetch_data env None (self, w)) = Ok (VDict d) ->
  (forall w', Init.update_information (Init.set_status (VDict d) self, w') =
              (Ok tt, (o1, w'))) ->
  Init._media_metadata (fst (snd (Init.update env (self, w)))) =
  Init._media_metadata o1.
Proof.
  intros Hf Hinfo.
  destruct (Init_update_run env self w d Hf) as [w' [md [r [o' [Hi [Hl ->]]]]]].
  rewrite Hinfo in Hi. injection Hi as ->. cbn [fst snd].
  match type of Hl with
  | Init.update_levels ?s (?o, ?w0) = _ =>
      destruct (Init_update_levels_frame s o w0) as [r2 [o2 [Hl2 [_ [Hm _]]]]];
      rewrite Hl in Hl2; injection Hl2 as _ ->
  end.
  exact Hm.
Qed.

(** The loop of [media_artist]. *)
Lemma Init_media_artist_skip (l : list pyval) :
  Forall other_entry l ->
  forall artist : option pyval,
    for_each l Init.media_artist_step artist = (Ok tt, artist).
Proof.
  induction 1 as [|e l [d [n [-> [Hn Hne]]]] _ IH]; intro artist; cbn; [reflexivity|].
  unfold Init.media_artist_step at 1. run_py. rewrite Hn. cbn.
  assert (E : eq_str n "showName" = false) by now apply eq_str_false.
  rewrite E. cbn. apply IH.
Qed.

Lemma Init_media_artist_loop_found (pre post : list pyval)
    (it : list (string * pyval)) (a : pyval) :
  Forall other_entry pre ->
  Forall other_entry post ->
  assoc "@name" it = Some (VStr "showName") ->
  assoc "#text" it = Some a ->
  forall artist : option pyval,
    for_each (pre ++ VDict it :: post) Init.media_artist_step artist =
    (Ok tt, Some a).
Proof.
  intros Hpre Hpost Hname Htext.
  induction Hpre as [|e l [d [n [-> [Hn Hne]]]] _ IH]; intro artist; cbn.
  - unfold Init.media_artist_step at 1. run_py. rewrite Hname. cbn.
    rewrite Htext. cbn. apply Init_media_artist_skip, Hpost.
  - unfold Init.media_artist_step at 1. run_py. rewrite Hn. cbn.
    assert (E : eq_str n "showName" = false) by now apply eq_str_false.
    rewrite E. cbn. apply IH.
Qed.

(** Without an entry named [showName] the local [artist] is never bound,
    however the loop ends. *)
Lemma Init_media_artist_loop_unbound (l : list pyval) :
  Forall (fun e => getitem e "@name" <> Ok (VStr "showName")) l ->
  exists r, for_each l Init.media_artist_step None = (r, None).
Proof.
  induction 1 as [|e l He _ [r IH]]; cbn; [now exists (Ok tt)|].
  unfold Init.media_artist_step at 1. run_py.
  destruct (getitem e "@name") as [n|ex]; cbn; [|now exists (Raise ex)].
  assert (E : eq_str n "showName" = false).
  { apply eq_str_false. congruence. }
  rewrite E. cbn. unfold bind in IH. now exists r.
Qed.

Lemma Init_media_artist_found (self : Init.VlcServer) (pre post : list pyval)
    (it : list (string * pyval)) (a : pyval) :
  Init._media_metadata self = VList (pre ++ VDict it :: post) ->
  Forall other_entry pre ->
  Forall other_entry post ->
  assoc "@name" it = Some (VStr "showName") ->
  assoc "#text" it = Some a ->
  Init.media_artist self = Ok a.
Proof.
  intros Hm Hpre Hpost Hname Htext. unfold Init.media_artist. rewrite Hm. run_py.
  now rewrite (Init_media_artist_loop_found pre post it a Hpre Hpost Hname Htext).
Qed.

Lemma Init_media_artist_default (self : Init.VlcServer) :
  (forall items, iter (Init._media_metadata self) = Ok items ->
     Forall (fun e => getitem e "@name" <> Ok (VStr "showName")) items) ->
  Init.media_artist self = Ok (VStr "None").
Proof.
  intro H. unfold Init.media_artist. run_py.
  destruct (ne_empty_dict (Init._media_metadata self)); cbn; [|reflexivity].
  destruct (iter (Init._media_metadata self)) as [items|e]; cbn; [|reflexivity].
  destruct (Init_media_artist_loop_unbound items (H items eq_refl)) as [r ->].
  now destruct r as [[]|e].
Qed.

(** [media_title] answers the string [None] on every object: its first
    attribute access raises and the handler returns the initial
    [filename]. *)
Lemma Init_media_title_always_None (self : Init.VlcServer) :
  Init.media_title self = Ok (VStr "None").
Proof. reflexivity. Qed.

(** Neither property of [src/__init__.py] raises. *)
Lemma Init_media_artist_returns (self : Init.VlcServer) :
  exists v, Init.media_artist self = Ok v.
Proof.
  unfold Init.media_artist. run_py.
  destruct (ne_empty_dict (Init._media_metadata self)); cbn; [|eauto].
  destruct (iter (Init._media_metadata self)) as [items|e]; cbn; [|eauto].
  destruct (for_each items Init.media_artist_step None) as [[[]|e] [a|]]; cbn; eauto.
Qed.

Lemma Init_update_information_no_meta (o : Init.VlcServer) (w : World)
    (d : list (string * pyval)) :
  Init._status o = VDict d ->
  assoc "information" d = None \/
  (exists information cats,
     assoc "information" d = Some information /\
     getitem information "category" = Ok (VList cats) /\
     Forall other_category cats) ->
  Init.update_information (o, w) = (Ok tt, (o, w)).
Proof.
  intros Hs [Hi | [information [cats [Hi [Hc Hcats]]]]].
  - now apply Init_update_information_absent with d.
  - unfold Init.update_information. run_py. rewrite Hs. cbn. rewrite Hi. cbn.
    rewrite Hs. cbn. rewrite Hi, Hc. cbn.
    now rewrite (Init_update_information_skip cats Hcats o w).
Qed.

(** C5, as the code has it, for [src/__init__.py].  The artist is read
    from the metadata entry named [showName]: when the fetched status has
    one category named [meta] whose [info] list holds one such entry with
    text [a], reading the artist after [update] yields [a].  When the
    status brings no [meta] category to an object that has no metadata yet,
    title and artist both read as the string [None]; and the artist reads
    as [None] whenever the stored metadata has no entry named [showName].
    Nothing is raised in any of these cases. *)
Theorem Init_artist_from_show_name_else_None :
  (forall env (self : Init.VlcServer) w d information pre m post ipre it ipost a,
     fst (Init.fetch_data env None (self, w)) = Ok (VDict d) ->
     assoc "information" d = Some information ->
     getitem information "category" = Ok (VList (pre ++ VDict m :: post)) ->
     Forall other_category pre ->
     Forall other_category post ->
     assoc "@name" m = Some (VStr "meta") ->
     assoc "info" m = Some (VList (ipre ++ VDict it :: ipost)) ->
     Forall other_entry ipre ->
     Forall other_entry ipost ->
     assoc "@name" it = Some (VStr "showName") ->
     assoc "#text" it = Some a ->
     Init.media_artist (fst (snd (Init.update env (self, w)))) = Ok a) /\
  (forall env (self : Init.VlcServer) w d,
     fst (Init.fetch_data env None (self, w)) = Ok (VDict d) ->
     assoc "information" d = None \/
     (exists information cats,
        assoc "information" d = Some information /\
        getitem information "category" = Ok (VList cats) /\
        Forall other_category cats) ->
     Init._media_metadata self = VDict [] ->
     Init.media_title (fst (snd (Init.update env (self, w)))) = Ok (VStr "None") /\
     Init.media_artist (fst (snd (Init.update env (self, w)))) = Ok (VStr "None")) /\
  (forall self : Init.VlcServer,
     (forall items, iter (Init._media_metadata self) = Ok items ->
        Forall (fun e => getitem e "@name" <> Ok (VStr "showName")) items) ->
     Init.media_artist self = Ok (VStr "None")).
Proof.
  split; [|split].
  - intros env self w d information pre m post ipre it ipost a
      Hf Hi Hc Hpre Hpost Hname Hinfo Hipre Hipost Hshow Htext.
    apply Init_media_artist_found with ipre ipost it; try assumption.
    rewrite (Init_update_metadata_after env self w d
               (Init.set_media_metadata (VList (ipre ++ VDict it :: ipost))
                  (Init.set_status (VDict d) self)) Hf); [reflexivity|].
    intro w'.
    now apply Init_update_information_meta with d information pre post m.
  - intros env self w d Hf Hno Hempty. split; [apply Init_media_title_always_None|].
    apply Init_media_artist_default.
    rewrite (Init_update_metadata_after env self w d
               (Init.set_status (VDict d) self) Hf).
    + cbn. rewrite Hempty. cbn. intros items [= <-]. constructor.
    + intro w'. now apply Init_update_information_no_meta with d.
  - exact Init_media_artist_default.
Qed.

Lemma Init_artist_from_show_name_else_None_witness :
  fst (Init.fetch_data (serving status_show) None (sample_init, quiet)) = Ok status_show /\
  Init.media_artist (fst (snd (Init.update (serving status_show) (sample_init, quiet))))
  = Ok (VStr "Artist B").
Proof.
  split; [reflexivity|].
  apply (proj1 Init_artist_from_show_name_else_None
           (serving status_show) sample_init quiet _ _
           [] _ [VDict [("@name", VStr "Stream 0")]]
           [VDict [("@name", VStr "title"); ("#text", VStr "Song A")]]
           [("@name", VStr "showName"); ("#text", VStr "Artist B")] []
           (VStr "Artist B") eq_refl eq_refl eq_refl).
  - constructor.
  - constructor; [|constructor]. eexists. split; [reflexivity | discriminate].
  - reflexivity.
  - reflexivity.
  - constructor; [|constructor]. do 2 eexists.
    split; [reflexivity|]. split; [reflexivity | discriminate].
  - constructor.
  - reflexivity.
  - reflexivity.
Defined.

(** The specification's own example is not read back.  After a completed
    [update] on a status whose [meta] category holds the title [Song A]
    and the artist [Artist B], [src/__init__.py] answers the string [None]
    for both properties, and [media_player.py], whose properties call
    [get] on the state string, raises for both. *)
Lemma metadata_example_is_not_read :
  let init_after := Init.update (serving status_song) (sample_init, quiet) in
  let player_after := MediaPlayer.update (serving status_song) (sample_player, quiet) in
  fst init_after = Ok true /\
  Init.media_title (fst (snd init_after)) = Ok (VStr "None") /\
  Init.media_artist (fst (snd init_after)) = Ok (VStr "None") /\
  fst player_after = Ok true /\
  MediaPlayer.media_title (fst (snd player_after)) = Raise AttributeError /\
  MediaPlayer.media_artist (fst (snd player_after)) = Raise AttributeError.
Proof. cbv zeta. repeat split; reflexivity. Qed.

(** ** Commands *)

(** A command sent through [fetch_data]: one request, to the address built
    for that command, and no change to the object. *)
Lemma Init_fetch_data_command (env : Env) (command : option string)
    (self : Init.VlcServer) (w : World) :
  exists v r lg,
    Init.fetch_data env command (self, w) =
    (Ok v, (self, {| sent := r :: sent w; logged := lg |})) /\
    Init.build_url self command = Ok (url r).
Proof.
  destruct (Init_fetch_data_run env command self w _ (Init_build_url_eq self command))
    as [lg H].
  rewrite H. do 3 eexists. split; [reflexivity|]. apply Init_build_url_eq.
Qed.

Lemma Init_mute_volume_run (env : Env) (mute : bool) (self : Init.VlcServer) (w : World) :
  exists r lg,
    Init.mute_volume env mute (self, w) =
    (Ok tt, (Init.set_muted (Some mute) self,
             {| sent := r :: sent w; logged := lg |})) /\
    Init.build_url self (Some ("volume&val=" ++ if mute then "0" else "256")) =
    Ok (url r).
Proof.
  unfold Init.mute_volume.
  assert (E : format "volume&val={}" [if mute then "0" else "256"] =
              Ok ("volume&val=" ++ if mute then "0" else "256"))
    by now destruct mute.
  rewrite E. unfold lift. unfold bind at 1. unfold bind at 1.
  destruct (Init_fetch_data_command env
              (Some ("volume&val=" ++ if mute then "0" else "256")) self w)
    as [v [r [lg [H Hu]]]].
  rewrite H. exists r, lg. split; [reflexivity | exact Hu].
Qed.

Lemma int_times_256_in_range (level : Q) :
  (0 <= level)%Q -> (level <= 1)%Q ->
  int_times_256 level = Ok (Qfloor (level * (256 # 1))).
Proof.
  intros H0 H1. unfold int_times_256.
  destruct (Qle_bool (2 ^ 1016 # 1) (Qabs level)) eqn:E.
  - exfalso. apply Qle_bool_iff in E. rewrite Qabs_pos in E by exact H0.
    assert (H : (2 ^ 1016 # 1 <= 1)%Q) by (eapply Qle_trans; eassumption).
    revert H. unfold Qle. cbn. vm_compute. intro H. now apply H.
  - f_equal. destruct level as [n dn]. unfold Qfloor, Qmult. cbn [Qnum Qden].
    rewrite Pos.mul_1_r. apply Z.quot_div_nonneg; [|reflexivity].
    unfold Qle in H0. cbn in H0. lia.
Qed.

Lemma Init_set_volume_level_run (env : Env) (level : Q) (self : Init.VlcServer)
    (w : World) :
  (0 <= level)%Q -> (level <= 1)%Q ->
  exists r lg,
    Init.set_volume_level env level (self, w) =
    (Ok tt, (Init.set_volume (Some level) self,
             {| sent := r :: sent w; logged := lg |})) /\
    Init.build_url self
      (Some ("volume&val=" ++ str_of_int (Qfloor (level * (256 # 1))))) =
    Ok (url r).
Proof.
  intros H0 H1. unfold Init.set_volume_level.
  rewrite (int_times_256_in_range level H0 H1).
  unfold lift. unfold bind at 1.
  assert (E : forall s, format "volume&val={}" [s] = Ok ("volume&val=" ++ s)).
  { intro s. cbn. now rewrite append_empty. }
  rewrite E. unfold bind at 1. unfold bind at 1.
  destruct (Init_fetch_data_command env
              (Some ("volume&val=" ++ str_of_int (Qfloor (level * (256 # 1))))) self w)
    as [v [r [lg [H Hu]]]].
  rewrite H. exists r, lg. split; [reflexivity | exact Hu].
Qed.

(** C7, as the code has it.  For every level between 0 and 1
    [set_volume_level] sends the command [volume&val=N] where [N] is the
    integer part of [level * 256], the product cut off, not rounded; for
    the level one half that is [val=128].  [mute_volume] sends [val=0] to
    mute and [val=256] to unmute. *)
Theorem volume_commands_sent :
  (forall env (self : Init.VlcServer) w level,
     (0 <= level)%Q -> (level <= 1)%Q ->
     exists r lg,
       Init.set_volume_level env level (self, w) =
       (Ok tt, (Init.set_volume (Some level) self,
                {| sent := r :: sent w; logged := lg |})) /\
       Init.build_url self
         (Some ("volume&val=" ++ str_of_int (Qfloor (level * (256 # 1))))) =
       Ok (url r)) /\
  str_of_int (Qfloor ((1 # 2) * (256 # 1))) = "128" /\
  (forall env (self : Init.VlcServer) w mute,
     exists r lg,
       Init.mute_volume env mute (self, w) =
       (Ok tt, (Init.set_muted (Some mute) self,
                {| sent := r :: sent w; logged := lg |})) /\
       Init.build_url self (Some ("volume&val=" ++ if mute then "0" else "256")) =
       Ok (url r)).
Proof.
  split; [|split].
  - intros env self w level H0 H1. now apply Init_set_volume_level_run.
  - reflexivity.
  - intros env self w mute. apply Init_mute_volume_run.
Qed.

Lemma volume_commands_sent_witness :
  ((0 <= 1 # 2)%Q /\ (1 # 2 <= 1)%Q) /\
  exists r lg,
    Init.set_volume_level unreachable (1 # 2) (sample_init, quiet) =
    (Ok tt, (Init.set_volume (Some (1 # 2)) sample_init,
             {| sent := r :: sent quiet; logged := lg |})) /\
    Init.build_url sample_init
      (Some ("volume&val=" ++ str_of_int (Qfloor ((1 # 2) * (256 # 1))))) =
    Ok (url r).
Proof.
  split; [split; discriminate|].
  apply (proj1 volume_commands_sent unreachable sample_init quiet (1 # 2));
    discriminate.
Defined.

(** The value is not rounded: for the level 511/1024 the product is
    127.75, which [round] takes to 128, and the command sent carries
    127. *)
Lemma set_volume_level_does_not_round :
  ((0 <= 511 # 1024)%Q /\ (511 # 1024 <= 1)%Q) /\
  map url (sent (snd (snd (Init.set_volume_level unreachable (511 # 1024)
                             (sample_init, quiet))))) =
  ["http://localhost:8080/requests.status.xml?command=volume&val=127"] /\
  spec_set_volume_command (511 # 1024) = "volume&val=128".
Proof. split; [split; discriminate|]. split; reflexivity. Qed.

(** ** Volume *)

Lemma truediv_256_exact (v : Z) :
  Z.abs v < 2 ^ 53 -> truediv_256 v = Ok (v # 256).
Proof.
  intro H. unfold truediv_256, float_of_int.
  assert (Hb : (Z.log2 (Z.abs v) + 1 <=? 53) = true).
  { apply Z.leb_le.
    destruct (Z.eq_dec (Z.abs v) 0) as [E|E].
    - rewrite E. cbn. lia.
    - assert (Z.log2 (Z.abs v) < 53) by (apply Z.log2_lt_pow2; lia). lia. }
  rewrite Hb.
  assert (Hs : (2 ^ 1032 <=? Z.abs v) = false).
  { apply Z.leb_gt. apply Z.lt_trans with (2 ^ 53); [exact H|]. reflexivity. }
  now rewrite Hs.
Qed.

Lemma Init_update_levels_run (d : list (string * pyval)) (o : Init.VlcServer)
    (w : World) (tv lv vv : pyval) (p l v : Z) :
  assoc "time" d = Some tv -> py_int tv = Ok p ->
  assoc "length" d = Some lv -> py_int lv = Ok l ->
  assoc "volume" d = Some vv -> py_int vv = Ok v ->
  Z.abs v < 2 ^ 53 ->
  Init.update_levels (VDict d) (o, w) =
  (Ok tt,
   (Init.set_muted (Some (v =? 0))
      (Init.set_volume (Some (v # 256))
         (Init.set_media_duration (Some l)
            (Init.set_media_position (Some p) o))), w)).
Proof.
  intros Ht Hp Hl Hd Hv Hi Hr. unfold Init.update_levels.
  rewrite !dict_get_VDict, Ht, Hl, Hv. run_py.
  rewrite Hp. cbn. rewrite Hd. cbn. rewrite Hi. cbn.
  rewrite (truediv_256_exact v Hr). reflexivity.
Qed.

Lemma MediaPlayer_update_levels_run (d : list (string * pyval))
    (o : MediaPlayer.VlcServer) (w : World) (tv lv vv : pyval) (p l v : Z) :
  assoc "position" d = Some tv -> py_int tv = Ok p ->
  assoc "length" d = Some lv -> py_int lv = Ok l ->
  assoc "volume" d = Some vv -> py_int vv = Ok v ->
  Z.abs v < 2 ^ 53 ->
  MediaPlayer.update_levels (VDict d) (o, w) =
  (Ok tt,
   (MediaPlayer.set_muted (Some (v =? 0))
      (MediaPlayer.set_volume (Some (v # 256))
         (MediaPlayer.set_media_duration (Some l)
            (MediaPlayer.set_media_position (Some p) o))), w)).
Proof.
  intros Ht Hp Hl Hd Hv Hi Hr. unfold MediaPlayer.update_levels.
  rewrite !dict_get_VDict, Ht, Hl, Hv. run_py.
  rewrite Hp. cbn. rewrite Hd. cbn. rewrite Hi. cbn.
  rewrite (truediv_256_exact v Hr). reflexivity.
Qed.

Lemma level_of_raw_volume (v : Z) :
  (v # 256 == inject_Z v / 256)%Q /\ ((v =? 0) = true <-> (v # 256 == 0)%Q).
Proof.
  split.
  - unfold Qeq, Qdiv, Qinv, Qmult, inject_Z. cbn. lia.
  - rewrite Z.eqb_eq. unfold Qeq. cbn. lia.
Qed.

(** A command: the request, then one assignment. *)
Lemma Init_command_run (env : Env) (c : string) (f : Init.VlcServer -> Init.VlcServer)
    (self : Init.VlcServer) (w : World) :
  exists w',
    (Init.fetch_data env (Some c) ;;; self_set f) (self, w) = (Ok tt, (f self, w')).
Proof.
  destruct (Init_fetch_data_returns env (Some c) self w) as [v [w' H]].
  unfold bind. rewrite H. now exists w'.
Qed.

Lemma small_raw_volume (v : Z) : 0 <= v <= 256 -> Z.abs v < 2 ^ 53.
Proof.
  intro H. rewrite Z.abs_eq by lia.
  apply Z.le_lt_trans with 256; [lia | reflexivity].
Qed.

(** C8, as the code has it.  After an [update] that completes on a status
    whose raw volume is an integer [v] between 0 and 256, the volume level
    is [v / 256] and the mute flag is [v == 0], so the object is muted
    exactly when its level is zero; this holds in both revisions.  Play,
    pause and stop leave level and flag as they are.  (Mute and set-volume
    assign one of the two and not the other.) *)
Theorem volume_invariant_after_update :
  (forall env (self : Init.VlcServer) w d tv lv vv p l v,
     fst (Init.fetch_data env None (self, w)) = Ok (VDict d) ->
     assoc "time" d = Some tv -> py_int tv = Ok p ->
     assoc "length" d = Some lv -> py_int lv = Ok l ->
     assoc "volume" d = Some vv -> py_int vv = Ok v ->
     0 <= v <= 256 ->
     fst (Init.update env (self, w)) = Ok true /\
     exists q,
       Init.volume_level (fst (snd (Init.update env (self, w)))) = Some q /\
       (q == inject_Z v / 256)%Q /\
       Init.is_volume_muted (fst (snd (Init.update env (self, w)))) = Some (v =? 0) /\
       ((v =? 0) = true <-> (q == 0)%Q)) /\
  (forall env (self : MediaPlayer.VlcServer) w d tv lv vv p l v,
     fst (MediaPlayer.fetch_data env None (self, w)) = Ok (VDict d) ->
     assoc "position" d = Some tv -> py_int tv = Ok p ->
     assoc "length" d = Some lv -> py_int lv = Ok l ->
     assoc "volume" d = Some vv -> py_int vv = Ok v ->
     0 <= v <= 256 ->
     fst (MediaPlayer.update env (self, w)) = Ok true /\
     exists q,
       MediaPlayer.volume_level (fst (snd (MediaPlayer.update env (self, w)))) = Some q /\
       (q == inject_Z v / 256)%Q /\
       MediaPlayer.is_volume_muted (fst (snd (MediaPlayer.update env (self, w))))
       = Some (v =? 0) /\
       ((v =? 0) = true <-> (q == 0)%Q)) /\
  (forall env (self : Init.VlcServer) w,
     let keeps (after : Init.VlcServer) :=
       Init.volume_level after = Init.volume_level self /\
       Init.is_volume_muted after = Init.is_volume_muted self in
     keeps (fst (snd (Init.media_play env (self, w)))) /\
     keeps (fst (snd (Init.media_pause env (self, w)))) /\
     keeps (fst (snd (Init.media_stop env (self, w))))) /\
  (forall env (self : MediaPlayer.VlcServer) w,
     let keeps (after : MediaPlayer.VlcServer) :=
       MediaPlayer.volume_level after = MediaPlayer.volume_level self /\
       MediaPlayer.is_volume_muted after = MediaPlayer.is_volume_muted self in
     keeps (fst (snd (MediaPlayer.media_play env (self, w)))) /\
     keeps (fst (snd (MediaPlayer.media_pause env (self, w)))) /\
     keeps (fst (snd (MediaPlayer.media_stop env (self, w))))).
Proof.
  split; [|split; [|split]].
  - intros env self w d tv lv vv p l v Hf Ht Hp Hl Hd Hv Hi Hr.
    destruct (Init_update_run env self w d Hf) as [w' [md [r [o' [_ [Hlev ->]]]]]].
    rewrite (Init_update_levels_run d _ w' tv lv vv p l v Ht Hp Hl Hd Hv Hi
               (small_raw_volume v Hr)) in Hlev.
    injection Hlev as <- <-. cbn. split; [reflexivity|].
    exists (v # 256). destruct (level_of_raw_volume v) as [E1 E2]. auto.
  - intros env self w d tv lv vv p l v Hf Ht Hp Hl Hd Hv Hi Hr.
    destruct (MediaPlayer_update_run env self w d Hf)
      as [w' [md [r [o' [_ [Hlev ->]]]]]].
    rewrite (MediaPlayer_update_levels_run d _ w' tv lv vv p l v Ht Hp Hl Hd Hv Hi
               (small_raw_volume v Hr)) in Hlev.
    injection Hlev as <- <-. cbn. split; [reflexivity|].
    exists (v # 256). destruct (level_of_raw_volume v) as [E1 E2]. auto.
  - intros env self w keeps. subst keeps. cbv beta.
    unfold Init.media_play, Init.media_pause, Init.media_stop.
    destruct (Init_command_run env "pl_pause"
                (Init.set_state (StateConst STATE_PLAYING)) self w) as [w1 ->].
    destruct (Init_command_run env "pl_pause"
                (Init.set_state (StateConst STATE_PAUSED)) self w) as [w2 ->].
    destruct (Init_command_run env "pl_stop"
                (Init.set_state (StateConst STATE_IDLE)) self w) as [w3 ->].
    cbn. repeat split.
  - intros env self w keeps. subst keeps. cbv beta. cbn. repeat split.
Qed.

Lemma volume_invariant_after_update_witness :
  fst (Init.fetch_data (serving status_song) None (sample_init, quiet)) = Ok status_song /\
  0 <= 128 <= 256 /\
  fst (Init.update (serving status_song) (sample_init, quiet)) = Ok true /\
  exists q,
    Init.volume_level (fst (snd (Init.update (serving status_song) (sample_init, quiet))))
    = Some q /\
    (q == inject_Z 128 / 256)%Q /\
    Init.is_volume_muted
      (fst (snd (Init.update (serving status_song) (sample_init, quiet))))
    = Some (128 =? 0) /\
    ((128 =? 0) = true <-> (q == 0)%Q).
Proof.
  split; [reflexivity|]. split; [lia|].
  apply (proj1 volume_invariant_after_update (serving status_song) sample_init quiet
           _ (VStr "12") (VStr "240") (VStr "128") 12 240 128
           eq_refl eq_refl eq_refl eq_refl eq_refl eq_refl eq_refl).
  lia.
Defined.

(** The optimistic assignments do not keep level and flag together.
    After a poll that found the raw volume 128, muting sets the flag and
    leaves the level at one half; and setting the level to zero leaves the
    flag unset. *)
Lemma mute_and_level_fall_apart :
  let polled := Init.update (serving status_song) (sample_init, quiet) in
  let muted := Init.mute_volume (serving status_song) true (snd polled) in
  let silenced := Init.set_volume_level (serving status_song) 0 (snd polled) in
  fst polled = Ok true /\
  fst muted = Ok tt /\
  Init.is_volume_muted (fst (snd muted)) = Some true /\
  Init.volume_level (fst (snd muted)) = Some (128 # 256) /\
  ~ (128 # 256 == 0)%Q /\
  fst silenced = Ok tt /\
  Init.volume_level (fst (snd silenced)) = Some 0%Q /\
  Init.is_volume_muted (fst (snd silenced)) = Some false.
Proof. cbv zeta. repeat split; try reflexivity. discriminate. Qed.

(** ** Optimistic updates *)

Lemma Init_set_volume_level_frame (env : Env) (level : Q) (self : Init.VlcServer)
    (w : World) :
  exists r w',
    Init.set_volume_level env level (self, w) =
    (r, (if is_ok r then Init.set_volume (Some level) self else self, w')).
Proof.
  unfold Init.set_volume_level.
  destruct (int_times_256 level) as [scaled|e]; unfold lift; unfold bind at 1.
  - assert (E : forall s, format "volume&val={}" [s] = Ok ("volume&val=" ++ s)).
    { intro s. cbn. now rewrite append_empty. }
    rewrite E. unfold bind at 1.
    destruct (Init_command_run env ("volume&val=" ++ str_of_int scaled)
                (Init.set_volume (Some level)) self w) as [w' ->].
    now exists (Ok tt), w'.
  - now exists (Raise e), w.
Qed.

(** C9. A property read right after a command returns the value the
    command assigned, without any poll in between: the state after play,
    pause and stop in both revisions, the mute flag after [mute_volume] and
    the level after [set_volume_level] (for a level between 0 and 1) in
    [src/__init__.py], which alone has these two commands.  Each command
    completes without raising. *)
Theorem command_then_read_is_optimistic :
  (forall env (self : Init.VlcServer) w,
     (fst (Init.media_play env (self, w)) = Ok tt /\
      Init.state (fst (snd (Init.media_play env (self, w)))) = StateConst STATE_PLAYING) /\
     (fst (Init.media_pause env (self, w)) = Ok tt /\
      Init.state (fst (snd (Init.media_pause env (self, w)))) = StateConst STATE_PAUSED) /\
     (fst (Init.media_stop env (self, w)) = Ok tt /\
      Init.state (fst (snd (Init.media_stop env (self, w)))) = StateConst STATE_IDLE)) /\
  (forall env (self : Init.VlcServer) w mute,
     fst (Init.mute_volume env mute (self, w)) = Ok tt /\
     Init.is_volume_muted (fst (snd (Init.mute_volume env mute (self, w)))) = Some mute) /\
  (forall env (self : Init.VlcServer) w level,
     (0 <= level)%Q -> (level <= 1)%Q ->
     fst (Init.set_volume_level env level (self, w)) = Ok tt /\
     Init.volume_level (fst (snd (Init.set_volume_level env level (self, w))))
     = Some level) /\
  (forall env (self : MediaPlayer.VlcServer) w,
     (fst (MediaPlayer.media_play env (self, w)) = Ok tt /\
      MediaPlayer.state (fst (snd (MediaPlayer.media_play env (self, w))))
      = StateConst STATE_PLAYING) /\
     (fst (MediaPlayer.media_pause env (self, w)) = Ok tt /\
      MediaPlayer.state (fst (snd (MediaPlayer.media_pause env (self, w))))
      = StateConst STATE_PAUSED) /\
     (fst (MediaPlayer.media_stop env (self, w)) = Ok tt /\
      MediaPlayer.state (fst (snd (MediaPlayer.media_stop env (self, w))))
      = StateConst STATE_IDLE)).
Proof.
  split; [|split; [|split]].
  - intros env self w.
    unfold Init.media_play, Init.media_pause, Init.media_stop.
    destruct (Init_command_run env "pl_pause"
                (Init.set_state (StateConst STATE_PLAYING)) self w) as [w1 ->].
    destruct (Init_command_run env "pl_pause"
                (Init.set_state (StateConst STATE_PAUSED)) self w) as [w2 ->].
    destruct (Init_command_run env "pl_stop"
                (Init.set_state (StateConst STATE_IDLE)) self w) as [w3 ->].
    cbn. repeat split.
  - intros env self w mute.
    destruct (Init_mute_volume_run env mute self w) as [r [lg [-> _]]].
    cbn. split; reflexivity.
  - intros env self w level H0 H1.
    destruct (Init_set_volume_level_run env level self w H0 H1) as [r [lg [-> _]]].
    cbn. split; reflexivity.
  - intros env self w. cbn. repeat split.
Qed.

Lemma command_then_read_is_optimistic_witness :
  ((0 <= 1 # 4)%Q /\ (1 # 4 <= 1)%Q) /\
  fst (Init.set_volume_level unreachable (1 # 4) (sample_init, quiet)) = Ok tt /\
  Init.volume_level (fst (snd (Init.set_volume_level unreachable (1 # 4)
                                 (sample_init, quiet)))) = Some (1 # 4).
Proof.
  split; [split; discriminate|].
  apply (proj1 (proj2 (proj2 command_then_read_is_optimistic))
           unreachable sample_init quiet (1 # 4)); discriminate.
Defined.

(** C10. Every command assigns one attribute and no other: play, pause and
    stop the state, [mute_volume] the mute flag, [set_volume_level] the
    level (or nothing at all when the conversion of the level raises).  The
    object afterwards is the object before with that one attribute set, so
    position, duration and metadata are as they were. *)
Theorem commands_assign_one_attribute :
  (forall env (self : Init.VlcServer) w,
     fst (snd (Init.media_play env (self, w)))
     = Init.set_state (StateConst STATE_PLAYING) self /\
     fst (snd (Init.media_pause env (self, w)))
     = Init.set_state (StateConst STATE_PAUSED) self /\
     fst (snd (Init.media_stop env (self, w)))
     = Init.set_state (StateConst STATE_IDLE) self) /\
  (forall env (self : Init.VlcServer) w mute,
     fst (snd (Init.mute_volume env mute (self, w)))
     = Init.set_muted (Some mute) self) /\
  (forall env (self : Init.VlcServer) w level,
     fst (snd (Init.set_volume_level env level (self, w)))
     = if is_ok (fst (Init.set_volume_level env level (self, w)))
       then Init.set_volume (Some level) self else self) /\
  (forall env (self : MediaPlayer.VlcServer) w,
     fst (snd (MediaPlayer.media_play env (self, w)))
     = MediaPlayer.set_state (StateConst STATE_PLAYING) self /\
     fst (snd (MediaPlayer.media_pause env (self, w)))
     = MediaPlayer.set_state (StateConst STATE_PAUSED) self /\
     fst (snd (MediaPlayer.media_stop env (self, w)))
     = MediaPlayer.set_state (StateConst STATE_IDLE) self) /\
  (forall (self : Init.VlcServer) s m v,
     let untouched (after : Init.VlcServer) :=
       Init.media_position after = Init.media_position self /\
       Init.media_duration after = Init.media_duration self /\
       Init._media_metadata after = Init._media_metadata self in
     untouched (Init.set_state s self) /\
     untouched (Init.set_muted m self) /\
     untouched (Init.set_volume v self)) /\
  (forall (self : MediaPlayer.VlcServer) s,
     MediaPlayer.media_position (MediaPlayer.set_state s self)
     = MediaPlayer.media_position self /\
     MediaPlayer.media_duration (MediaPlayer.set_state s self)
     = MediaPlayer.media_duration self /\
     MediaPlayer._media_metadata (MediaPlayer.set_state s self)
     = MediaPlayer._media_metadata self).
Proof.
  split; [|split; [|split; [|split; [|split]]]].
  - intros env self w.
    unfold Init.media_play, Init.media_pause, Init.media_stop.
    destruct (Init_command_run env "pl_pause"
                (Init.set_state (StateConst STATE_PLAYING)) self w) as [w1 ->].
    destruct (Init_command_run env "pl_pause"
                (Init.set_state (StateConst STATE_PAUSED)) self w) as [w2 ->].
    destruct (Init_command_run env "pl_stop"
                (Init.set_state (StateConst STATE_IDLE)) self w) as [w3 ->].
    cbn. repeat split.
  - intros env self w mute.
    destruct (Init_mute_volume_run env mute self w) as [r [lg [-> _]]].
    reflexivity.
  - intros env self w level.
    destruct (Init_set_volume_level_frame env level self w) as [r [w' ->]].
    reflexivity.
  - intros env self w. cbn. repeat split.
  - intros self s m v untouched. subst untouched. cbn. repeat split.
  - intros self s. cbn. repeat split.
Qed.

(** * Further properties of the two files *)

(** ** Polls that do not complete *)

Lemma MediaPlayer_update_information_absent (o : MediaPlayer.VlcServer) (w : World)
    (d : list (string * pyval)) :
  MediaPlayer._status o = Some (VDict d) ->
  assoc "information" d = None ->
  MediaPlayer.update_information (o, w) = (Ok tt, (o, w)).
Proof.
  intros Hs Hi. unfold MediaPlayer.update_information, MediaPlayer.self_status.
  run_py. rewrite Hs. cbn. now rewrite Hi.
Qed.

(** X1. A poll that fetches the empty mapping, which is what every failed
    exchange produces, ends in a [TypeError].  In [src/__init__.py] the
    object is then the object before with the status replaced and the
    state set to Idle; in [media_player.py] only the status is replaced.
    Position, duration, level, mute flag and metadata are those of the
    poll before. *)
Theorem poll_of_empty_mapping :
  (forall env (self : Init.VlcServer) w,
     fst (Init.fetch_data env None (self, w)) = Ok (VDict []) ->
     fst (Init.update env (self, w)) = Raise TypeError /\
     fst (snd (Init.update env (self, w))) =
     Init.set_state (StateConst STATE_IDLE) (Init.set_status (VDict []) self)) /\
  (forall env (self : MediaPlayer.VlcServer) w,
     fst (MediaPlayer.fetch_data env None (self, w)) = Ok (VDict []) ->
     fst (MediaPlayer.update env (self, w)) = Raise TypeError /\
     fst (snd (MediaPlayer.update env (self, w))) =
     MediaPlayer.set_status (VDict []) self).
Proof.
  split; intros env self w Hf.
  - destruct (Init_fetched_status env self w _ Hf) as [w' H].
    rewrite (Init_update_unfold env self w w' _ H).
    unfold bind at 1.
    rewrite (Init_update_information_absent (Init.set_status (VDict []) self) w' []
               eq_refl eq_refl).
    split; reflexivity.
  - destruct (MediaPlayer_fetched_status env self w _ Hf) as [w' H].
    rewrite (MediaPlayer_update_unfold env self w w' _ H).
    unfold bind at 1.
    rewrite (MediaPlayer_update_information_absent
               (MediaPlayer.set_status (VDict []) self) w' [] eq_refl eq_refl).
    split; reflexivity.
Qed.

Lemma poll_of_empty_mapping_witness :
  fst (Init.fetch_data unreachable None (sample_init, quiet)) = Ok (VDict []) /\
  fst (Init.update unreachable (sample_init, quiet)) = Raise TypeError /\
  fst (snd (Init.update unreachable (sample_init, quiet))) =
  Init.set_state (StateConst STATE_IDLE) (Init.set_status (VDict []) sample_init).
Proof.
  split; [reflexivity|].
  exact (proj1 poll_of_empty_mapping unreachable sample_init quiet eq_refl).
Defined.

Lemma Init_update_information_non_mapping (o : Init.VlcServer) (w : World) :
  (forall d, Init._status o <> VDict d) ->
  Init._status o <> VNone ->
  Init.update_information (o, w) = (Ok tt, (o, w)).
Proof.
  intros Hd Hn. unfold Init.update_information. run_py.
  destruct (Init._status o) as [|s|l|d] eqn:Hs; [congruence| | |now destruct (Hd d)].
  - cbn. destruct (is_substring "information" s); [|reflexivity].
    cbn. now rewrite Hs.
  - cbn. destruct (existsb _ l); [|reflexivity].
    cbn. now rewrite Hs.
Qed.

Lemma MediaPlayer_update_information_non_mapping (o : MediaPlayer.VlcServer)
    (w : World) (status : pyval) :
  MediaPlayer._status o = Some status ->
  (forall d, status <> VDict d) ->
  status <> VNone ->
  MediaPlayer.update_information (o, w) = (Ok tt, (o, w)).
Proof.
  intros Hs Hd Hn. unfold MediaPlayer.update_information, MediaPlayer.self_status.
  run_py. rewrite Hs.
  destruct status as [|s|l|d]; [congruence| | |now destruct (Hd d)].
  - cbn. destruct (is_substring "information" s); [|reflexivity].
    cbn. now rewrite Hs.
  - cbn. destruct (existsb _ l); [|reflexivity].
    cbn. now rewrite Hs.
Qed.

(** X2. When what [fetch_data] returns is not a mapping ([None] for a
    document without [root] or with an empty one, a string for a root that
    holds only text), [update] raises, a [TypeError] at the membership test
    on [None] and an [AttributeError] at the first [get] otherwise, and the
    only attribute it has changed is the stored status. *)
Theorem poll_of_non_mapping :
  (forall env (self : Init.VlcServer) w status,
     fst (Init.fetch_data env None (self, w)) = Ok status ->
     (forall d, status <> VDict d) ->
     fst (Init.update env (self, w)) =
       Raise (match status with VNone => TypeError | _ => AttributeError end) /\
     fst (snd (Init.update env (self, w))) = Init.set_status status self) /\
  (forall env (self : MediaPlayer.VlcServer) w status,
     fst (MediaPlayer.fetch_data env None (self, w)) = Ok status ->
     (forall d, status <> VDict d) ->
     fst (MediaPlayer.update env (self, w)) =
       Raise (match status with VNone => TypeError | _ => AttributeError end) /\
     fst (snd (MediaPlayer.update env (self, w))) = MediaPlayer.set_status status self).
Proof.
  split; intros env self w status Hf Hd.
  - destruct (Init_fetched_status env self w _ Hf) as [w' H].
    rewrite (Init_update_unfold env self w w' _ H).
    destruct status as [|s|l|d]; [| | |now destruct (Hd d)].
    + split; reflexivity.
    + assert (E : (Init.update_information ;;; Init.update_state (VStr s) ;;;
                   Init.update_levels (VStr s) ;;; ret true)
                    (Init.set_status (VStr s) self, w') =
                  (Raise AttributeError, (Init.set_status (VStr s) self, w'))).
      { unfold bind at 1.
        rewrite (Init_update_information_non_mapping (Init.set_status (VStr s) self) w');
          [reflexivity | cbn; congruence | cbn; congruence]. }
      rewrite E. split; reflexivity.
    + assert (E : (Init.update_information ;;; Init.update_state (VList l) ;;;
                   Init.update_levels (VList l) ;;; ret true)
                    (Init.set_status (VList l) self, w') =
                  (Raise AttributeError, (Init.set_status (VList l) self, w'))).
      { unfold bind at 1.
        rewrite (Init_update_information_non_mapping (Init.set_status (VList l) self) w');
          [reflexivity | cbn; congruence | cbn; congruence]. }
      rewrite E. split; reflexivity.
  - destruct (MediaPlayer_fetched_status env self w _ Hf) as [w' H].
    rewrite (MediaPlayer_update_unfold env self w w' _ H).
    destruct status as [|s|l|d]; [| | |now destruct (Hd d)].
    + split; reflexivity.
    + assert (E : (MediaPlayer.update_information ;;;
                   MediaPlayer.update_state (VStr s) ;;;
                   MediaPlayer.update_levels (VStr s) ;;; ret true)
                    (MediaPlayer.set_status (VStr s) self, w') =
                  (Raise AttributeError, (MediaPlayer.set_status (VStr s) self, w'))).
      { unfold bind at 1.
        rewrite (MediaPlayer_update_information_non_mapping
                   (MediaPlayer.set_status (VStr s) self) w' (VStr s) eq_refl);
          [reflexivity | congruence | congruence]. }
      rewrite E. split; reflexivity.
    + assert (E : (MediaPlayer.update_information ;;;
                   MediaPlayer.update_state (VList l) ;;;
                   MediaPlayer.update_levels (VList l) ;;; ret true)
                    (MediaPlayer.set_status (VList l) self, w') =
                  (Raise AttributeError, (MediaPlayer.set_status (VList l) self, w'))).
      { unfold bind at 1.
        rewrite (MediaPlayer_update_information_non_mapping
                   (MediaPlayer.set_status (VList l) self) w' (VList l) eq_refl);
          [reflexivity | congruence | congruence]. }
      rewrite E. split; reflexivity.
Qed.

Lemma poll_of_non_mapping_witness :
  fst (Init.fetch_data (answering 200 "<root>busy</root>" (Ok (VDict [("root", VStr "busy")])))
         None (sample_init, quiet)) = Ok (VStr "busy") /\
  fst (Init.update (answering 200 "<root>busy</root>" (Ok (VDict [("root", VStr "busy")])))
         (sample_init, quiet)) = Raise AttributeError /\
  fst (snd (Init.update
              (answering 200 "<root>busy</root>" (Ok (VDict [("root", VStr "busy")])))
              (sample_init, quiet))) = Init.set_status (VStr "busy") sample_init.
Proof.
  split; [reflexivity|].
  apply (proj1 poll_of_non_mapping
           (answering 200 "<root>busy</root>" (Ok (VDict [("root", VStr "busy")])))
           sample_init quiet (VStr "busy") eq_refl).
  intros d; discriminate.
Defined.







(** ** Metadata that is kept, and metadata that is not read *)

Lemma MediaPlayer_update_metadata_after (env : Env) (self : MediaPlayer.VlcServer)
    (w : World) (d : list (string * pyval)) (o1 : MediaPlayer.VlcServer) :
  fst (MediaPlayer.fetch_data env None (self, w)) = Ok (VDict d) ->
  (forall w', MediaPlayer.update_information (MediaPlayer.set_status (VDict d) self, w') =
              (Ok tt, (o1, w'))) ->
  MediaPlayer._media_metadata (fst (snd (MediaPlayer.update env (self, w)))) =
  MediaPlayer._media_metadata o1.
Proof.
  intros Hf Hinfo.
  destruct (MediaPlayer_update_run env self w d Hf) as [w' [md [r [o' [Hi [Hl ->]]]]]].
  rewrite Hinfo in Hi. injection Hi as ->. cbn [fst snd]. cbv zeta in Hl.
  match type of Hl with
  | MediaPlayer.update_levels ?s (?o, ?w0) = _ =>
      destruct (MediaPlayer_update_levels_frame s o w0) as [r2 [o2 [Hl2 [_ [Hm _]]]]];
      rewrite Hl in Hl2; injection Hl2 as _ ->
  end.
  rewrite Hm.
  destruct (eq_str _ "playing"); [reflexivity|].
  destruct (eq_str _ "paused"); [reflexivity|].
  now destruct (eq_str _ "stopped").
Qed.

(** Iterating over anything but a list yields strings, and the loop over
    the categories stops at the first string without storing anything. *)
Lemma iter_non_list (c : pyval) (items : list pyval) :
  (forall l, c <> VList l) -> iter c = Ok items ->
  Forall (fun e => exists s, e = VStr s) items.
Proof.
  intros Hc. destruct c as [|s|l|d]; cbn; intro E; try discriminate.
  - injection E as <-. clear Hc.
    induction s as [|ch s IH]; cbn; constructor; [now eexists | exact IH].
  - now destruct (Hc l).
  - injection E as <-. clear Hc.
    induction d as [|[k v] d IH]; cbn; constructor; [now eexists | exact IH].
Qed.

Lemma Init_update_information_on_strings (l : list pyval)
    (o : Init.VlcServer) (w : World) :
  Forall (fun e => exists s, e = VStr s) l ->
  exists r, for_each l Init.update_information_step (o, w) = (r, (o, w)).
Proof.
  intros [|e l' [s ->] _]; cbn; [now exists (Ok tt)|].
  now exists (Raise AttributeError).
Qed.

Lemma MediaPlayer_update_information_on_strings (l : list pyval)
    (o : MediaPlayer.VlcServer) (w : World) :
  Forall (fun e => exists s, e = VStr s) l ->
  exists r, for_each l MediaPlayer.update_information_step (o, w) = (r, (o, w)).
Proof.
  intros [|e l' [s ->] _]; cbn; [now exists (Ok tt)|].
  now exists (Raise AttributeError).
Qed.

Lemma Init_update_information_no_list (o : Init.VlcServer) (w : World)
    (d : list (string * pyval)) :
  Init._status o = VDict d ->
  (forall information, assoc "information" d = Some information ->
     forall l, getitem information "category" <> Ok (VList l)) ->
  Init.update_information (o, w) = (Ok tt, (o, w)).
Proof.
  intros Hs Hno. unfold Init.update_information. run_py. rewrite Hs. cbn.
  destruct (assoc "information" d) as [information|] eqn:Hi; [|reflexivity].
  cbn. rewrite Hs. cbn. rewrite Hi.
  destruct (getitem information "category") as [c|e] eqn:Hc; [|reflexivity].
  destruct (iter c) as [items|e] eqn:Hit; [|reflexivity].
  assert (Hstr : Forall (fun e => exists s, e = VStr s) items).
  { apply iter_non_list with c; [|exact Hit].
    intros l ->. now apply (Hno information eq_refl l). }
  destruct (Init_update_information_on_strings items o w Hstr) as [r ->].
  now destruct r as [[]|e].
Qed.

Lemma MediaPlayer_update_information_no_list (o : MediaPlayer.VlcServer) (w : World)
    (d : list (string * pyval)) :
  MediaPlayer._status o = Some (VDict d) ->
  (forall information, assoc "information" d = Some information ->
     forall l, getitem information "category" <> Ok (VList l)) ->
  MediaPlayer.update_information (o, w) = (Ok tt, (o, w)).
Proof.
  intros Hs Hno. unfold MediaPlayer.update_information, MediaPlayer.self_status.
  run_py. rewrite Hs. cbn.
  destruct (assoc "information" d) as [information|] eqn:Hi; [|reflexivity].
  cbn. rewrite Hs. cbn. rewrite Hi.
  destruct (getitem information "category") as [c|e] eqn:Hc; [|reflexivity].
  destruct (iter c) as [items|e] eqn:Hit; [|reflexivity].
  assert (Hstr : Forall (fun e => exists s, e = VStr s) items).
  { apply iter_non_list with c; [|exact Hit].
    intros l ->. now apply (Hno information eq_refl l). }
  destruct (MediaPlayer_update_information_on_strings items o w Hstr) as [r ->].
  now destruct r as [[]|e].
Qed.

(** X5. [update] never clears the metadata.  When the fetched status has
    no [information] key, the metadata stored by an earlier poll is still
    there afterwards, in both revisions, whether or not the poll
    completes. *)
Theorem poll_without_information_keeps_metadata :
  (forall env (self : Init.VlcServer) w d,
     fst (Init.fetch_data env None (self, w)) = Ok (VDict d) ->
     assoc "information" d = None ->
     Init._media_metadata (fst (snd (Init.update env (self, w))))
     = Init._media_metadata self) /\
  (forall env (self : MediaPlayer.VlcServer) w d,
     fst (MediaPlayer.fetch_data env None (self, w)) = Ok (VDict d) ->
     assoc "information" d = None ->
     MediaPlayer._media_metadata (fst (snd (MediaPlayer.update env (self, w))))
     = MediaPlayer._media_metadata self).
Proof.
  split; intros env self w d Hf Hi.
  - rewrite (Init_update_metadata_after env self w d (Init.set_status (VDict d) self) Hf);
      [reflexivity|].
    intro w'. now apply Init_update_information_absent with d.
  - rewrite (MediaPlayer_update_metadata_after env self w d
               (MediaPlayer.set_status (VDict d) self) Hf); [reflexivity|].
    intro w'. now apply MediaPlayer_update_information_absent with d.
Qed.

Lemma poll_without_information_keeps_metadata_witness :
  fst (Init.fetch_data (serving status_opening) None
         (Init.set_media_metadata (VStr "kept") sample_init, quiet)) = Ok status_opening /\
  Init._media_metadata
    (fst (snd (Init.update (serving status_opening)
                 (Init.set_media_metadata (VStr "kept") sample_init, quiet))))
  = VStr "kept".
Proof.
  split; [reflexivity|].
  exact (proj1 poll_without_information_keeps_metadata (serving status_opening)
           (Init.set_media_metadata (VStr "kept") sample_init) quiet _
           eq_refl eq_refl).
Defined.

(** X6. The metadata is read only from a list of categories.  When
    [information] has no [category], or one that is not a list (a document
    with a single category decodes to a mapping, not to a list of one),
    [update] leaves the stored metadata as it was, in both revisions. *)
Theorem poll_with_single_category_keeps_metadata :
  (forall env (self : Init.VlcServer) w d information,
     fst (Init.fetch_data env None (self, w)) = Ok (VDict d) ->
     assoc "information" d = Some information ->
     (forall l, getitem information "category" <> Ok (VList l)) ->
     Init._media_metadata (fst (snd (Init.update env (self, w))))
     = Init._media_metadata self) /\
  (forall env (self : MediaPlayer.VlcServer) w d information,
     fst (MediaPlayer.fetch_data env None (self, w)) = Ok (VDict d) ->
     assoc "information" d = Some information ->
     (forall l, getitem information "category" <> Ok (VList l)) ->
     MediaPlayer._media_metadata (fst (snd (MediaPlayer.update env (self, w))))
     = MediaPlayer._media_metadata self).
Proof.
  split; intros env self w d information Hf Hi Hc.
  - rewrite (Init_update_metadata_after env self w d (Init.set_status (VDict d) self) Hf);
      [reflexivity|].
    intro w'. apply Init_update_information_no_list with d; [reflexivity|].
    intros i E. rewrite Hi in E. injection E as <-. exact Hc.
  - rewrite (MediaPlayer_update_metadata_after env self w d
               (MediaPlayer.set_status (VDict d) self) Hf); [reflexivity|].
    intro w'. apply MediaPlayer_update_information_no_list with d; [reflexivity|].
    intros i E. rewrite Hi in E. injection E as <-. exact Hc.
Qed.

Lemma poll_with_single_category_keeps_metadata_witness :
  let meta :=
    VDict [("@name", VStr "meta");
           ("info", VList [VDict [("@name", VStr "showName"); ("#text", VStr "Show")]])] in
  let status :=
    VDict [("time", VStr "1"); ("length", VStr "2"); ("volume", VStr "3");
           ("information", VDict [("category", meta)])] in
  fst (Init.fetch_data (serving status) None (sample_init, quiet)) = Ok status /\
  Init._media_metadata (fst (snd (Init.update (serving status) (sample_init, quiet))))
  = Init._media_metadata sample_init.
Proof.
  cbv zeta. split; [reflexivity|].
  eapply (proj1 poll_with_single_category_keeps_metadata).
  - reflexivity.
  - reflexivity.
  - intros l; discriminate.
Defined.

(** ** The metadata properties *)

(** X7. [media_artist] of [src/__init__.py] can only find an artist in a
    list of entries.  When the stored metadata is anything else (the empty
    mapping of a new object, the mapping a category with a single [info]
    entry decodes to, a string or [None]) it answers the string [None]. *)
Theorem Init_media_artist_needs_a_list :
  forall self : Init.VlcServer,
    (forall l, Init._media_metadata self <> VList l) ->
    Init.media_artist self = Ok (VStr "None").
Proof.
  intros self Hl. apply Init_media_artist_default. intros items Hit.
  pose proof (iter_non_list (Init._media_metadata self) items Hl Hit) as Hstr.
  clear Hit. induction Hstr as [|e l [s ->] _ IH]; [constructor|].
  constructor; [discriminate | exact IH].
Qed.

Lemma Init_media_artist_needs_a_list_witness :
  Init.media_artist
    (Init.set_media_metadata
       (VDict [("@name", VStr "showName"); ("#text", VStr "Show")]) sample_init)
  = Ok (VStr "None").
Proof.
  apply Init_media_artist_needs_a_list. intros l; discriminate.
Defined.

Lemma Init_media_artist_step_bad (bad : pyval) (artist : option pyval) :
  is_ok (getitem bad "@name") = false \/
  (getitem bad "@name" = Ok (VStr "showName") /\ is_ok (getitem bad "#text") = false) ->
  exists e, Init.media_artist_step bad artist = (Raise e, artist).
Proof.
  intros [H | [Hn Ht]]; unfold Init.media_artist_step; run_py.
  - destruct (getitem bad "@name") as [n|e]; [discriminate H | now exists e].
  - rewrite Hn. cbn. destruct (getitem bad "#text") as [t|e];
      [discriminate Ht | now exists e].
Qed.

Lemma Init_media_artist_step_frame (item : pyval) (artist : option pyval) :
  exists r a, Init.media_artist_step item artist = (r, a).
Proof. destruct (Init.media_artist_step item artist) as [r a]. eauto. Qed.

Lemma Init_media_artist_loop_raises (items : list pyval) (bad : pyval) :
  In bad items ->
  is_ok (getitem bad "@name") = false \/
  (getitem bad "@name" = Ok (VStr "showName") /\ is_ok (getitem bad "#text") = false) ->
  forall artist, exists e a,
    for_each items Init.media_artist_step artist = (Raise e, a).
Proof.
  intros Hin Hbad. induction items as [|x xs IH]; [destruct Hin|].
  intro artist. cbn. unfold bind.
  destruct (Init.media_artist_step x artist) as [[[]|e] a] eqn:Hx.
  - destruct Hin as [-> | Hin].
    + destruct (Init_media_artist_step_bad bad artist Hbad) as [e He].
      rewrite He in Hx. discriminate Hx.
    + apply (IH Hin a).
  - now exists e, a.
Qed.

(** X8. One unreadable entry voids the artist.  When the metadata list
    holds an entry that has no [@name] (or is no mapping at all), or an
    entry named [showName] without a [#text], [media_artist] answers the
    string [None], whatever the other entries are and wherever they
    stand. *)
Theorem Init_media_artist_voided_by_bad_entry :
  forall (self : Init.VlcServer) items bad,
    Init._media_metadata self = VList items ->
    In bad items ->
    is_ok (getitem bad "@name") = false \/
    (getitem bad "@name" = Ok (VStr "showName") /\ is_ok (getitem bad "#text") = false) ->
    Init.media_artist self = Ok (VStr "None").
Proof.
  intros self items bad Hm Hin Hbad. unfold Init.media_artist. rewrite Hm. run_py.
  destruct (Init_media_artist_loop_raises items bad Hin Hbad None) as [e [a ->]].
  reflexivity.
Qed.

Lemma Init_media_artist_voided_by_bad_entry_witness :
  let items :=
    [VDict [("@name", VStr "showName"); ("#text", VStr "Show")];
     VDict [("#text", VStr "no name")]] in
  Init.media_artist (Init.set_media_metadata (VList items) sample_init)
  = Ok (VStr "None").
Proof.
  cbv zeta.
  eapply (Init_media_artist_voided_by_bad_entry _ _
            (VDict [("#text", VStr "no name")])).
  - reflexivity.
  - right. now left.
  - now left.
Defined.

Lemma Init_media_artist_loop_readable (l : list pyval) :
  Forall readable_entry l ->
  forall artist, exists a,
    for_each l Init.media_artist_step artist = (Ok tt, a).
Proof.
  induction 1 as [|e l [d [n [-> [Hn Ht]]]] _ IH]; intro artist; cbn;
    [now exists artist|].
  unfold Init.media_artist_step at 1. run_py. rewrite Hn. cbn.
  destruct (eq_str n "showName") eqn:E; cbn.
  - apply eq_str_true in E. destruct (Ht E) as [t Htext]. rewrite Htext. cbn.
    apply IH.
  - apply IH.
Qed.

(** X9. Among several entries named [showName] the last one wins: when
    every entry before it can be read (a mapping with an [@name], and with
    a [#text] if that name is [showName]) and no entry after it is named
    [showName], [media_artist] answers the text of that entry. *)
Theorem Init_media_artist_last_show_name :
  forall (self : Init.VlcServer) pre it post a,
    Init._media_metadata self = VList (pre ++ VDict it :: post) ->
    Forall readable_entry pre ->
    Forall other_entry post ->
    assoc "@name" it = Some (VStr "showName") ->
    assoc "#text" it = Some a ->
    Init.media_artist self = Ok a.
Proof.
  intros self pre it post a Hm Hpre Hpost Hname Htext.
  unfold Init.media_artist. rewrite Hm. run_py.
  assert (E : forall artist,
             for_each (pre ++ VDict it :: post) Init.media_artist_step artist
             = (Ok tt, Some a)).
  { clear Hm. induction Hpre as [|e l [d [n [-> [Hn Ht]]]] _ IH]; intro artist; cbn.
    - unfold Init.media_artist_step at 1. run_py. rewrite Hname. cbn.
      rewrite Htext. cbn. apply Init_media_artist_skip, Hpost.
    - unfold Init.media_artist_step at 1. run_py. rewrite Hn. cbn.
      destruct (eq_str n "showName") eqn:E; cbn.
      + apply eq_str_true in E. destruct (Ht E) as [t Ht']. rewrite Ht'. cbn.
        apply IH.
      + apply IH. }
  now rewrite E.
Qed.

Lemma Init_media_artist_last_show_name_witness :
  let items :=
    [VDict [("@name", VStr "showName"); ("#text", VStr "First")];
     VDict [("@name", VStr "showName"); ("#text", VStr "Second")];
     VDict [("@name", VStr "title"); ("#text", VStr "Song A")]] in
  Init.media_artist (Init.set_media_metadata (VList items) sample_init)
  = Ok (VStr "Second").
Proof.
  cbv zeta.
  eapply (Init_media_artist_last_show_name _
            [VDict [("@name", VStr "showName"); ("#text", VStr "First")]]
            [("@name", VStr "showName"); ("#text", VStr "Second")]
            [VDict [("@name", VStr "title"); ("#text", VStr "Song A")]]
            (VStr "Second")).
  - reflexivity.
  - constructor; [|constructor]. do 2 eexists. split; [reflexivity|].
    split; [reflexivity|]. intros _. now eexists.
  - constructor; [|constructor]. do 2 eexists. split; [reflexivity|].
    split; [reflexivity | discriminate].
  - reflexivity.
  - reflexivity.
Defined.

(** X10. In [media_player.py] the title, artist and type properties read
    the state attribute as if it were a mapping.  They answer [None] as
    long as the state is the empty mapping of a new object and raise an
    [AttributeError] from then on: after any of the three commands, and
    after any poll of a status mapping whose raw state is [playing],
    [paused] or [stopped]. *)
Theorem MediaPlayer_metadata_properties :
  (forall self : MediaPlayer.VlcServer,
     MediaPlayer._state self = StateEmptyDict ->
     MediaPlayer.media_title self = Ok VNone /\
     MediaPlayer.media_artist self = Ok VNone /\
     MediaPlayer.media_type self = Ok VNone) /\
  (forall self : MediaPlayer.VlcServer,
     MediaPlayer._state self <> StateEmptyDict ->
     MediaPlayer.media_title self = Raise AttributeError /\
     MediaPlayer.media_artist self = Raise AttributeError /\
     MediaPlayer.media_type self = Raise AttributeError) /\
  (forall env (self : MediaPlayer.VlcServer) w,
     MediaPlayer.media_title (fst (snd (MediaPlayer.media_play env (self, w))))
     = Raise AttributeError /\
     MediaPlayer.media_title (fst (snd (MediaPlayer.media_pause env (self, w))))
     = Raise AttributeError /\
     MediaPlayer.media_title (fst (snd (MediaPlayer.media_stop env (self, w))))
     = Raise AttributeError) /\
  (forall env (self : MediaPlayer.VlcServer) w d,
     fst (MediaPlayer.fetch_data env None (self, w)) = Ok (VDict d) ->
     assoc "state" d = Some (VStr "playing") \/
     assoc "state" d = Some (VStr "paused") \/
     assoc "state" d = Some (VStr "stopped") ->
     MediaPlayer.media_title (fst (snd (MediaPlayer.update env (self, w))))
     = Raise AttributeError /\
     MediaPlayer.media_artist (fst (snd (MediaPlayer.update env (self, w))))
     = Raise AttributeError).
Proof.
  split; [|split; [|split]].
  - intros self Hs. unfold MediaPlayer.media_title, MediaPlayer.media_artist,
      MediaPlayer.media_type. rewrite Hs. repeat split.
  - intros self Hs. unfold MediaPlayer.media_title, MediaPlayer.media_artist,
      MediaPlayer.media_type.
    destruct (MediaPlayer._state self); [| congruence |]; repeat split.
  - intros env self w. repeat split.
  - intros env self w d Hf Hst.
    unfold MediaPlayer.media_title, MediaPlayer.media_artist.
    pose proof (MediaPlayer_update_state_after env self w d Hf) as Hafter.
    unfold MediaPlayer.state in Hafter. cbv zeta in Hafter. rewrite Hafter.
    destruct Hst as [-> | [-> | ->]]; cbn; split; reflexivity.
Qed.

Lemma MediaPlayer_metadata_properties_witness :
  MediaPlayer._state sample_player = StateEmptyDict /\
  MediaPlayer.media_title sample_player = Ok VNone /\
  MediaPlayer.media_artist sample_player = Ok VNone /\
  MediaPlayer.media_type sample_player = Ok VNone.
Proof.
  split; [reflexivity|].
  exact (proj1 MediaPlayer_metadata_properties sample_player eq_refl).
Defined.

(** ** Requests and log records *)

Lemma Init_fetch_data_world_at (env : Env) (command : option string)
    (self : Init.VlcServer) (w : World) (u : string) :
  Init.build_url self command = Ok u ->
  let r := {| url := u; auth := (Init._username self, Init._password self) |} in
  exists v,
    Init.fetch_data env command (self, w) =
    (Ok v,
     (self,
      {| sent := r :: sent w;
         logged :=
           (if exchange_succeeds env (sent w) r then []
            else [LogError "Failed communicating with VLC Server: %s"]) ++
           LogDebug "URL: %s" :: logged w |})).
Proof.
  intros Hu r. unfold Init.fetch_data. run_py. rewrite Hu. cbn.
  unfold exchange_succeeds. fold r.
  destruct (requests_get env (sent w) r) as [resp|e]; cbn.
  - destruct (status_code resp =? 200); cbn.
    + destruct (xmltodict_parse env (text resp)) as [doc|e]; cbn.
      * destruct (dict_get doc "root") as [data|e]; cbn; eexists; reflexivity.
      * eexists; reflexivity.
    + eexists; reflexivity.
  - eexists; reflexivity.
Qed.

Lemma Init_fetch_data_world (env : Env) (command : option string)
    (self : Init.VlcServer) (w : World) :
  let r := Init_request self command in
  exists v,
    Init.fetch_data env command (self, w) =
    (Ok v,
     (self,
      {| sent := r :: sent w;
         logged :=
           (if exchange_succeeds env (sent w) r then []
            else [LogError "Failed communicating with VLC Server: %s"]) ++
           LogDebug "URL: %s" :: logged w |})).
Proof.
  intro r.
  apply (Init_fetch_data_world_at env command self w (url r)).
  unfold r, Init_request. cbn [url]. rewrite Init_build_url_eq.
  reflexivity.
Qed.

Lemma MediaPlayer_fetch_data_world_at (env : Env) (command : option string)
    (self : MediaPlayer.VlcServer) (w : World) (u : string) :
  MediaPlayer.build_url self command = Ok u ->
  let r := {| url := u; auth := (MediaPlayer._username self, MediaPlayer._password self) |} in
  exists v,
    MediaPlayer.fetch_data env command (self, w) =
    (Ok v,
     (self,
      {| sent := r :: sent w;
         logged :=
           (if exchange_succeeds env (sent w) r then []
            else [LogError "Failed communicating with VLC Server: %s"]) ++
           LogDebug "URL: %s" :: logged w |})).
Proof.
  intros Hu r. unfold MediaPlayer.fetch_data. run_py. rewrite Hu. cbn.
  unfold exchange_succeeds. fold r.
  destruct (requests_get env (sent w) r) as [resp|e]; cbn.
  - destruct (status_code resp =? 200); cbn.
    + destruct (xmltodict_parse env (text resp)) as [doc|e]; cbn.
      * destruct (dict_get doc "root") as [data|e]; cbn; eexists; reflexivity.
      * eexists; reflexivity.
    + eexists; reflexivity.
  - eexists; reflexivity.
Qed.

Lemma MediaPlayer_fetch_data_world (env : Env) (command : option string)
    (self : MediaPlayer.VlcServer) (w : World) :
  let r := MediaPlayer_request self command in
  exists v,
    MediaPlayer.fetch_data env command (self, w) =
    (Ok v,
     (self,
      {| sent := r :: sent w;
         logged :=
           (if exchange_succeeds env (sent w) r then []
            else [LogError "Failed communicating with VLC Server: %s"]) ++
           LogDebug "URL: %s" :: logged w |})).
Proof.
  intro r.
  apply (MediaPlayer_fetch_data_world_at env command self w (url r)).
  unfold r, MediaPlayer_request. cbn [url]. rewrite MediaPlayer_build_url_eq.
  reflexivity.
Qed.

(** X11. What one call of [fetch_data] leaves behind, in both files: one
    request, to the address of the command and with the configured
    credentials, one debug record, and, exactly when the exchange fails
    (no answer, a status code other than 200, a body that does not decode
    to a mapping), one error record, always the one that begins with
    [Failed communicating].  The records [Query failed] and [Received
    invalid response] are never written. *)
Theorem fetch_data_requests_and_records :
  (forall env command (self : Init.VlcServer) w,
     let r := Init_request self command in
     snd (snd (Init.fetch_data env command (self, w))) =
     {| sent := r :: sent w;
        logged :=
          (if exchange_succeeds env (sent w) r then []
           else [LogError "Failed communicating with VLC Server: %s"]) ++
          LogDebug "URL: %s" :: logged w |}) /\
  (forall env command (self : MediaPlayer.VlcServer) w,
     let r := MediaPlayer_request self command in
     snd (snd (MediaPlayer.fetch_data env command (self, w))) =
     {| sent := r :: sent w;
        logged :=
          (if exchange_succeeds env (sent w) r then []
           else [LogError "Failed communicating with VLC Server: %s"]) ++
          LogDebug "URL: %s" :: logged w |}).
Proof.
  split; intros env command self w r.
  - destruct (Init_fetch_data_world env command self w) as [v H].
    fold r in H. now rewrite H.
  - destruct (MediaPlayer_fetch_data_world env command self w) as [v H].
    fold r in H. now rewrite H.
Qed.

Lemma Init_update_information_frame (o : Init.VlcServer) (w : World) :
  exists r o',
    Init.update_information (o, w) = (r, (o', w)) /\
    Init_settings o' = Init_settings o.
Proof.
  unfold Init.update_information. run_py.
  destruct (contains "information" (Init._status o)) as [[|]|e]; cbn;
    try (do 2 eexists; split; reflexivity).
  destruct (getitem (Init._status o) "information") as [information|e]; cbn;
    try (do 2 eexists; split; reflexivity).
  destruct (getitem information "category") as [category|e]; cbn;
    try (do 2 eexists; split; reflexivity).
  destruct (iter category) as [infos|e]; cbn;
    try (do 2 eexists; split; reflexivity).
  destruct (Init_update_information_loop infos o w) as [r [md H]].
  rewrite H. destruct r as [[]|e]; do 2 eexists; split; reflexivity.
Qed.

Lemma MediaPlayer_update_information_frame (o : MediaPlayer.VlcServer) (w : World) :
  exists r o',
    MediaPlayer.update_information (o, w) = (r, (o', w)) /\
    MediaPlayer_settings o' = MediaPlayer_settings o.
Proof.
  unfold MediaPlayer.update_information, MediaPlayer.self_status. run_py.
  destruct (MediaPlayer._status o) as [status|] eqn:Hs; cbn;
    try (do 2 eexists; split; reflexivity).
  destruct (contains "information" status) as [[|]|e]; cbn;
    try (do 2 eexists; split; reflexivity).
  rewrite ?Hs; cbn.
  destruct (getitem status "information") as [information|e]; cbn;
    try (do 2 eexists; split; reflexivity).
  destruct (getitem information "category") as [category|e]; cbn;
    try (do 2 eexists; split; reflexivity).
  destruct (iter category) as [infos|e]; cbn;
    try (do 2 eexists; split; reflexivity).
  destruct (MediaPlayer_update_information_loop infos o w) as [r [md H]].
  rewrite H. destruct r as [[]|e]; do 2 eexists; split; reflexivity.
Qed.

Lemma Init_update_state_frame (status : pyval) (o : Init.VlcServer) (w : World) :
  exists r o',
    Init.update_state status (o, w) = (r, (o', w)) /\
    Init_settings o' = Init_settings o.
Proof.
  unfold Init.update_state. run_py.
  destruct (dict_get status "state") as [s|e]; cbn;
    [|do 2 eexists; split; reflexivity].
  destruct (eq_str s "playing"); cbn; [do 2 eexists; split; reflexivity|].
  destruct (eq_str s "paused"); cbn; do 2 eexists; split; reflexivity.
Qed.

Lemma MediaPlayer_update_state_frame (status : pyval) (o : MediaPlayer.VlcServer)
    (w : World) :
  exists r o',
    MediaPlayer.update_state status (o, w) = (r, (o', w)) /\
    MediaPlayer_settings o' = MediaPlayer_settings o.
Proof.
  unfold MediaPlayer.update_state. run_py.
  destruct (dict_get status "state") as [s|e]; cbn;
    [|do 2 eexists; split; reflexivity].
  destruct (eq_str s "playing"); cbn; [do 2 eexists; split; reflexivity|].
  destruct (eq_str s "paused"); cbn; [do 2 eexists; split; reflexivity|].
  destruct (eq_str s "stopped"); cbn; do 2 eexists; split; reflexivity.
Qed.

Lemma Init_update_levels_settings (status : pyval) (o : Init.VlcServer) (w : World) :
  exists r o',
    Init.update_levels status (o, w) = (r, (o', w)) /\
    Init_settings o' = Init_settings o.
Proof.
  unfold Init.update_levels. run_py.
  repeat match goal with
         | |- context [match ?x with Ok _ => _ | Raise _ => _ end] =>
             destruct x; cbn
         end;
  do 2 eexists; split; reflexivity.
Qed.

Lemma MediaPlayer_update_levels_settings (status : pyval)
    (o : MediaPlayer.VlcServer) (w : World) :
  exists r o',
    MediaPlayer.update_levels status (o, w) = (r, (o', w)) /\
    MediaPlayer_settings o' = MediaPlayer_settings o.
Proof.
  unfold MediaPlayer.update_levels. run_py.
  repeat match goal with
         | |- context [match ?x with Ok _ => _ | Raise _ => _ end] =>
             destruct x; cbn
         end;
  do 2 eexists; split; reflexivity.
Qed.

(** A poll is the fetch and nothing else in the world, and it keeps the
    settings of the object, however it ends. *)
Lemma Init_update_world (env : Env) (self : Init.VlcServer) (w : World) :
  exists r o',
    Init.update env (self, w) =
    (r, (o', snd (snd (Init.fetch_data env None (self, w))))) /\
    Init_settings o' = Init_settings self.
Proof.
  destruct (Init_fetch_data_returns env None self w) as [status [w' Hf]].
  rewrite (Init_update_unfold env self w w' status Hf). rewrite Hf. cbn [snd].
  destruct (Init_update_information_frame (Init.set_status status self) w')
    as [r1 [o1 [H1 S1]]].
  unfold bind at 1. rewrite H1.
  destruct r1 as [[]|e]; [|exists (Raise e), o1; split; [reflexivity | exact S1]].
  destruct (Init_update_state_frame status o1 w') as [r2 [o2 [H2 S2]]].
  unfold bind at 1. rewrite H2.
  destruct r2 as [[]|e];
    [|exists (Raise e), o2; split; [reflexivity | now rewrite S2, S1]].
  destruct (Init_update_levels_settings status o2 w') as [r3 [o3 [H3 S3]]].
  unfold bind at 1. rewrite H3.
  destruct r3 as [[]|e].
  - exists (Ok true), o3. split; [reflexivity | now rewrite S3, S2, S1].
  - exists (Raise e), o3. split; [reflexivity | now rewrite S3, S2, S1].
Qed.

Lemma MediaPlayer_update_world (env : Env) (self : MediaPlayer.VlcServer)
    (w : World) :
  exists r o',
    MediaPlayer.update env (self, w) =
    (r, (o', snd (snd (MediaPlayer.fetch_data env None (self, w))))) /\
    MediaPlayer_settings o' = MediaPlayer_settings self.
Proof.
  destruct (MediaPlayer_fetch_data_returns env None self w) as [status [w' Hf]].
  rewrite (MediaPlayer_update_unfold env self w w' status Hf). rewrite Hf. cbn [snd].
  destruct (MediaPlayer_update_information_frame
              (MediaPlayer.set_status status self) w') as [r1 [o1 [H1 S1]]].
  unfold bind at 1. rewrite H1.
  destruct r1 as [[]|e]; [|exists (Raise e), o1; split; [reflexivity | exact S1]].
  destruct (MediaPlayer_update_state_frame status o1 w') as [r2 [o2 [H2 S2]]].
  unfold bind at 1. rewrite H2.
  destruct r2 as [[]|e];
    [|exists (Raise e), o2; split; [reflexivity | now rewrite S2, S1]].
  destruct (MediaPlayer_update_levels_settings status o2 w') as [r3 [o3 [H3 S3]]].
  unfold bind at 1. rewrite H3.
  destruct r3 as [[]|e].
  - exists (Ok true), o3. split; [reflexivity | now rewrite S3, S2, S1].
  - exists (Raise e), o3. split; [reflexivity | now rewrite S3, S2, S1].
Qed.

(** X12. A poll talks to the server once.  Whatever the answer and however
    the poll ends, by returning or by raising, [update] sends exactly one
    request, the one for the status without a command, and writes no log
    record beyond those of its [fetch_data]: there is no second attempt,
    in either file. *)
Theorem poll_sends_one_request :
  (forall env (self : Init.VlcServer) w,
     let after := snd (snd (Init.update env (self, w))) in
     after = snd (snd (Init.fetch_data env None (self, w))) /\
     sent after = Init_request self None :: sent w) /\
  (forall env (self : MediaPlayer.VlcServer) w,
     let after := snd (snd (MediaPlayer.update env (self, w))) in
     after = snd (snd (MediaPlayer.fetch_data env None (self, w))) /\
     sent after = MediaPlayer_request self None :: sent w).
Proof.
  split; intros env self w after; unfold after.
  - destruct (Init_update_world env self w) as [r [o' [H _]]]. rewrite H. cbn [snd].
    split; [reflexivity|].
    destruct (Init_fetch_data_world env None self w) as [v Hw]. now rewrite Hw.
  - destruct (MediaPlayer_update_world env self w) as [r [o' [H _]]].
    rewrite H. cbn [snd]. split; [reflexivity|].
    destruct (MediaPlayer_fetch_data_world env None self w) as [v Hw].
    now rewrite Hw.
Qed.

(** X13. In [src/__init__.py] each of play, pause and stop sends exactly
    one request.  Play and pause send the same one, the command
    [pl_pause], so the server cannot tell them apart; stop sends
    [pl_stop]. *)
Theorem Init_playback_commands_on_the_wire :
  forall env (self : Init.VlcServer) w,
    sent (snd (snd (Init.media_play env (self, w)))) =
      Init_request self (Some "pl_pause") :: sent w /\
    sent (snd (snd (Init.media_pause env (self, w)))) =
      Init_request self (Some "pl_pause") :: sent w /\
    sent (snd (snd (Init.media_stop env (self, w)))) =
      Init_request self (Some "pl_stop") :: sent w /\
    snd (snd (Init.media_play env (self, w))) =
      snd (snd (Init.media_pause env (self, w))).
Proof.
  intros env self w.
  unfold Init.media_play, Init.media_pause, Init.media_stop.
  destruct (Init_fetch_data_world env (Some "pl_pause") self w) as [v1 H1].
  destruct (Init_fetch_data_world env (Some "pl_stop") self w) as [v2 H2].
  unfold bind. rewrite H1, H2. cbn. repeat split.
Qed.

(** X14. In [media_player.py] play, pause and stop never reach the
    server.  Each calls the coroutine function [fetch_data] without
    awaiting it, so no request is sent and no log record is written; only
    the state attribute of the object changes.  A poll of the same object
    does send its request. *)
Theorem MediaPlayer_playback_commands_send_nothing :
  forall env (self : MediaPlayer.VlcServer) w,
    MediaPlayer.media_play env (self, w) =
      (Ok tt, (MediaPlayer.set_state (StateConst STATE_PLAYING) self, w)) /\
    MediaPlayer.media_pause env (self, w) =
      (Ok tt, (MediaPlayer.set_state (StateConst STATE_PAUSED) self, w)) /\
    MediaPlayer.media_stop env (self, w) =
      (Ok tt, (MediaPlayer.set_state (StateConst STATE_IDLE) self, w)) /\
    sent (snd (snd (MediaPlayer.update env (self, w)))) <> sent w.
Proof.
  intros env self w. repeat split.
  destruct (MediaPlayer_update_world env self w) as [r [o' [H _]]]. rewrite H.
  destruct (MediaPlayer_fetch_data_world env None self w) as [v Hw]. rewrite Hw.
  cbn. intro E. apply (f_equal (@List.length HttpRequest)) in E. cbn in E. lia.
Qed.

(** X15. No method changes where the object connects to: after a poll,
    however it ends, and after every command, the name, host, port, user
    name and password are those the object was built with. *)
Theorem settings_never_change :
  (forall env (self : Init.VlcServer) w,
     Init_settings (fst (snd (Init.update env (self, w)))) = Init_settings self /\
     Init_settings (fst (snd (Init.media_play env (self, w)))) = Init_settings self /\
     Init_settings (fst (snd (Init.media_pause env (self, w)))) = Init_settings self /\
     Init_settings (fst (snd (Init.media_stop env (self, w)))) = Init_settings self /\
     (forall mute,
        Init_settings (fst (snd (Init.mute_volume env mute (self, w))))
        = Init_settings self) /\
     (forall level,
        Init_settings (fst (snd (Init.set_volume_level env level (self, w))))
        = Init_settings self)) /\
  (forall env (self : MediaPlayer.VlcServer) w,
     MediaPlayer_settings (fst (snd (MediaPlayer.update env (self, w))))
     = MediaPlayer_settings self /\
     MediaPlayer_settings (fst (snd (MediaPlayer.media_play env (self, w))))
     = MediaPlayer_settings self /\
     MediaPlayer_settings (fst (snd (MediaPlayer.media_pause env (self, w))))
     = MediaPlayer_settings self /\
     MediaPlayer_settings (fst (snd (MediaPlayer.media_stop env (self, w))))
     = MediaPlayer_settings self).
Proof.
  split; intros env self w.
  - split; [|split; [|split; [|split; [|split]]]].
    + destruct (Init_update_world env self w) as [r [o' [H S]]]. now rewrite H.
    + unfold Init.media_play.
      destruct (Init_command_run env "pl_pause"
                  (Init.set_state (StateConst STATE_PLAYING)) self w) as [w' ->].
      reflexivity.
    + unfold Init.media_pause.
      destruct (Init_command_run env "pl_pause"
                  (Init.set_state (StateConst STATE_PAUSED)) self w) as [w' ->].
      reflexivity.
    + unfold Init.media_stop.
      destruct (Init_command_run env "pl_stop"
                  (Init.set_state (StateConst STATE_IDLE)) self w) as [w' ->].
      reflexivity.
    + intro mute. destruct (Init_mute_volume_run env mute self w) as [r [lg [-> _]]].
      reflexivity.
    + intro level.
      destruct (Init_set_volume_level_frame env level self w) as [r [w' ->]].
      now destruct r.
  - split; [|repeat split].
    destruct (MediaPlayer_update_world env self w) as [r [o' [H S]]]. now rewrite H.
Qed.

(** ** [str] and [int] on integers *)

Lemma int_digits_of_uint_acc (d : Decimal.uint) :
  forall p : positive,
    int_digits (NilEmpty.string_of_uint d) (Zpos p) true =
    Some (Zpos (Pos.of_uint_acc d p)).
Proof.
  assert (step : forall (c : ascii) (k : Z) (s : string) (p q : positive),
             digit_val c = Some k -> 10 * Zpos p + k = Zpos q ->
             int_digits (String c s) (Zpos p) true = int_digits s (Zpos q) true).
  { intros c k s p q Hc Hq. cbn [int_digits]. now rewrite Hc, Hq. }
  induction d; intro p; cbn [NilEmpty.string_of_uint Pos.of_uint_acc];
    [reflexivity | ..]; rewrite <- IHd.
  - apply (step _ 0); [reflexivity | lia].
  - apply (step _ 1); [reflexivity | lia].
  - apply (step _ 2); [reflexivity | lia].
  - apply (step _ 3); [reflexivity | lia].
  - apply (step _ 4); [reflexivity | lia].
  - apply (step _ 5); [reflexivity | lia].
  - apply (step _ 6); [reflexivity | lia].
  - apply (step _ 7); [reflexivity | lia].
  - apply (step _ 8); [reflexivity | lia].
  - apply (step _ 9); [reflexivity | lia].
Qed.

Lemma int_digits_of_uint (d : Decimal.uint) :
  forall b : bool,
    d <> Decimal.Nil \/ b = true ->
    int_digits (NilEmpty.string_of_uint d) 0 b = Some (Z.of_N (Pos.of_uint d)).
Proof.
  induction d; intros b Hb;
    cbn [NilEmpty.string_of_uint Pos.of_uint int_digits].
  - destruct Hb as [Hb | ->]; [now destruct Hb | reflexivity].
  - change (digit_val "0") with (Some 0). cbn. apply IHd. now right.
  - change (digit_val "1") with (Some 1). apply (int_digits_of_uint_acc d 1).
  - change (digit_val "2") with (Some 2). apply (int_digits_of_uint_acc d 2).
  - change (digit_val "3") with (Some 3). apply (int_digits_of_uint_acc d 3).
  - change (digit_val "4") with (Some 4). apply (int_digits_of_uint_acc d 4).
  - change (digit_val "5") with (Some 5). apply (int_digits_of_uint_acc d 5).
  - change (digit_val "6") with (Some 6). apply (int_digits_of_uint_acc d 6).
  - change (digit_val "7") with (Some 7). apply (int_digits_of_uint_acc d 7).
  - change (digit_val "8") with (Some 8). apply (int_digits_of_uint_acc d 8).
  - change (digit_val "9") with (Some 9). apply (int_digits_of_uint_acc d 9).
Qed.

(** A string of decimal digits has no white space to strip. *)
Lemma rstrip_of_uint (d : Decimal.uint) :
  rstrip (NilEmpty.string_of_uint d) = NilEmpty.string_of_uint d.
Proof.
  induction d; cbn [NilEmpty.string_of_uint rstrip]; [reflexivity | ..];
    rewrite IHd; now destruct (NilEmpty.string_of_uint d).
Qed.

Lemma lstrip_of_uint (d : Decimal.uint) :
  lstrip (NilEmpty.string_of_uint d) = NilEmpty.string_of_uint d.
Proof. now destruct d. Qed.

Lemma to_uint_not_Nil (p : positive) : Pos.to_uint p <> Decimal.Nil.
Proof.
  intro E. pose proof (DecimalPos.Unsigned.of_to p) as H.
  rewrite E in H. discriminate H.
Qed.

Lemma int_of_str_of_uint (p : positive) :
  int_of_str (NilEmpty.string_of_uint (Pos.to_uint p)) = Ok (Zpos p).
Proof.
  unfold int_of_str. rewrite lstrip_of_uint, rstrip_of_uint.
  pose proof (int_digits_of_uint (Pos.to_uint p) false
                (or_introl (to_uint_not_Nil p))) as H.
  rewrite DecimalPos.Unsigned.of_to in H. cbn [Z.of_N] in H.
  pose proof (to_uint_not_Nil p) as Hn.
  destruct (Pos.to_uint p) eqn:E; [now destruct Hn | ..];
    cbn [NilEmpty.string_of_uint] in *;
    match goal with
    | |- context [Ascii.eqb ?c "-"] =>
        change (Ascii.eqb c "-") with false; change (Ascii.eqb c "+") with false
    end;
    cbv iota; now rewrite H.
Qed.

(** [int(str(n))] is [n], for every integer. *)
Lemma int_of_str_str_of_int (n : Z) : int_of_str (str_of_int n) = Ok n.
Proof.
  unfold str_of_int. destruct n as [|p|p]; [reflexivity | |];
    cbn [Z.to_int NilZero.string_of_int]; pose proof (to_uint_not_Nil p) as Hn;
    pose proof (int_of_str_of_uint p) as H.
  - unfold NilZero.string_of_uint.
    destruct (Pos.to_uint p); [now destruct Hn | ..]; exact H.
  - assert (E : NilZero.string_of_uint (Pos.to_uint p) =
                NilEmpty.string_of_uint (Pos.to_uint p)).
    { unfold NilZero.string_of_uint.
      destruct (Pos.to_uint p); [now destruct Hn | ..]; reflexivity. }
    rewrite E. clear H. unfold int_of_str.
    assert (Hl : lstrip (String "-" (NilEmpty.string_of_uint (Pos.to_uint p))) =
                 String "-" (NilEmpty.string_of_uint (Pos.to_uint p)))
      by reflexivity.
    rewrite Hl. cbn [rstrip]. rewrite rstrip_of_uint.
    assert (Hs : exists c s, NilEmpty.string_of_uint (Pos.to_uint p) = String c s).
    { destruct (Pos.to_uint p); [now destruct Hn | ..]; cbn; eauto. }
    destruct Hs as [c [s Hs]]. rewrite Hs. rewrite <- Hs.
    change (Ascii.eqb "-" "-") with true. cbv iota.
    rewrite (int_digits_of_uint (Pos.to_uint p) false (or_introl Hn)).
    rewrite DecimalPos.Unsigned.of_to. reflexivity.
Qed.

(** ** Levels outside the unit interval, and the way back *)

Lemma format_volume_command (s : string) :
  format "volume&val={}" [s] = Ok ("volume&val=" ++ s).
Proof. cbn. now rewrite append_empty. Qed.

(** X16. [set_volume_level] does not clamp.  For every level whose product
    with 256 is a finite float it sends [volume&val=N] with [N] the product
    cut off toward zero, and stores the level as given: a level of at
    least 257/256 sends a value above 256, a level of at most -1/256 a
    negative one.  When the product is not finite the method raises an
    [OverflowError], sends nothing and stores nothing. *)
Theorem Init_set_volume_level_does_not_clamp :
  (forall env (self : Init.VlcServer) w level,
     (Qabs level < 2 ^ 1016 # 1)%Q ->
     let n := Z.quot (Qnum level * 256) (Zpos (Qden level)) in
     let after := Init.set_volume_level env level (self, w) in
     fst after = Ok tt /\
     fst (snd after) = Init.set_volume (Some level) self /\
     sent (snd (snd after)) =
       Init_request self (Some ("volume&val=" ++ str_of_int n)) :: sent w /\
     ((257 # 256 <= level)%Q -> 256 < n) /\
     ((level <= -1 # 256)%Q -> n < 0)) /\
  (forall env (self : Init.VlcServer) w level,
     (2 ^ 1016 # 1 <= Qabs level)%Q ->
     Init.set_volume_level env level (self, w) = (Raise OverflowError, (self, w))).
Proof.
  split; intros env self w level H.
  - intros n after.
    assert (R : exists lg,
               after = (Ok tt, (Init.set_volume (Some level) self,
                 {| sent := Init_request self
                              (Some ("volume&val=" ++ str_of_int n)) :: sent w;
                    logged := lg |}))).
    { unfold after, Init.set_volume_level, int_times_256.
      assert (E : Qle_bool (2 ^ 1016 # 1) (Qabs level) = false).
      { destruct (Qle_bool (2 ^ 1016 # 1) (Qabs level)) eqn:E; [|reflexivity].
        apply Qle_bool_iff in E. now apply Qlt_not_le in H. }
      rewrite E. fold n. unfold lift. unfold bind at 1.
      rewrite format_volume_command. unfold bind at 1. unfold bind at 1.
      destruct (Init_fetch_data_world env
                  (Some ("volume&val=" ++ str_of_int n)) self w) as [v Hw].
      rewrite Hw. eexists. reflexivity. }
    destruct R as [lg ->]. cbn [fst snd sent].
    split; [reflexivity|]. split; [reflexivity|]. split; [reflexivity|].
    destruct level as [a b]. unfold Qle, n. cbn [Qnum Qden]. split; intro Hl.
    + apply Z.lt_le_trans with 257; [lia|].
      apply Z.quot_le_lower_bound; lia.
    + assert (Hq : 1 <= Z.quot (- (a * 256)) (Zpos b)).
      { apply Z.quot_le_lower_bound; lia. }
      rewrite Z.quot_opp_l in Hq by lia. lia.
  - unfold Init.set_volume_level, int_times_256.
    apply Qle_bool_iff in H. now rewrite H.
Qed.

Lemma Init_set_volume_level_does_not_clamp_witness :
  ((Qabs (2 # 1) < 2 ^ 1016 # 1)%Q /\
   map url (sent (snd (snd (Init.set_volume_level unreachable (2 # 1)
                              (sample_init, quiet))))) =
   ["http://localhost:8080/requests.status.xml?command=volume&val=512"]) /\
  ((2 ^ 1016 # 1 <= Qabs (2 ^ 1016 # 1))%Q /\
   Init.set_volume_level unreachable (2 ^ 1016 # 1) (sample_init, quiet) =
   (Raise OverflowError, (sample_init, quiet))).
Proof.
  split; (split; [vm_compute; (reflexivity || discriminate)|]).
  - assert (H : (Qabs (2 # 1) < 2 ^ 1016 # 1)%Q) by (vm_compute; reflexivity).
    destruct (proj1 Init_set_volume_level_does_not_clamp unreachable sample_init
                quiet (2 # 1) H) as [_ [_ [Hs _]]].
    rewrite Hs. reflexivity.
  - apply (proj2 Init_set_volume_level_does_not_clamp unreachable sample_init quiet).
    vm_compute. discriminate.
Defined.

(** X17. The way there and back.  When a level between 0 and 1 has been
    set and the next poll finds the server reporting the raw volume it was
    sent, the level read afterwards is the one set, rounded down to a
    multiple of 1/256, and the mute flag is on exactly for the levels
    below 1/256. *)
Theorem Init_volume_round_trip :
  forall env (self : Init.VlcServer) w level d tv lv p l,
    (0 <= level)%Q -> (level <= 1)%Q ->
    let n := Qfloor (level * (256 # 1)) in
    let st := snd (Init.set_volume_level env level (self, w)) in
    fst (Init.fetch_data env None st) = Ok (VDict d) ->
    assoc "time" d = Some tv -> py_int tv = Ok p ->
    assoc "length" d = Some lv -> py_int lv = Ok l ->
    assoc "volume" d = Some (VStr (str_of_int n)) ->
    let o := fst (snd (Init.update env st)) in
    Init.volume_level o = Some (n # 256) /\
    (n # 256 <= level)%Q /\ (level < (n + 1) # 256)%Q /\
    Init.is_volume_muted o = Some (n =? 0) /\
    ((n =? 0) = true <-> (level < 1 # 256)%Q).
Proof.
  intros env self w level d tv lv p l H0 H1 n st Hf Ht Hp Hl Hd Hv o.
  assert (Hn : 0 <= n <= 256 /\ (n # 256 <= level)%Q /\ (level < (n + 1) # 256)%Q).
  { unfold n. destruct level as [a b]. unfold Qfloor, Qmult, Qle, Qlt in *.
    cbn [Qnum Qden] in *. rewrite Pos.mul_1_r.
    assert (Hb : 0 < Zpos b) by lia.
    pose proof (Z.mul_div_le (a * 256) (Zpos b) Hb).
    pose proof (Z.mul_succ_div_gt (a * 256) (Zpos b) Hb).
    assert (0 <= a * 256 / Zpos b) by (apply Z.div_pos; lia).
    assert (a * 256 / Zpos b <= 256).
    { apply Z.div_le_upper_bound; lia. }
    repeat split; lia. }
  destruct Hn as [Hr [Hlo Hhi]].
  assert (Hm : (n =? 0) = true <-> (level < 1 # 256)%Q).
  { rewrite Z.eqb_eq. split.
    - intro E. rewrite E in Hhi. exact Hhi.
    - intro Hlt. assert (Hq : (n # 256 < 1 # 256)%Q)
        by (eapply Qle_lt_trans; eassumption).
      unfold Qlt in Hq. cbn [Qnum Qden] in Hq. lia. }
  unfold o. clear o. revert Hf. unfold st. clear st.
  destruct (Init_set_volume_level_run env level self w H0 H1) as [r [lg [-> _]]].
  cbn [snd]. intro Hf.
  match type of Hf with
  | fst (Init.fetch_data _ _ (?o1, ?w1)) = _ =>
      destruct (Init_update_run env o1 w1 d Hf) as [w' [md [rr [o' [_ [Hlev ->]]]]]]
  end.
  rewrite (Init_update_levels_run d _ w' tv lv (VStr (str_of_int n)) p l n
             Ht Hp Hl Hd Hv (int_of_str_str_of_int n) (small_raw_volume n Hr))
    in Hlev.
  injection Hlev as <- <-. cbn. repeat split; tauto.
Qed.

Lemma Init_volume_round_trip_witness :
  let status :=
    VDict [("time", VStr "7"); ("length", VStr "240"); ("volume", VStr "127")] in
  let st := snd (Init.set_volume_level (serving status) (511 # 1024)
                   (sample_init, quiet)) in
  ((0 <= 511 # 1024)%Q /\ (511 # 1024 <= 1)%Q) /\
  fst (Init.fetch_data (serving status) None st) = Ok status /\
  Init.volume_level (fst (snd (Init.update (serving status) st))) = Some (127 # 256).
Proof.
  cbv zeta. split; [split; discriminate|]. split; [reflexivity|].
  eapply (proj1 (Init_volume_round_trip
                   (serving (VDict [("time", VStr "7"); ("length", VStr "240");
                                    ("volume", VStr "127")]))
                   sample_init quiet (511 # 1024) _ (VStr "7") (VStr "240") 7 240
                   _ _ _ _ _ _ _ _)).
  Unshelve. all: try reflexivity; try discriminate.
Defined.

(** ** Polling twice *)

(** What the loop over the categories does to the object depends on the
    categories only: it leaves the object alone or stores one metadata
    value, the last it came to. *)
Lemma Init_update_information_loop_uniform (infos : list pyval) :
  exists r (f : option pyval), forall (o : Init.VlcServer) (w : World),
    for_each infos Init.update_information_step (o, w) =
    (r, (match f with Some md => Init.set_media_metadata md o | None => o end, w)).
Proof.
  induction infos as [|info infos [r [f IH]]].
  - exists (Ok tt), None. reflexivity.
  - cbn [for_each]. unfold Init.update_information_step at 1.
    destruct (dict_get info "@name") as [n|e].
    + destruct (eq_str n "meta") eqn:Em.
      * destruct (getitem info "info") as [i|e].
        -- exists r, (Some match f with Some md => md | None => i end).
           intros o w. unfold bind, lift. cbv beta iota. rewrite Em.
           unfold self_set, modify. cbv beta iota. cbn [fst snd].
           rewrite (IH (Init.set_media_metadata i o) w). now destruct f.
        -- exists (Raise e), None. intros o w. unfold bind, lift.
           cbv beta iota. rewrite Em. reflexivity.
      * exists r, f. intros o w. unfold bind, lift. cbv beta iota.
        rewrite Em. unfold ret. apply IH.
    + exists (Raise e), None. intros o w. reflexivity.
Qed.

Lemma MediaPlayer_update_information_loop_uniform (infos : list pyval) :
  exists r (f : option pyval), forall (o : MediaPlayer.VlcServer) (w : World),
    for_each infos MediaPlayer.update_information_step (o, w) =
    (r, (match f with
         | Some md => MediaPlayer.set_media_metadata md o
         | None => o
         end, w)).
Proof.
  induction infos as [|info infos [r [f IH]]].
  - exists (Ok tt), None. reflexivity.
  - cbn [for_each]. unfold MediaPlayer.update_information_step at 1.
    destruct (dict_get info "@name") as [n|e].
    + destruct (eq_str n "meta") eqn:Em.
      * destruct (getitem info "info") as [i|e].
        -- exists r, (Some match f with Some md => md | None => i end).
           intros o w. unfold bind, lift. cbv beta iota. rewrite Em.
           unfold self_set, modify. cbv beta iota. cbn [fst snd].
           rewrite (IH (MediaPlayer.set_media_metadata i o) w). now destruct f.
        -- exists (Raise e), None. intros o w. unfold bind, lift.
           cbv beta iota. rewrite Em. reflexivity.
      * exists r, f. intros o w. unfold bind, lift. cbv beta iota.
        rewrite Em. unfold ret. apply IH.
    + exists (Raise e), None. intros o w. reflexivity.
Qed.

Lemma Init_update_information_uniform (status : pyval) :
  exists r (f : option pyval), forall (o : Init.VlcServer) (w : World),
    Init._status o = status ->
    Init.update_information (o, w) =
    (r, (match f with Some md => Init.set_media_metadata md o | None => o end, w)).
Proof.
  unfold Init.update_information.
  destruct (contains "information" status) as [[|]|e] eqn:Ec.
  - destruct (getitem status "information") as [information|e] eqn:Ei.
    + destruct (getitem information "category") as [category|e] eqn:Eg.
      * destruct (iter category) as [infos|e] eqn:Et.
        -- destruct (Init_update_information_loop_uniform infos) as [r [f H]].
           exists (Ok tt), f. intros o w <-. run_py. rewrite Ec. cbn.
           rewrite Ei. cbn. rewrite Eg. cbn. rewrite Et. cbn. rewrite H.
           now destruct r as [[]|e].
        -- exists (Ok tt), None. intros o w <-. run_py. rewrite Ec. cbn.
           rewrite Ei. cbn. rewrite Eg. cbn. now rewrite Et.
      * exists (Ok tt), None. intros o w <-. run_py. rewrite Ec. cbn.
        rewrite Ei. cbn. now rewrite Eg.
    + exists (Ok tt), None. intros o w <-. run_py. rewrite Ec. cbn.
      now rewrite Ei.
  - exists (Ok tt), None. intros o w <-. run_py. now rewrite Ec.
  - exists (Raise e), None. intros o w <-. run_py. now rewrite Ec.
Qed.

Lemma MediaPlayer_update_information_uniform (status : pyval) :
  exists r (f : option pyval), forall (o : MediaPlayer.VlcServer) (w : World),
    MediaPlayer._status o = Some status ->
    MediaPlayer.update_information (o, w) =
    (r, (match f with
         | Some md => MediaPlayer.set_media_metadata md o
         | None => o
         end, w)).
Proof.
  unfold MediaPlayer.update_information, MediaPlayer.self_status.
  destruct (contains "information" status) as [[|]|e] eqn:Ec.
  - destruct (getitem status "information") as [information|e] eqn:Ei.
    + destruct (getitem information "category") as [category|e] eqn:Eg.
      * destruct (iter category) as [infos|e] eqn:Et.
        -- destruct (MediaPlayer_update_information_loop_uniform infos)
             as [r [f H]].
           exists (Ok tt), f. intros o w Hs. run_py. rewrite Hs. cbn.
           rewrite Ec. cbn. rewrite Hs. cbn.
           rewrite Ei. cbn. rewrite Eg. cbn. rewrite Et. cbn. rewrite H.
           now destruct r as [[]|e].
        -- exists (Ok tt), None. intros o w Hs. run_py. rewrite Hs. cbn.
           rewrite Ec. cbn. rewrite Hs. cbn.
           rewrite Ei. cbn. rewrite Eg. cbn. now rewrite Et.
      * exists (Ok tt), None. intros o w Hs. run_py. rewrite Hs. cbn.
        rewrite Ec. cbn. rewrite Hs. cbn. rewrite Ei. cbn. now rewrite Eg.
    + exists (Ok tt), None. intros o w Hs. run_py. rewrite Hs. cbn.
      rewrite Ec. cbn. rewrite Hs. cbn. now rewrite Ei.
  - exists (Ok tt), None. intros o w Hs. run_py. rewrite Hs. cbn. now rewrite Ec.
  - exists (Raise e), None. intros o w Hs. run_py. rewrite Hs. cbn. now rewrite Ec.
Qed.

(** The state and the conversions, run again on their own result with the
    same status, give the same result. *)
Lemma Init_update_tail_twice (status : pyval) (f : option pyval)
    (o : Init.VlcServer) (w w2 : World) :
  let F := fun x => match f with
                    | Some md => Init.set_media_metadata md x
                    | None => x
                    end in
  let tail := Init.update_state status ;;; Init.update_levels status ;;; ret true in
  let first := tail (F (Init.set_status status o), w) in
  tail (F (Init.set_status status (fst (snd first))), w2) =
  (fst first, (fst (snd first), w2)).
Proof.
  cbv zeta. unfold Init.update_state, Init.update_levels. run_py.
  repeat match goal with
         | |- context [match ?x with Ok _ => _ | Raise _ => _ end] =>
             destruct x; cbn
         | |- context [if eq_str ?a ?b then _ else _] =>
             destruct (eq_str a b); cbn
         end;
  destruct f; reflexivity.
Qed.

Lemma MediaPlayer_update_tail_twice (status : pyval) (f : option pyval)
    (o : MediaPlayer.VlcServer) (w w2 : World) :
  let F := fun x => match f with
                    | Some md => MediaPlayer.set_media_metadata md x
                    | None => x
                    end in
  let tail :=
    MediaPlayer.update_state status ;;; MediaPlayer.update_levels status ;;;
    ret true in
  let first := tail (F (MediaPlayer.set_status status o), w) in
  tail (F (MediaPlayer.set_status status (fst (snd first))), w2) =
  (fst first, (fst (snd first), w2)).
Proof.
  cbv zeta. unfold MediaPlayer.update_state, MediaPlayer.update_levels. run_py.
  repeat match goal with
         | |- context [match ?x with Ok _ => _ | Raise _ => _ end] =>
             destruct x; cbn
         | |- context [if eq_str ?a ?b then _ else _] =>
             destruct (eq_str a b); cbn
         end;
  destruct f; reflexivity.
Qed.

Lemma Init_update_twice (env : Env) (self : Init.VlcServer) (w : World)
    (status : pyval) :
  fst (Init.fetch_data env None (self, w)) = Ok status ->
  exists r o1 w1,
    Init.update env (self, w) = (r, (o1, w1)) /\
    forall wa wb,
      Init.fetch_data env None (o1, wa) = (Ok status, (o1, wb)) ->
      Init.update env (o1, wa) = (r, (o1, wb)).
Proof.
  intro Hf. destruct (Init_fetched_status env self w status Hf) as [w' H].
  rewrite (Init_update_unfold env self w w' status H).
  destruct (Init_update_information_uniform status) as [r1 [f HI]].
  unfold bind at 1. rewrite (HI (Init.set_status status self) w' eq_refl).
  destruct r1 as [[]|e]; cbv beta iota.
  - pose proof (fun w2 => Init_update_tail_twice status f self w' w2) as T.
    cbv zeta in T.
    destruct ((Init.update_state status ;;; Init.update_levels status ;;; ret true)
                (match f with
                 | Some md =>
                     Init.set_media_metadata md (Init.set_status status self)
                 | None => Init.set_status status self
                 end, w')) as [r [o1 w1]].
    cbn [fst snd] in T. exists r, o1, w1. split; [reflexivity|].
    intros wa wb H2. rewrite (Init_update_unfold env o1 wa wb status H2).
    unfold bind at 1. rewrite (HI (Init.set_status status o1) wb eq_refl).
    cbv beta iota. apply T.
  - do 3 eexists. split; [reflexivity|].
    intros wa wb H2. rewrite (Init_update_unfold env _ wa wb status H2).
    unfold bind at 1.
    match goal with
    | |- context [Init.update_information (?o, wb)] =>
        rewrite (HI o wb eq_refl)
    end.
    now destruct f.
Qed.

Lemma MediaPlayer_update_twice (env : Env) (self : MediaPlayer.VlcServer) (w : World)
    (status : pyval) :
  fst (MediaPlayer.fetch_data env None (self, w)) = Ok status ->
  exists r o1 w1,
    MediaPlayer.update env (self, w) = (r, (o1, w1)) /\
    forall wa wb,
      MediaPlayer.fetch_data env None (o1, wa) = (Ok status, (o1, wb)) ->
      MediaPlayer.update env (o1, wa) = (r, (o1, wb)).
Proof.
  intro Hf. destruct (MediaPlayer_fetched_status env self w status Hf) as [w' H].
  rewrite (MediaPlayer_update_unfold env self w w' status H).
  destruct (MediaPlayer_update_information_uniform status) as [r1 [f HI]].
  unfold bind at 1. rewrite (HI (MediaPlayer.set_status status self) w' eq_refl).
  destruct r1 as [[]|e]; cbv beta iota.
  - pose proof (fun w2 => MediaPlayer_update_tail_twice status f self w' w2) as T.
    cbv zeta in T.
    destruct ((MediaPlayer.update_state status ;;; MediaPlayer.update_levels status ;;; ret true)
                (match f with
                 | Some md =>
                     MediaPlayer.set_media_metadata md (MediaPlayer.set_status status self)
                 | None => MediaPlayer.set_status status self
                 end, w')) as [r [o1 w1]].
    cbn [fst snd] in T. exists r, o1, w1. split; [reflexivity|].
    intros wa wb H2. rewrite (MediaPlayer_update_unfold env o1 wa wb status H2).
    unfold bind at 1. rewrite (HI (MediaPlayer.set_status status o1) wb eq_refl).
    cbv beta iota. apply T.
  - do 3 eexists. split; [reflexivity|].
    intros wa wb H2. rewrite (MediaPlayer_update_unfold env _ wa wb status H2).
    unfold bind at 1.
    match goal with
    | |- context [MediaPlayer.update_information (?o, wb)] =>
        rewrite (HI o wb eq_refl)
    end.
    now destruct f.
Qed.

(** X18. Polling a server whose status has not changed changes nothing.
    When a second poll fetches the same status as the one before it, it
    ends the same way, by returning or with the same exception, and
    leaves every attribute of the object as the first poll left it; this
    holds for every status, also for those on which the poll raises. *)
Theorem poll_is_idempotent :
  (forall env (self : Init.VlcServer) w status,
     fst (Init.fetch_data env None (self, w)) = Ok status ->
     let first := Init.update env (self, w) in
     fst (Init.fetch_data env None (snd first)) = Ok status ->
     fst (Init.update env (snd first)) = fst first /\
     fst (snd (Init.update env (snd first))) = fst (snd first)) /\
  (forall env (self : MediaPlayer.VlcServer) w status,
     fst (MediaPlayer.fetch_data env None (self, w)) = Ok status ->
     let first := MediaPlayer.update env (self, w) in
     fst (MediaPlayer.fetch_data env None (snd first)) = Ok status ->
     fst (MediaPlayer.update env (snd first)) = fst first /\
     fst (snd (MediaPlayer.update env (snd first))) = fst (snd first)).
Proof.
  split; intros env self w status Hf first; unfold first; clear first.
  - destruct (Init_update_twice env self w status Hf) as [r [o1 [w1 [-> T]]]].
    cbn [fst snd]. intro Hf2.
    destruct (Init_fetched_status env o1 w1 status Hf2) as [w2 H2].
    rewrite (T w1 w2 H2). split; reflexivity.
  - destruct (MediaPlayer_update_twice env self w status Hf)
      as [r [o1 [w1 [-> T]]]].
    cbn [fst snd]. intro Hf2.
    destruct (MediaPlayer_fetched_status env o1 w1 status Hf2) as [w2 H2].
    rewrite (T w1 w2 H2). split; reflexivity.
Qed.

Lemma poll_is_idempotent_witness :
  let first := Init.update (serving status_song) (sample_init, quiet) in
  fst (Init.fetch_data (serving status_song) None (sample_init, quiet))
  = Ok status_song /\
  fst (Init.fetch_data (serving status_song) None (snd first)) = Ok status_song /\
  fst (Init.update (serving status_song) (snd first)) = fst first /\
  fst (snd (Init.update (serving status_song) (snd first))) = fst (snd first).
Proof.
  cbv zeta. split; [reflexivity|]. split; [reflexivity|].
  apply (proj1 poll_is_idempotent (serving status_song) sample_init quiet
           status_song); reflexivity.
Defined.

(** ** A malformed category *)

Lemma Init_update_information_loop_stops (pre post : list pyval) (bad : pyval) :
  Forall other_category pre ->
  is_ok (dict_get bad "@name") = false \/
  (dict_get bad "@name" = Ok (VStr "meta") /\ is_ok (getitem bad "info") = false) ->
  forall (o : Init.VlcServer) (w : World),
  exists e,
    for_each (pre ++ bad :: post) Init.update_information_step (o, w) =
    (Raise e, (o, w)).
Proof.
  intros Hpre Hbad o w. induction Hpre as [|c l [d [-> Hn]] _ IH]; cbn.
  - unfold Init.update_information_step at 1. unfold bind at 1. unfold bind at 1.
    unfold lift at 1. destruct Hbad as [Hb | [Hb Hi]].
    + destruct (dict_get bad "@name") as [n|e]; [discriminate Hb | now exists e].
    + rewrite Hb. cbn. destruct (getitem bad "info") as [i|e];
        [discriminate Hi | now exists e].
  - unfold Init.update_information_step at 1. rewrite dict_get_VDict. run_py.
    assert (E : eq_str match assoc "@name" d with Some v => v | None => VNone end "meta"
                = false).
    { apply eq_str_false. destruct (assoc "@name" d); congruence. }
    rewrite E. cbn. exact IH.
Qed.

Lemma MediaPlayer_update_information_loop_stops (pre post : list pyval)
    (bad : pyval) :
  Forall other_category pre ->
  is_ok (dict_get bad "@name") = false \/
  (dict_get bad "@name" = Ok (VStr "meta") /\ is_ok (getitem bad "info") = false) ->
  forall (o : MediaPlayer.VlcServer) (w : World),
  exists e,
    for_each (pre ++ bad :: post) MediaPlayer.update_information_step (o, w) =
    (Raise e, (o, w)).
Proof.
  intros Hpre Hbad o w. induction Hpre as [|c l [d [-> Hn]] _ IH]; cbn.
  - unfold MediaPlayer.update_information_step at 1. unfold bind at 1.
    unfold bind at 1. unfold lift at 1. destruct Hbad as [Hb | [Hb Hi]].
    + destruct (dict_get bad "@name") as [n|e]; [discriminate Hb | now exists e].
    + rewrite Hb. cbn. destruct (getitem bad "info") as [i|e];
        [discriminate Hi | now exists e].
  - unfold MediaPlayer.update_information_step at 1. rewrite dict_get_VDict. run_py.
    assert (E : eq_str match assoc "@name" d with Some v => v | None => VNone end "meta"
                = false).
    { apply eq_str_false. destruct (assoc "@name" d); congruence. }
    rewrite E. cbn. exact IH.
Qed.

(** X19. The loop over the categories ends at the first entry it cannot
    read, and the exception is swallowed.  When the category list holds,
    before any category named [meta], an entry that is no mapping, or a
    category named [meta] without an [info], the poll leaves the stored
    metadata as it was, whatever comes after that entry, a good [meta]
    category included; this holds in both files. *)
Theorem poll_stops_reading_at_malformed_category :
  (forall env (self : Init.VlcServer) w d information pre bad post,
     fst (Init.fetch_data env None (self, w)) = Ok (VDict d) ->
     assoc "information" d = Some information ->
     getitem information "category" = Ok (VList (pre ++ bad :: post)) ->
     Forall other_category pre ->
     is_ok (dict_get bad "@name") = false \/
     (dict_get bad "@name" = Ok (VStr "meta") /\ is_ok (getitem bad "info") = false) ->
     Init._media_metadata (fst (snd (Init.update env (self, w)))) =
     Init._media_metadata self) /\
  (forall env (self : MediaPlayer.VlcServer) w d information pre bad post,
     fst (MediaPlayer.fetch_data env None (self, w)) = Ok (VDict d) ->
     assoc "information" d = Some information ->
     getitem information "category" = Ok (VList (pre ++ bad :: post)) ->
     Forall other_category pre ->
     is_ok (dict_get bad "@name") = false \/
     (dict_get bad "@name" = Ok (VStr "meta") /\ is_ok (getitem bad "info") = false) ->
     MediaPlayer._media_metadata (fst (snd (MediaPlayer.update env (self, w)))) =
     MediaPlayer._media_metadata self).
Proof.
  split; intros env self w d information pre bad post Hf Hi Hc Hpre Hbad.
  - rewrite (Init_update_metadata_after env self w d
               (Init.set_status (VDict d) self) Hf); [reflexivity|].
    intro w'. unfold Init.update_information. run_py. rewrite Hi. cbn.
    rewrite Hi. cbn. rewrite Hc. cbn.
    destruct (Init_update_information_loop_stops pre post bad Hpre Hbad
                (Init.set_status (VDict d) self) w') as [e ->].
    reflexivity.
  - rewrite (MediaPlayer_update_metadata_after env self w d
               (MediaPlayer.set_status (VDict d) self) Hf); [reflexivity|].
    intro w'. unfold MediaPlayer.update_information, MediaPlayer.self_status.
    run_py. rewrite Hi. cbn. rewrite Hi. cbn. rewrite Hc. cbn.
    destruct (MediaPlayer_update_information_loop_stops pre post bad Hpre Hbad
                (MediaPlayer.set_status (VDict d) self) w') as [e ->].
    reflexivity.
Qed.

Lemma poll_stops_reading_at_malformed_category_witness :
  let meta :=
    VDict [("@name", VStr "meta");
           ("info", VList [VDict [("@name", VStr "showName"); ("#text", VStr "Show")]])] in
  let status :=
    VDict [("information", VDict [("category", VList [VNone; meta])]);
           ("state", VStr "playing"); ("time", VStr "7"); ("length", VStr "240");
           ("volume", VStr "128")] in
  fst (Init.fetch_data (serving status) None (sample_init, quiet)) = Ok status /\
  Init._media_metadata (fst (snd (Init.update (serving status) (sample_init, quiet))))
  = Init._media_metadata sample_init.
Proof.
  cbv zeta. split; [reflexivity|].
  eapply (proj1 poll_stops_reading_at_malformed_category _ _ _ _ _ [] VNone _).
  - reflexivity.
  - reflexivity.
  - reflexivity.
  - constructor.
  - now left.
Defined.

(** ** Set-up *)

Lemma lookup_store_same (V : Type) (k : string) (v : V) (d : list (string * V)) :
  lookup k (store k v d) = Some v.
Proof.
  induction d as [|[k' v'] d IH]; cbn.
  - now rewrite String.eqb_refl.
  - destruct (String.eqb k k') eqn:E; cbn.
    + now rewrite String.eqb_refl.
    + now rewrite E.
Qed.

Lemma lookup_store_other (V : Type) (k k0 : string) (v : V) (d : list (string * V)) :
  k0 <> k -> lookup k0 (store k v d) = lookup k0 d.
Proof.
  intro Hk. induction d as [|[k' v'] d IH]; cbn.
  - apply String.eqb_neq in Hk. now rewrite Hk.
  - destruct (String.eqb k k') eqn:E; cbn.
    + apply String.eqb_eq in E. subst k'.
      apply String.eqb_neq in Hk. now rewrite Hk.
    + now rewrite IH.
Qed.

Lemma store_store_same (V : Type) (k : string) (v1 v2 : V) (d : list (string * V)) :
  store k v2 (store k v1 d) = store k v2 d.
Proof.
  induction d as [|[k' v'] d IH]; cbn.
  - now rewrite String.eqb_refl.
  - destruct (String.eqb k k') eqn:E; cbn.
    + now rewrite String.eqb_refl.
    + now rewrite E, IH.
Qed.

(** X20. [setup_platform] of [src/__init__.py] hands the host one new
    object, built from the configuration: a missing name becomes
    [VLC Remote], a missing user name or password the empty string, a
    missing host or port [None].  The first poll of that object asks
    the address made of the configured host and port, with the configured
    credentials. *)
Theorem Init_setup_platform_object :
  forall (H : Type) (config : Config)
         (async_add_devices : list Init.VlcServer -> H -> H) (h : H),
  exists e,
    Init.setup_platform config async_add_devices h = async_add_devices [e] h /\
    Init_settings e =
      (config_get config CONF_NAME (CStr "VLC Remote"),
       config_get config CONF_HOST CNone,
       config_get config CONF_PORT CNone,
       config_get config CONF_USERNAME (CStr ""),
       config_get config CONF_PASSWORD (CStr "")) /\
    (Init.state e = StateNone /\ Init.volume_level e = None /\
     Init.is_volume_muted e = None /\ Init.media_position e = None /\
     Init.media_duration e = None /\ Init.media_artist e = Ok (VStr "None")) /\
    forall env w,
      sent (snd (snd (Init.update env (e, w)))) =
      {| url := "http://" ++ py_str (config_get config CONF_HOST CNone) ++ ":" ++
                py_str (config_get config CONF_PORT CNone) ++
                "/requests.status.xml";
         auth := (config_get config CONF_USERNAME (CStr ""),
                  config_get config CONF_PASSWORD (CStr "")) |} :: sent w.
Proof.
  intros H config add h. eexists. split; [reflexivity|].
  split; [reflexivity|]. split; [repeat split|].
  intros env w.
  match goal with
  | |- context [Init.update env (?e, w)] =>
      destruct (Init_update_world env e w) as [r [o' [Hu _]]];
      destruct (Init_fetch_data_world env None e w) as [v Hw]
  end.
  rewrite Hu, Hw. cbn [snd sent]. unfold Init_request. cbn [Init._host Init._port
    Init._username Init._password Init.init]. now rewrite append_empty.
Qed.

(** X21. [async_setup_platform] of [media_player.py] reads the
    configuration without defaults, hands the host one new object and
    records it in the host's data under the key [vlc remote], leaving
    every other key as it was; the empty dictionary it first puts there
    never stays.  A second set-up replaces the entry of the first: both
    objects have been handed to the host, the data remembers the last
    only. *)
Theorem MediaPlayer_async_setup_platform_registry :
  forall (H : Type) (config : Config)
         (async_add_entities : list MediaPlayer.VlcServer -> H -> H)
         (data : list (string * MediaPlayer.hass_datum)) (h : H),
    let e :=
      MediaPlayer.init (config_get config CONF_NAME CNone)
        (config_get config CONF_HOST CNone) (config_get config CONF_PORT CNone)
        (config_get config CONF_USERNAME CNone)
        (config_get config CONF_PASSWORD CNone) in
    let after :=
      MediaPlayer.async_setup_platform config async_add_entities (data, h) in
    snd after = async_add_entities [e] h /\
    lookup MediaPlayer.DATA_VLCREMOTE (fst after) = Some (MediaPlayer.Entity e) /\
    (forall k, k <> MediaPlayer.DATA_VLCREMOTE ->
               lookup k (fst after) = lookup k data) /\
    (forall config2,
       let e2 :=
         MediaPlayer.init (config_get config2 CONF_NAME CNone)
           (config_get config2 CONF_HOST CNone) (config_get config2 CONF_PORT CNone)
           (config_get config2 CONF_USERNAME CNone)
           (config_get config2 CONF_PASSWORD CNone) in
       let again :=
         MediaPlayer.async_setup_platform config2 async_add_entities after in
       snd again = async_add_entities [e2] (async_add_entities [e] h) /\
       lookup MediaPlayer.DATA_VLCREMOTE (fst again) = Some (MediaPlayer.Entity e2) /\
       fst again =
         fst (MediaPlayer.async_setup_platform config2 async_add_entities (data, h))).
Proof.
  intros H config add data h e after.
  assert (Hfst : forall c st,
            fst (MediaPlayer.async_setup_platform c add st) =
            store MediaPlayer.DATA_VLCREMOTE
              (MediaPlayer.Entity
                 (MediaPlayer.init (config_get c CONF_NAME CNone)
                    (config_get c CONF_HOST CNone) (config_get c CONF_PORT CNone)
                    (config_get c CONF_USERNAME CNone)
                    (config_get c CONF_PASSWORD CNone)))
              (fst st)).
  { intros c st. unfold MediaPlayer.async_setup_platform. cbn [fst].
    destruct (lookup MediaPlayer.DATA_VLCREMOTE (fst st)); [reflexivity|].
    apply store_store_same. }
  split; [reflexivity|]. split; [|split].
  - unfold after. rewrite Hfst. apply lookup_store_same.
  - intros k Hk. unfold after. rewrite Hfst. now apply lookup_store_other.
  - intros config2 e2 again. split; [reflexivity|]. unfold again.
    rewrite !Hfst. split; [apply lookup_store_same|].
    unfold after. rewrite Hfst. cbn [fst]. apply store_store_same.
Qed.

Lemma MediaPlayer_async_setup_platform_registry_witness :
  let data := [("other", MediaPlayer.Foreign "x")] in
  let after :=
    MediaPlayer.async_setup_platform [("host", CStr "vlc.local")]
      (fun es h => (h ++ es)%list) (data, []) in
  "other" <> MediaPlayer.DATA_VLCREMOTE /\
  lookup "other" (fst after) = Some (MediaPlayer.Foreign "x").
Proof.
  cbv zeta. split; [discriminate|].
  apply (proj1 (proj2 (proj2
           (MediaPlayer_async_setup_platform_registry _
              [("host", CStr "vlc.local")] (fun es h => (h ++ es)%list)
              [("other", MediaPlayer.Foreign "x")] []))) "other").
  discriminate.
Defined.

(** ** Feature flags *)

Lemma land_lor_keeps (x y f : Z) : Z.land x f = f -> Z.land (Z.lor x y) f = f.
Proof.
  intro H. apply Z.bits_inj'. intros n _.
  assert (Hn : Z.testbit (Z.land x f) n = Z.testbit f n) by now rewrite H.
  rewrite Z.land_spec in Hn. rewrite Z.land_spec, Z.lor_spec.
  destruct (Z.testbit x n), (Z.testbit y n), (Z.testbit f n);
    cbn in *; congruence.
Qed.

Lemma land_lor_last (x f : Z) : Z.land (Z.lor x f) f = f.
Proof.
  apply Z.bits_inj'. intros n _. rewrite Z.land_spec, Z.lor_spec.
  destruct (Z.testbit x n), (Z.testbit f n); reflexivity.
Qed.

Lemma land_self (f : Z) : Z.land f f = f.
Proof. apply Z.land_diag. Qed.

(** X22. Whatever values Home Assistant gives the feature flags, the
    features an object reports pass the host's test [features & flag ==
    flag] for each flag its file lists: five in [src/__init__.py], ten in
    [media_player.py], whose set includes that of [src/__init__.py]. *)
Theorem supported_features_hold_their_flags :
  forall (F : Features) (a : Init.VlcServer) (b : MediaPlayer.VlcServer),
    let has := fun features flag => Z.land features flag = flag in
    (has (Init.supported_features F a) (SUPPORT_PAUSE F) /\
     has (Init.supported_features F a) (SUPPORT_VOLUME_MUTE F) /\
     has (Init.supported_features F a) (SUPPORT_PLAY F) /\
     has (Init.supported_features F a) (SUPPORT_VOLUME_SET F) /\
     has (Init.supported_features F a) (SUPPORT_STOP F)) /\
    (has (MediaPlayer.supported_features F b) (SUPPORT_PAUSE F) /\
     has (MediaPlayer.supported_features F b) (SUPPORT_VOLUME_MUTE F) /\
     has (MediaPlayer.supported_features F b) (SUPPORT_PLAY F) /\
     has (MediaPlayer.supported_features F b) (SUPPORT_VOLUME_SET F) /\
     has (MediaPlayer.supported_features F b) (SUPPORT_STOP F) /\
     has (MediaPlayer.supported_features F b) (SUPPORT_VOLUME_STEP F) /\
     has (MediaPlayer.supported_features F b) (SUPPORT_PREVIOUS_TRACK F) /\
     has (MediaPlayer.supported_features F b) (SUPPORT_NEXT_TRACK F) /\
     has (MediaPlayer.supported_features F b) (SUPPORT_SEEK F) /\
     has (MediaPlayer.supported_features F b) (SUPPORT_CLEAR_PLAYLIST F)) /\
    has (MediaPlayer.supported_features F b) (Init.supported_features F a).
Proof.
  intros F a b has. unfold has, Init.supported_features,
    MediaPlayer.supported_features, Init.SUPPORT_VLCREMOTE,
    MediaPlayer.SUPPORT_VLCREMOTE.
  split; [|split].
  - repeat split;
      repeat first [apply land_lor_last | apply land_self | apply land_lor_keeps].
  - repeat split;
      repeat first [apply land_lor_last | apply land_self | apply land_lor_keeps].
  - do 5 apply land_lor_keeps. apply land_self.
Qed.
